(** * telemost-bitrix-app: the conference repository, the Telemost client
      and the conference routes

    A shallow embedding of [database.py], [models/telemost.py] and the
    conference routes of [app.py], followed by the properties the
    specification states about them.

    Conventions of the embedding.
    - A Python value is a [pyval]; a dict is an association list in insertion
      order with string keys (every dict of this program is built from string
      literals or parsed from JSON).  Text is a Rocq [string], one character
      per code point.  A float is carried by its literal; nothing is computed
      on floats.
    - A Python call that may raise returns a [res]: [Ok v] or [Raise e].
      [try/except] is a [match] on it.
    - The SQLite file is a [db]: the rows of table [conferences] in rowid
      order and the AUTOINCREMENT counter.  [CURRENT_TIMESTAMP] is an explicit
      argument [now] of every statement that reads it.
    - The network is a function [send] from the request that the [requests]
      library is given to what it returns or raises. *)

From Stdlib Require Import ZArith List String Ascii Bool Lia.
From Stdlib Require Import DecimalString DecimalZ.
From Stdlib Require Import Permutation Sorted.
Import ListNotations.

Set Warnings "-register-all".

Local Open Scope string_scope.
Local Open Scope Z_scope.

(* ================================================================== *)
(** ** Python values, exceptions and the built-ins the program uses   *)
(* ================================================================== *)

Module Py.

Inductive pyval : Type :=
| PNone : pyval
| PBool : bool -> pyval
| PInt : Z -> pyval
| PFloat : string -> pyval
| PStr : string -> pyval
| PList : list pyval -> pyval
| PDict : list (string * pyval) -> pyval.

Definition dict := list (string * pyval).

(** Exception classes that occur in the modelled code.  The two JSON errors
    differ by the installed [requests]: [RequestsJSONDecodeError] is the one
    of requests >= 2.27, which is also a [RequestException]. *)
Inductive exn_class : Type :=
| KeyError | AttributeError | TypeError | ValueError | OverflowError
| RecursionError
| IntegrityError | InterfaceError | OperationalError
| JSONDecodeError | RequestsJSONDecodeError
| RequestException
| BadRequest.

(** An exception: its class, [str(e)], and, for the exceptions of
    [requests], the status code of [e.response] when there is one. *)
Record exn : Type := mk_exn {
  cls : exn_class;
  msg : string;
  response_status : option Z
}.

Definition exc (c : exn_class) (m : string) : exn := mk_exn c m None.

Inductive res (A : Type) : Type :=
| Ok : A -> res A
| Raise : exn -> res A.
Arguments Ok {A} _.
Arguments Raise {A} _.

Definition bind {A B : Type} (c : res A) (k : A -> res B) : res B :=
  match c with
  | Ok a => k a
  | Raise e => Raise e
  end.

(** [except requests.exceptions.RequestException] *)
Definition is_request_exception (e : exn) : bool :=
  match cls e with
  | RequestException | RequestsJSONDecodeError => true
  | _ => false
  end.

(** [except json.JSONDecodeError] *)
Definition is_json_decode_error (e : exn) : bool :=
  match cls e with
  | JSONDecodeError | RequestsJSONDecodeError => true
  | _ => false
  end.

(** *** Strings *)

Fixpoint str_contains (needle hay : string) : bool :=
  if String.prefix needle hay then true
  else match hay with
       | EmptyString => false
       | String _ rest => str_contains needle rest
       end.

Definition ascii_lower (c : ascii) : ascii :=
  let n := nat_of_ascii c in
  if (Nat.leb 65 n && Nat.leb n 90)%bool then ascii_of_nat (n + 32) else c.

Definition ascii_upper (c : ascii) : ascii :=
  let n := nat_of_ascii c in
  if (Nat.leb 97 n && Nat.leb n 122)%bool then ascii_of_nat (n - 32) else c.

Fixpoint str_map (f : ascii -> ascii) (s : string) : string :=
  match s with
  | EmptyString => EmptyString
  | String c r => String (f c) (str_map f r)
  end.

Definition lower : string -> string := str_map ascii_lower.
Definition upper : string -> string := str_map ascii_upper.

Fixpoint chars (s : string) : list string :=
  match s with
  | EmptyString => []
  | String c r => String c EmptyString :: chars r
  end.

(** [str(n)] and [int(s)] on decimal numerals. *)
Definition str_of_int (z : Z) : string := NilZero.string_of_int (Z.to_int z).

Definition int_of_str (s : string) : option Z :=
  option_map Z.of_int (NilZero.int_of_string s).

(** *** Truth value, type name *)

Fixpoint all_zero_digits (s : string) : bool :=
  match s with
  | EmptyString => true
  | String c r =>
      if (Ascii.eqb c "e" || Ascii.eqb c "E")%bool then true
      else
        let n := nat_of_ascii c in
        if (Nat.leb 49 n && Nat.leb n 57)%bool then false
        else all_zero_digits r
  end.

Definition truthy (v : pyval) : bool :=
  match v with
  | PNone => false
  | PBool b => b
  | PInt z => negb (z =? 0)
  | PFloat lit => negb (all_zero_digits lit)
  | PStr s => negb (s =? "")%string
  | PList l => match l with [] => false | _ => true end
  | PDict d => match d with [] => false | _ => true end
  end.

Definition type_name (v : pyval) : string :=
  match v with
  | PNone => "NoneType"
  | PBool _ => "bool"
  | PInt _ => "int"
  | PFloat _ => "float"
  | PStr _ => "str"
  | PList _ => "list"
  | PDict _ => "dict"
  end.

(** [a or b] *)
Definition py_or (a b : pyval) : pyval := if truthy a then a else b.

(** [v == 'literal'] *)
Definition eq_str (v : pyval) (s : string) : bool :=
  match v with
  | PStr t => (t =? s)%string
  | _ => false
  end.

(** *** Dicts *)

Fixpoint dict_get (d : dict) (k : string) : option pyval :=
  match d with
  | [] => None
  | (k', v) :: rest => if (k' =? k)%string then Some v else dict_get rest k
  end.

Definition dict_has (d : dict) (k : string) : bool :=
  match dict_get d k with Some _ => true | None => false end.

(** [d[k] = v]: replaces in place, or appends. *)
Fixpoint dict_set (d : dict) (k : string) (v : pyval) : dict :=
  match d with
  | [] => [(k, v)]
  | (k', v') :: rest =>
      if (k' =? k)%string then (k, v) :: rest
      else (k', v') :: dict_set rest k v
  end.

(** [d.update(other)] for a dict [other]. *)
Definition dict_update (d other : dict) : dict :=
  fold_left (fun acc kv => dict_set acc (fst kv) (snd kv)) other d.

Definition no_attribute (v : pyval) (attr : string) : exn :=
  exc AttributeError
      ("'" ++ type_name v ++ "' object has no attribute '" ++ attr ++ "'").

(** [v.get(k, default)]; the default is an already evaluated argument. *)
Definition py_get (v : pyval) (k : string) (default : pyval) : res pyval :=
  match v with
  | PDict d => Ok (match dict_get d k with Some x => x | None => default end)
  | _ => Raise (no_attribute v "get")
  end.

(** [v[k]] for a string key. *)
Definition py_item (v : pyval) (k : string) : res pyval :=
  match v with
  | PDict d =>
      match dict_get d k with
      | Some x => Ok x
      | None => Raise (exc KeyError ("'" ++ k ++ "'"))
      end
  | PList _ =>
      Raise (exc TypeError "list indices must be integers or slices, not str")
  | PStr _ => Raise (exc TypeError "string indices must be integers")
  | _ => Raise (exc TypeError
                  ("'" ++ type_name v ++ "' object is not subscriptable"))
  end.

(** ['needle' in v] *)
Definition py_contains (needle : string) (v : pyval) : res bool :=
  match v with
  | PStr s => Ok (str_contains needle s)
  | PList l => Ok (existsb (fun x => eq_str x needle) l)
  | PDict d => Ok (dict_has d needle)
  | _ => Raise (exc TypeError
                  ("argument of type '" ++ type_name v ++ "' is not iterable"))
  end.

(** [for x in v]: the items the iteration yields. *)
Definition py_iter (v : pyval) : res (list pyval) :=
  match v with
  | PList l => Ok l
  | PStr s => Ok (map PStr (chars s))
  | PDict d => Ok (map (fun kv => PStr (fst kv)) d)
  | _ => Raise (exc TypeError
                  ("'" ++ type_name v ++ "' object is not iterable"))
  end.

(** [str(v)], as an f-string field prints it.  Containers print the [repr]
    of their items; the [repr] of a string is given for strings that need no
    escape. *)
Fixpoint py_repr (v : pyval) : string :=
  match v with
  | PNone => "None"
  | PBool b => if b then "True" else "False"
  | PInt z => str_of_int z
  | PFloat lit => lit
  | PStr s => "'" ++ s ++ "'"
  | PList l =>
      "[" ++ (fix items (l : list pyval) : string :=
                match l with
                | [] => ""
                | [x] => py_repr x
                | x :: rest => py_repr x ++ ", " ++ items rest
                end) l ++ "]"
  | PDict d =>
      "{" ++ (fix items (d : list (string * pyval)) : string :=
                match d with
                | [] => ""
                | [(k, x)] => "'" ++ k ++ "': " ++ py_repr x
                | (k, x) :: rest =>
                    "'" ++ k ++ "': " ++ py_repr x ++ ", " ++ items rest
                end) d ++ "}"
  end.

Definition py_format (v : pyval) : string :=
  match v with
  | PStr s => s
  | _ => py_repr v
  end.

(** [len(v)] *)
Definition py_len (v : pyval) : res Z :=
  match v with
  | PList l => Ok (Z.of_nat (List.length l))
  | PStr s => Ok (Z.of_nat (String.length s))
  | PDict d => Ok (Z.of_nat (List.length d))
  | _ => Raise (exc TypeError
                  ("object of type '" ++ type_name v ++ "' has no len()"))
  end.

End Py.

Export Py.

Declare Scope res_scope.
Delimit Scope res_scope with res.
Notation "x <- c ;; k" := (bind c (fun x => k))
  (at level 61, c at next level, right associativity) : res_scope.
Local Open Scope res_scope.

(* ================================================================== *)
(** ** The SQLite engine, as far as [database.py] relies on it        *)
(* ================================================================== *)

Module Sqlite.

(** A stored value.  A REAL is carried by the literal that denotes it. *)
Inductive sqlval : Type :=
| SNull : sqlval
| SInt : Z -> sqlval
| SReal : string -> sqlval
| SText : string -> sqlval.

Definition int64_min : Z := -9223372036854775808.
Definition int64_max : Z := 9223372036854775807.

(** What the [sqlite3] module does with a Python value given for a [?]:
    [None], [int] (so [bool] too), [float] and [str] are bound, any other
    type is refused (InterfaceError, ProgrammingError from Python 3.12). *)
Definition bind_param (v : pyval) : res sqlval :=
  match v with
  | PNone => Ok SNull
  | PBool b => Ok (SInt (if b then 1 else 0))
  | PInt z =>
      if ((int64_min <=? z) && (z <=? int64_max))%bool then Ok (SInt z)
      else Raise (exc OverflowError
                    "Python int too large to convert to SQLite INTEGER")
  | PFloat lit => Ok (SReal lit)
  | PStr s => Ok (SText s)
  | PList _ | PDict _ =>
      Raise (exc InterfaceError
               "Error binding parameter - probably unsupported type.")
  end.

(** What a fetched cell is in Python (no [detect_types]). *)
Definition py_of_sql (v : sqlval) : pyval :=
  match v with
  | SNull => PNone
  | SInt z => PInt z
  | SReal lit => PFloat lit
  | SText s => PStr s
  end.

(** TEXT affinity: a number is stored as its text. *)
Definition text_affinity (v : sqlval) : sqlval :=
  match v with
  | SInt z => SText (str_of_int z)
  | SReal lit => SText lit
  | _ => v
  end.

(** NUMERIC affinity (the declared types DATE, TIME, BOOLEAN and TIMESTAMP
    all give it): a text that is a well-formed integer or real literal,
    blanks around it allowed, is stored as a number; any other text stays. *)
Definition is_digit (c : ascii) : bool :=
  let n := nat_of_ascii c in (Nat.leb 48 n && Nat.leb n 57)%bool.

Definition is_space (c : ascii) : bool :=
  let n := nat_of_ascii c in
  (Nat.eqb n 32 || (Nat.leb 9 n && Nat.leb n 13))%bool.

Fixpoint skip_spaces (s : string) : string :=
  match s with
  | String c r => if is_space c then skip_spaces r else s
  | EmptyString => s
  end.

Fixpoint span_digits (s : string) : string * string :=
  match s with
  | String c r =>
      if is_digit c then let (d, t) := span_digits r in (String c d, t)
      else (EmptyString, s)
  | EmptyString => (EmptyString, EmptyString)
  end.

Definition skip_sign (s : string) : string :=
  match s with
  | String c r => if (Ascii.eqb c "+" || Ascii.eqb c "-")%bool then r else s
  | EmptyString => s
  end.

Definition is_negative (s : string) : bool :=
  match s with
  | String c _ => Ascii.eqb c "-"
  | EmptyString => false
  end.

Inductive literal_kind : Type :=
| IntegerLiteral : Z -> literal_kind
| RealLiteral : literal_kind
| NotNumeric : literal_kind.

Fixpoint digits_value (acc : Z) (s : string) : Z :=
  match s with
  | String c r => digits_value (10 * acc + Z.of_nat (nat_of_ascii c - 48)) r
  | EmptyString => acc
  end.

Definition is_empty (s : string) : bool :=
  match s with EmptyString => true | _ => false end.

Definition numeric_literal (s : string) : literal_kind :=
  let s1 := skip_spaces s in
  let (int_part, s2) := span_digits (skip_sign s1) in
  let '(has_dot, frac_part, s3) :=
    match s2 with
    | String "." r => let (f, t) := span_digits r in (true, f, t)
    | _ => (false, EmptyString, s2)
    end in
  if (is_empty int_part && is_empty frac_part)%bool then NotNumeric
  else
    let '(has_exp, exp_ok, s4) :=
      match s3 with
      | String c r =>
          if (Ascii.eqb c "e" || Ascii.eqb c "E")%bool then
            let (e, t) := span_digits (skip_sign r) in
            (true, negb (is_empty e), t)
          else (false, true, s3)
      | EmptyString => (false, true, s3)
      end in
    if (exp_ok && is_empty (skip_spaces s4))%bool then
      if (has_dot || has_exp)%bool then RealLiteral
      else
        let v := digits_value 0 int_part in
        IntegerLiteral (if is_negative s1 then - v else v)
    else NotNumeric.

Definition numeric_affinity (v : sqlval) : sqlval :=
  match v with
  | SText s =>
      match numeric_literal s with
      | IntegerLiteral z =>
          if ((int64_min <=? z) && (z <=? int64_max))%bool then SInt z
          else SReal s
      | RealLiteral => SReal s
      | NotNumeric => SText s
      end
  | _ => v
  end.

End Sqlite.

Export Sqlite.

(* ================================================================== *)
(** ** database.py                                                     *)
(* ================================================================== *)

Module Database.

(** The columns of table [conferences] that the statements of this module
    write, in the order of [init_db]:
<<
    name TEXT NOT NULL,
    type TEXT NOT NULL CHECK(type IN ('conference', 'broadcast')),
    description TEXT, start_date DATE, start_time TIME, cohosts TEXT,
    create_calendar_event BOOLEAN DEFAULT 0, invite_users BOOLEAN DEFAULT 0,
    live_stream_title TEXT, live_stream_description TEXT,
    owner_id TEXT NOT NULL, owner_name TEXT NOT NULL,
    link TEXT UNIQUE, status TEXT DEFAULT 'scheduled'
>>
    Column [cohosts] only ever receives [json.dumps(v)] and is only read
    through [json.loads]; the cell keeps [v] itself ([json.dumps] never
    returns the empty string, and [json.loads] gives back any value that was
    itself parsed from JSON). *)
Record columns : Type := {
  name : sqlval;
  type : sqlval;
  description : sqlval;
  start_date : sqlval;
  start_time : sqlval;
  cohosts : pyval;
  create_calendar_event : sqlval;
  invite_users : sqlval;
  live_stream_title : sqlval;
  live_stream_description : sqlval;
  owner_id : sqlval;
  owner_name : sqlval;
  link : sqlval;
  status : sqlval
}.

(** A row: [id INTEGER PRIMARY KEY AUTOINCREMENT], the columns above,
    [created_at] and [updated_at TIMESTAMP DEFAULT CURRENT_TIMESTAMP]. *)
Record row : Type := {
  id : Z;
  data : columns;
  created_at : string;
  updated_at : string
}.

(** The table in rowid order, and the largest id ever given
    ([sqlite_sequence]). *)
Record db : Type := {
  rows : list row;
  seq : Z
}.

(** [init_db] on a fresh file. *)
Definition init_db : db := {| rows := []; seq := 0 |}.

(** Column affinities applied when a row is written. *)
Definition stored (c : columns) : columns :=
  {| name := text_affinity (name c);
     type := text_affinity (type c);
     description := text_affinity (description c);
     start_date := numeric_affinity (start_date c);
     start_time := numeric_affinity (start_time c);
     cohosts := cohosts c;
     create_calendar_event := numeric_affinity (create_calendar_event c);
     invite_users := numeric_affinity (invite_users c);
     live_stream_title := text_affinity (live_stream_title c);
     live_stream_description := text_affinity (live_stream_description c);
     owner_id := text_affinity (owner_id c);
     owner_name := text_affinity (owner_name c);
     link := text_affinity (link c);
     status := text_affinity (status c) |}.

Definition is_null (v : sqlval) : bool :=
  match v with SNull => true | _ => false end.

(** [a = b] on two cells of a TEXT column (NULL equals nothing). *)
Definition same_text (a b : sqlval) : bool :=
  match a, b with
  | SText x, SText y => (x =? y)%string
  | _, _ => false
  end.

Definition type_allowed (v : sqlval) : bool :=
  match v with
  | SText s => ((s =? "conference") || (s =? "broadcast"))%string
  | SNull => true
  | _ => false
  end.

Definition link_taken (others : list row) (l : sqlval) : bool :=
  existsb (fun r => same_text (link (data r)) l) others.

Definition integrity (m : string) : exn := exc IntegrityError m.

(** The constraints of the schema on the columns of a row to be written,
    [others] being the rows it must not clash with. *)
Definition check_constraints (others : list row) (c : columns) : res unit :=
  if is_null (name c) then
    Raise (integrity "NOT NULL constraint failed: conferences.name")
  else if is_null (type c) then
    Raise (integrity "NOT NULL constraint failed: conferences.type")
  else if is_null (owner_id c) then
    Raise (integrity "NOT NULL constraint failed: conferences.owner_id")
  else if is_null (owner_name c) then
    Raise (integrity "NOT NULL constraint failed: conferences.owner_name")
  else if negb (type_allowed (type c)) then
    Raise (integrity
             "CHECK constraint failed: type IN ('conference', 'broadcast')")
  else if link_taken others (link c) then
    Raise (integrity "UNIQUE constraint failed: conferences.link")
  else Ok tt.

Definition max_id (rs : list row) : Z :=
  fold_right (fun r m => Z.max (id r) m) 0 rs.

(** AUTOINCREMENT: one more than the largest id ever in the table. *)
Definition next_id (d : db) : Z := Z.max (seq d) (max_id (rows d)) + 1.

(** [INSERT INTO conferences (...) VALUES (...)] of the columns [c], and
    [cursor.lastrowid].  Once the largest rowid has been used, AUTOINCREMENT
    refuses to insert. *)
Definition insert_row (now : string) (d : db) (c : columns) : res (db * Z) :=
  _ <- check_constraints (rows d) c ;;
  let rowid := next_id d in
  if int64_max <? rowid then
    Raise (exc OperationalError "database or disk is full")
  else
  Ok ({| rows := rows d ++
                 [ {| id := rowid; data := c;
                      created_at := now; updated_at := now |} ];
         seq := rowid |},
      rowid).

(** [UPDATE conferences SET ... WHERE id = conf_id], [c] giving the new
    columns from the old row; the trigger [update_conferences_updated_at]
    then stamps [updated_at].  With it, [cursor.rowcount > 0]. *)
Definition update_row (now : string) (d : db) (conf_id : Z)
  (c : row -> columns) : res (db * bool) :=
  match find (fun r => id r =? conf_id) (rows d) with
  | None => Ok (d, false)
  | Some old =>
      _ <- check_constraints
             (filter (fun r => negb (id r =? conf_id)) (rows d)) (c old) ;;
      Ok ({| rows := map (fun r =>
                            if id r =? conf_id then
                              {| id := id r; data := c old;
                                 created_at := created_at r;
                                 updated_at := now |}
                            else r)
                         (rows d);
             seq := seq d |},
          true)
  end.

(** [save_conference(conference_data)]; an exception leaves the table as it
    was. *)
Definition save_conference (now : string) (d : db) (conference_data : pyval)
  : res (db * string) :=
  cohosts_v <- py_get conference_data "cohosts" (PList []) ;;
  name_v <- py_item conference_data "name" ;;
  type_v <- py_item conference_data "type" ;;
  description_v <- py_get conference_data "description" (PStr "") ;;
  start_date_v <- py_get conference_data "startDate" (PStr "") ;;
  start_time_v <- py_get conference_data "startTime" (PStr "") ;;
  create_calendar_event_v <-
    py_get conference_data "createCalendarEvent" (PBool false) ;;
  invite_users_v <- py_get conference_data "inviteUsers" (PBool false) ;;
  live_stream_title_v <- py_get conference_data "liveStreamTitle" (PStr "") ;;
  live_stream_description_v <-
    py_get conference_data "liveStreamDescription" (PStr "") ;;
  owner_id_v <- py_item conference_data "ownerId" ;;
  owner_name_v <- py_get conference_data "ownerName" (PStr "Unknown") ;;
  link_v <- py_get conference_data "link" (PStr "") ;;
  status_v <- py_get conference_data "status" (PStr "scheduled") ;;
  (* cursor.execute('INSERT INTO conferences (...) VALUES (?, ...)', data) *)
  p_name <- bind_param name_v ;;
  p_type <- bind_param type_v ;;
  p_description <- bind_param description_v ;;
  p_start_date <- bind_param start_date_v ;;
  p_start_time <- bind_param start_time_v ;;
  p_create_calendar_event <- bind_param create_calendar_event_v ;;
  p_invite_users <- bind_param invite_users_v ;;
  p_live_stream_title <- bind_param live_stream_title_v ;;
  p_live_stream_description <- bind_param live_stream_description_v ;;
  p_owner_id <- bind_param owner_id_v ;;
  p_owner_name <- bind_param owner_name_v ;;
  p_link <- bind_param link_v ;;
  p_status <- bind_param status_v ;;
  let c := stored
    {| name := p_name; type := p_type; description := p_description;
       start_date := p_start_date; start_time := p_start_time;
       cohosts := cohosts_v;
       create_calendar_event := p_create_calendar_event;
       invite_users := p_invite_users;
       live_stream_title := p_live_stream_title;
       live_stream_description := p_live_stream_description;
       owner_id := p_owner_id; owner_name := p_owner_name;
       link := p_link; status := p_status |} in
  inserted <- insert_row now d c ;;
  let conference_id := snd inserted in
  Ok (fst inserted, str_of_int conference_id).

(** The dict built from a fetched row (the same in every reader). *)
Definition conference_of_row (r : row) : pyval :=
  PDict
    [ ("id", PInt (id r));
      ("name", py_of_sql (name (data r)));
      ("type", py_of_sql (type (data r)));
      ("description", py_of_sql (description (data r)));
      ("startDate", py_of_sql (start_date (data r)));
      ("startTime", py_of_sql (start_time (data r)));
      ("cohosts", cohosts (data r));
      ("createCalendarEvent",
        PBool (truthy (py_of_sql (create_calendar_event (data r)))));
      ("inviteUsers", PBool (truthy (py_of_sql (invite_users (data r)))));
      ("liveStreamTitle", py_of_sql (live_stream_title (data r)));
      ("liveStreamDescription",
        py_of_sql (live_stream_description (data r)));
      ("ownerId", py_of_sql (owner_id (data r)));
      ("ownerName", py_of_sql (owner_name (data r)));
      ("link", py_of_sql (link (data r)));
      ("status", py_of_sql (status (data r)));
      ("createdAt", PStr (created_at r)) ].

(** [ORDER BY created_at DESC]: the timestamps are compared as text; rows
    with equal timestamps are kept in rowid order (SQLite leaves their
    order open). *)
Fixpoint insert_desc (r : row) (l : list row) : list row :=
  match l with
  | [] => [r]
  | x :: xs =>
      if String.leb (created_at x) (created_at r) then r :: l
      else x :: insert_desc r xs
  end.

Definition order_by_created_at_desc (l : list row) : list row :=
  fold_right insert_desc [] l.

(** [get_user_conferences(owner_id)]: [WHERE owner_id = ?] compares the TEXT
    column with the parameter brought to text. *)
Definition get_user_conferences (d : db) (owner : pyval) : res pyval :=
  p <- bind_param owner ;;
  Ok (PList
        (map conference_of_row
           (order_by_created_at_desc
              (filter (fun r => same_text (owner_id (data r))
                                          (text_affinity p))
                      (rows d))))).

(** [get_all_conferences()] *)
Definition get_all_conferences (d : db) : res pyval :=
  Ok (PList (map conference_of_row (order_by_created_at_desc (rows d)))).

(** [get_conference_by_id(conf_id)]: the dict, or [None]. *)
Definition get_conference_by_id (d : db) (conf_id : Z) : res pyval :=
  _ <- bind_param (PInt conf_id) ;;
  Ok (match find (fun r => id r =? conf_id) (rows d) with
      | Some r => conference_of_row r
      | None => PNone
      end).

(** [update_conference(conf_id, conference_data)]: every column but [id],
    [owner_id] and [created_at] is overwritten. *)
Definition update_conference (now : string) (d : db) (conf_id : Z)
  (conference_data : pyval) : res (db * bool) :=
  cohosts_v <- py_get conference_data "cohosts" (PList []) ;;
  name_v <- py_item conference_data "name" ;;
  type_v <- py_item conference_data "type" ;;
  description_v <- py_get conference_data "description" (PStr "") ;;
  start_date_v <- py_get conference_data "startDate" (PStr "") ;;
  start_time_v <- py_get conference_data "startTime" (PStr "") ;;
  create_calendar_event_v <-
    py_get conference_data "createCalendarEvent" (PBool false) ;;
  invite_users_v <- py_get conference_data "inviteUsers" (PBool false) ;;
  live_stream_title_v <- py_get conference_data "liveStreamTitle" (PStr "") ;;
  live_stream_description_v <-
    py_get conference_data "liveStreamDescription" (PStr "") ;;
  owner_name_v <- py_get conference_data "ownerName" (PStr "Unknown") ;;
  link_v <- py_get conference_data "link" (PStr "") ;;
  status_v <- py_get conference_data "status" (PStr "scheduled") ;;
  p_name <- bind_param name_v ;;
  p_type <- bind_param type_v ;;
  p_description <- bind_param description_v ;;
  p_start_date <- bind_param start_date_v ;;
  p_start_time <- bind_param start_time_v ;;
  p_create_calendar_event <- bind_param create_calendar_event_v ;;
  p_invite_users <- bind_param invite_users_v ;;
  p_live_stream_title <- bind_param live_stream_title_v ;;
  p_live_stream_description <- bind_param live_stream_description_v ;;
  p_owner_name <- bind_param owner_name_v ;;
  p_link <- bind_param link_v ;;
  p_status <- bind_param status_v ;;
  _ <- bind_param (PInt conf_id) ;;
  update_row now d conf_id
    (fun old =>
       stored
         {| name := p_name; type := p_type; description := p_description;
            start_date := p_start_date; start_time := p_start_time;
            cohosts := cohosts_v;
            create_calendar_event := p_create_calendar_event;
            invite_users := p_invite_users;
            live_stream_title := p_live_stream_title;
            live_stream_description := p_live_stream_description;
            owner_id := owner_id (data old); owner_name := p_owner_name;
            link := p_link; status := p_status |}).

(** [delete_conference(conf_id)] *)
Definition delete_conference (d : db) (conf_id : Z) : res (db * bool) :=
  _ <- bind_param (PInt conf_id) ;;
  Ok ({| rows := filter (fun r => negb (id r =? conf_id)) (rows d);
         seq := seq d |},
      existsb (fun r => id r =? conf_id) (rows d)).

(** [get_conferences_by_type(conf_type)] *)
Definition get_conferences_by_type (d : db) (conf_type : pyval) : res pyval :=
  p <- bind_param conf_type ;;
  Ok (PList
        (map conference_of_row
           (order_by_created_at_desc
              (filter (fun r => same_text (type (data r)) (text_affinity p))
                      (rows d))))).

End Database.

(* ================================================================== *)
(** ** models/telemost.py                                              *)
(* ================================================================== *)

Module Telemost.

(** What [requests.get/post/put/delete] is called with, and the response
    it returns.  [json] is what [response.json()] gives. *)
Record http_request : Type := {
  http_method : string;
  url : string;
  authorization : string;
  json_payload : pyval;
  query : pyval
}.

Record response : Type := {
  status_code : Z;
  reason : string;
  text : string;
  json : res pyval
}.

Definition network : Type := http_request -> res response.

Definition api_base : string := "https://telemost.yandex.ru/api/v1".

Definition conferences_url : string :=
  "https://cloud-api.yandex.net/v1/telemost-api/conferences".

Definition truthy_token (t : option string) : bool :=
  match t with
  | Some s => negb (s =? "")%string
  | None => false
  end.

(** [response.raise_for_status()] *)
Definition raise_for_status (u : string) (r : response) : res unit :=
  let c := status_code r in
  if ((400 <=? c) && (c <? 500))%bool then
    Raise (mk_exn RequestException
             (str_of_int c ++ " Client Error: " ++ reason r
                ++ " for url: " ++ u) (Some c))
  else if ((500 <=? c) && (c <? 600))%bool then
    Raise (mk_exn RequestException
             (str_of_int c ++ " Server Error: " ++ reason r
                ++ " for url: " ++ u) (Some c))
  else Ok tt.

(** [except requests.exceptions.RequestException as e: return {...}] *)
Definition request_failed (attempt : res pyval) : res pyval :=
  match attempt with
  | Ok v => Ok v
  | Raise e =>
      if is_request_exception e then
        Ok (PDict [ ("error", PStr ("Request failed: " ++ msg e));
                    ("status_code",
                      match response_status e with
                      | Some c => PInt c
                      | None => PNone
                      end) ])
      else Raise e
  end.

(** [[{'email': email} for email in cohosts_data if '@' in email]] *)
Fixpoint cohost_emails (items : list pyval) : res (list pyval) :=
  match items with
  | [] => Ok []
  | email :: rest =>
      has_at <- py_contains "@" email ;;
      tail <- cohost_emails rest ;;
      Ok (if has_at then PDict [("email", email)] :: tail else tail)
  end.

(** The body that a POST to [conferences] sends. *)
Definition yandex_format_data (data : pyval) : res pyval :=
  live_stream <-
    (if truthy data then
       ty <- py_get data "type" PNone ;;
       if eq_str ty "broadcast" then
         title_alt <- py_get data "live_stream_title" (PStr "") ;;
         title <- py_get data "liveStreamTitle" title_alt ;;
         descr_alt <- py_get data "live_stream_description" (PStr "") ;;
         descr <- py_get data "liveStreamDescription" descr_alt ;;
         Ok [ ("live_stream",
                PDict [("title", title); ("description", descr)]) ]
       else Ok []
     else Ok []) ;;
  cohosts_alt <- py_get data "cohosts" (PList []) ;;
  cohosts_data <- py_get data "cohosts" cohosts_alt ;;
  cohosts <-
    (if truthy cohosts_data then
       items <- py_iter cohosts_data ;;
       emails <- cohost_emails items ;;
       Ok [("cohosts", PList emails)]
     else Ok []) ;;
  Ok (PDict ([("waiting_room_level", PStr "PUBLIC")]
               ++ live_stream ++ cohosts)).

(** [data.get(k, d) if data else yandex_conf_data.get(k', d')] *)
Definition request_or_remote (data yandex_conf_data : pyval)
  (k : string) (d : pyval) (k' : string) (d' : pyval) : res pyval :=
  if truthy data then py_get data k d else py_get yandex_conf_data k' d'.

(** The dict that a successful POST to [conferences] is turned into. *)
Definition created_conf_data (now_iso : string) (data yandex_conf_data : pyval)
  : res pyval :=
  id_alt <- py_get yandex_conf_data "ID" PNone ;;
  id_v <- py_get yandex_conf_data "id" id_alt ;;
  name_v <- request_or_remote data yandex_conf_data
              "name" PNone "name" (PStr "") ;;
  type_v <- request_or_remote data yandex_conf_data
              "type" (PStr "conference") "type" (PStr "conference") ;;
  description_v <- request_or_remote data yandex_conf_data
              "description" (PStr "") "description" (PStr "") ;;
  start_date_v <- request_or_remote data yandex_conf_data
              "startDate" (PStr "") "start_date" (PStr "") ;;
  start_time_v <- request_or_remote data yandex_conf_data
              "startTime" (PStr "") "start_time" (PStr "") ;;
  cohosts_v <- request_or_remote data yandex_conf_data
              "cohosts" (PList []) "cohosts" (PList []) ;;
  create_calendar_event_v <- request_or_remote data yandex_conf_data
              "createCalendarEvent" (PBool false)
              "create_calendar_event" (PBool false) ;;
  invite_users_v <- request_or_remote data yandex_conf_data
              "inviteUsers" (PBool false) "invite_users" (PBool false) ;;
  live_stream_title_v <- request_or_remote data yandex_conf_data
              "liveStreamTitle" (PStr "") "live_stream_title" (PStr "") ;;
  live_stream_description_v <- request_or_remote data yandex_conf_data
              "liveStreamDescription" (PStr "")
              "live_stream_description" (PStr "") ;;
  link_id_alt <- py_get yandex_conf_data "ID" (PStr "new") ;;
  link_id <- py_get yandex_conf_data "id" link_id_alt ;;
  join_url <- py_get yandex_conf_data "join_url"
                (PStr ("https://telemost.yandex.ru/j/" ++ py_format link_id)) ;;
  join_url_upper <- py_get yandex_conf_data "JOIN_URL" join_url ;;
  link_v <- py_get yandex_conf_data "link" join_url_upper ;;
  Ok (PDict
        [ ("id", id_v); ("name", name_v); ("type", type_v);
          ("description", description_v);
          ("startDate", start_date_v); ("startTime", start_time_v);
          ("cohosts", cohosts_v);
          ("createCalendarEvent", create_calendar_event_v);
          ("inviteUsers", invite_users_v);
          ("liveStreamTitle", live_stream_title_v);
          ("liveStreamDescription", live_stream_description_v);
          ("status", PStr "scheduled");
          ("link", link_v);
          ("createdAt", PStr now_iso) ]).

(** The part of [api_call] after the response has arrived. *)
Definition read_response (now_iso method u : string) (data : pyval)
  (r : response) : res pyval :=
  if (negb (status_code r =? 200) && negb (status_code r =? 201))%bool then
    error_response <-
      match json r with
      | Ok v => Ok v
      | Raise e =>
          if is_json_decode_error e then
            Ok (PDict [ ("error", PStr "Response was not JSON");
                        ("status_code", PInt (status_code r)) ])
          else Raise e
      end ;;
    Ok (PDict [ ("error", error_response);
                ("status_code", PInt (status_code r)) ])
  else if negb (text r =? "")%string then
    match json r with
    | Ok result =>
        if ((upper method =? "POST")%string
            && str_contains "conferences" u)%bool
        then created_conf_data now_iso data result
        else Ok result
    | Raise e =>
        if is_json_decode_error e then Ok (PDict [("result", PStr (text r))])
        else Raise e
    end
  else
    Ok (PDict [ ("success", PBool true);
                ("status_code", PInt (status_code r)) ]).

(** [api_call(method, endpoint, access_token, data, params)];
    [session_token] is [session.get('yandex_access_token')] and [oauth_token]
    the configured [YANDEX_OAUTH_TOKEN]. *)
Definition api_call (send : network) (now_iso : string)
  (session_token oauth_token : option string)
  (method endpoint : string) (access_token : option string)
  (data params : pyval) : res pyval :=
  let access_token :=
    if truthy_token access_token then access_token
    else if truthy_token session_token then session_token
    else oauth_token in
  match access_token with
  | None => Ok (PDict [("error", PStr "No access token available")])
  | Some token =>
      if (token =? "")%string then
        Ok (PDict [("error", PStr "No access token available")])
      else
        let auth := "OAuth " ++ token in
        let u :=
          if str_contains "conferences" (lower endpoint) then conferences_url
          else api_base ++ "/" ++ endpoint in
        request_failed
          (if (upper method =? "GET")%string then
             r <- send {| http_method := "GET"; url := u;
                          authorization := auth; json_payload := PNone;
                          query := params |} ;;
             read_response now_iso method u data r
           else if (upper method =? "POST")%string then
             if str_contains "conferences" (lower endpoint) then
               body <- yandex_format_data data ;;
               r <- send {| http_method := "POST"; url := u;
                            authorization := auth; json_payload := body;
                            query := params |} ;;
               read_response now_iso method u data r
             else
               r <- send {| http_method := "POST"; url := u;
                            authorization := auth; json_payload := data;
                            query := params |} ;;
               read_response now_iso method u data r
           else if (upper method =? "PUT")%string then
             r <- send {| http_method := "PUT"; url := u;
                          authorization := auth; json_payload := data;
                          query := params |} ;;
             read_response now_iso method u data r
           else if (upper method =? "DELETE")%string then
             r <- send {| http_method := "DELETE"; url := u;
                          authorization := auth; json_payload := PNone;
                          query := params |} ;;
             read_response now_iso method u data r
           else
             Ok (PDict [("error",
                          PStr ("Unsupported HTTP method: " ++ method))]))
  end.

(** [create_conference(access_token, conference_data)] *)
Definition create_conference (send : network) (now_iso : string)
  (session_token oauth_token access_token : option string)
  (conference_data : pyval) : res pyval :=
  api_call send now_iso session_token oauth_token
           "POST" "conferences" access_token conference_data PNone.

(** [update_conference(access_token, conf_id, conference_data)] *)
Definition update_conference (send : network) (now_iso : string)
  (session_token oauth_token access_token : option string)
  (conf_id conference_data : pyval) : res pyval :=
  api_call send now_iso session_token oauth_token
           "PUT" ("conferences/" ++ py_format conf_id) access_token
           conference_data PNone.

(** [delete_conference(access_token, conf_id)] *)
Definition delete_conference (send : network) (now_iso : string)
  (session_token oauth_token access_token : option string)
  (conf_id : pyval) : res pyval :=
  api_call send now_iso session_token oauth_token
           "DELETE" ("conferences/" ++ py_format conf_id) access_token
           PNone PNone.

(** [get_conferences(access_token)] *)
Definition get_conferences (send : network) (access_token : string)
  : res pyval :=
  request_failed
    (r <- send {| http_method := "GET"; url := conferences_url;
                  authorization := "OAuth " ++ access_token;
                  json_payload := PNone; query := PNone |} ;;
     _ <- raise_for_status conferences_url r ;;
     if negb (text r =? "")%string then json r else Ok (PList [])).

(** [list_conferences(access_token, params)] *)
Definition list_conferences (send : network) (now_iso : string)
  (session_token oauth_token access_token : option string)
  (params : pyval) : res pyval :=
  api_call send now_iso session_token oauth_token
           "GET" "conferences" access_token PNone params.

(** [get_conference(access_token, conf_id)] *)
Definition get_conference (send : network) (now_iso : string)
  (session_token oauth_token access_token : option string)
  (conf_id : pyval) : res pyval :=
  api_call send now_iso session_token oauth_token
           "GET" ("conferences/" ++ py_format conf_id) access_token
           PNone PNone.

(** *** The token exchange *)

(** What [requests.post(url, data=params)] is called with. *)
Record form_post : Type := {
  post_url : string;
  post_data : dict
}.

Definition token_network : Type := form_post -> res response.

(** The configuration values that [_load_config] and the two functions
    below read; [YANDEX_TOKEN_URL] with its default applied. *)
Record credentials : Type := {
  YANDEX_CLIENT_ID : option string;
  YANDEX_CLIENT_SECRET : option string;
  YANDEX_REDIRECT_URI : option string;
  YANDEX_TOKEN_URL : string
}.

Definition py_of_config (v : option string) : pyval :=
  match v with
  | Some s => PStr s
  | None => PNone
  end.

(** [session.get(k)] *)
Definition session_get (session : dict) (k : string) : pyval :=
  match dict_get session k with
  | Some v => v
  | None => PNone
  end.

(** [response = requests.post(url, data=params);
     response.raise_for_status(); token_data = response.json()] *)
Definition token_response (post : token_network) (u : string)
  (params : dict) : res pyval :=
  r <- post {| post_url := u; post_data := params |} ;;
  _ <- raise_for_status u r ;;
  json r.

(** [get_access_token(auth_code)]: the session afterwards, and what is
    returned. *)
Definition get_access_token (post : token_network) (cfg : credentials)
  (session : dict) (auth_code : pyval) : dict * res pyval :=
  if (negb (truthy_token (YANDEX_CLIENT_ID cfg))
      || negb (truthy_token (YANDEX_CLIENT_SECRET cfg)))%bool then
    (session,
     Ok (PDict [("error", PStr "Yandex client credentials not configured")]))
  else
    let params :=
      [ ("grant_type", PStr "authorization_code");
        ("client_id", py_of_config (YANDEX_CLIENT_ID cfg));
        ("client_secret", py_of_config (YANDEX_CLIENT_SECRET cfg));
        ("code", auth_code);
        ("redirect_uri", py_of_config (YANDEX_REDIRECT_URI cfg)) ] in
    let attempt : dict * res pyval :=
      match token_response post (YANDEX_TOKEN_URL cfg) params with
      | Raise e => (session, Raise e)
      | Ok token_data =>
          match py_get token_data "access_token" PNone with
          | Raise e => (session, Raise e)
          | Ok access =>
              let session1 :=
                dict_set session "yandex_access_token" access in
              match py_get token_data "refresh_token" PNone with
              | Raise e => (session1, Raise e)
              | Ok refresh =>
                  (dict_set session1 "yandex_refresh_token" refresh,
                   Ok token_data)
              end
          end
      end in
    match attempt with
    | (s, Raise e) =>
        if is_request_exception e then
          (s, Ok (PDict [("error",
                          PStr ("Failed to get access token: " ++ msg e))]))
        else (s, Raise e)
    | (s, Ok v) => (s, Ok v)
    end.

(** [refresh_access_token()]; the line written to the log on failure is
    left out. *)
Definition refresh_access_token (post : token_network) (cfg : credentials)
  (session : dict) : dict * res pyval :=
  let refresh_token := session_get session "yandex_refresh_token" in
  if (negb (truthy refresh_token)
      || negb (truthy_token (YANDEX_CLIENT_ID cfg))
      || negb (truthy_token (YANDEX_CLIENT_SECRET cfg)))%bool then
    (session, Ok PNone)
  else
    let params :=
      [ ("grant_type", PStr "refresh_token");
        ("client_id", py_of_config (YANDEX_CLIENT_ID cfg));
        ("client_secret", py_of_config (YANDEX_CLIENT_SECRET cfg));
        ("refresh_token", refresh_token) ] in
    let attempt : dict * res pyval :=
      match token_response post (YANDEX_TOKEN_URL cfg) params with
      | Raise e => (session, Raise e)
      | Ok token_data =>
          match py_get token_data "access_token" PNone with
          | Raise e => (session, Raise e)
          | Ok access =>
              let session1 :=
                dict_set session "yandex_access_token" access in
              match py_get token_data "refresh_token" refresh_token with
              | Raise e => (session1, Raise e)
              | Ok refresh =>
                  (dict_set session1 "yandex_refresh_token" refresh,
                   Ok token_data)
              end
          end
      end in
    match attempt with
    | (s, Raise e) =>
        if is_request_exception e then (s, Ok PNone) else (s, Raise e)
    | (s, Ok v) => (s, Ok v)
    end.

End Telemost.

(* ================================================================== *)
(** ** app.py: identity of the caller and the conference routes        *)
(* ================================================================== *)

Module App.

(** What a route reads of the incoming request: [request.args.to_dict()],
    [request.is_json], the outcome of [request.get_json()],
    [request.form.to_dict()], [request.get_data(as_text=True)] and
    [parse_qs] of that text. *)
Record request : Type := {
  args : list (string * string);
  is_json : bool;
  get_json : res pyval;
  form : list (string * string);
  raw_data : string;
  parse_qs : list (string * list string)
}.

(** What a route reads of its surroundings: the session cookie, the
    configuration, the network, and the local time that the Telemost client
    stamps on a created conference. *)
Record environment : Type := {
  session_yandex_access_token : option string;
  YANDEX_OAUTH_TOKEN : option string;
  send : Telemost.network;
  now_iso : string
}.

(** A response: status code and JSON body. *)
Record response : Type := {
  status : Z;
  body : pyval
}.

Definition jsonify (v : pyval) : response := {| status := 200; body := v |}.

Definition jsonify_status (v : pyval) (code : Z) : response :=
  {| status := code; body := v |}.

Definition str_items (l : list (string * string)) : dict :=
  map (fun kv => (fst kv, PStr (snd kv))) l.

(** One element of the sequence given to [dict.update]: it is read as a
    sequence of two items, key and value.  A key that is not a string is
    dropped here: no lookup of this program could find it. *)
Definition update_item (e : pyval) : res (option (string * pyval)) :=
  match py_iter e with
  | Raise _ =>
      Raise (exc TypeError
        "cannot convert dictionary update sequence element to a sequence")
  | Ok [k; v] =>
      match k with
      | PStr s => Ok (Some (s, v))
      | PList _ | PDict _ =>
          Raise (exc TypeError ("unhashable type: '" ++ type_name k ++ "'"))
      | _ => Ok None
      end
  | Ok _ =>
      Raise (exc ValueError
        "dictionary update sequence element has the wrong length; 2 is required")
  end.

Fixpoint update_items (params : dict) (items : list pyval) : res dict :=
  match items with
  | [] => Ok params
  | e :: rest =>
      kv <- update_item e ;;
      update_items
        (match kv with
         | Some (k, v) => dict_set params k v
         | None => params
         end) rest
  end.

(** [params.update(json_data)] *)
Definition update_from (params : dict) (json_data : pyval) : res dict :=
  match json_data with
  | PDict d => Ok (dict_update params d)
  | _ =>
      match py_iter json_data with
      | Ok items => update_items params items
      | Raise e => Raise e
      end
  end.

Definition merge_params (r : request) : res dict :=
  let params := dict_update [] (str_items (args r)) in
  if is_json r then
    j <- get_json r ;;
    update_from params (py_or j (PDict []))
  else
    match form r with
    | _ :: _ => Ok (dict_update params (str_items (form r)))
    | [] =>
        if (negb (raw_data r =? "")%string
            && str_contains "=" (raw_data r))%bool
        then
          Ok (dict_update params
                (map (fun kv =>
                        (fst kv,
                         match snd kv with
                         | [x] => PStr x
                         | v => PList (map PStr v)
                         end))
                     (parse_qs r)))
        else Ok params
    end.

Record user_info : Type := {
  user_id : pyval;
  user_name : pyval
}.

Definition get_user_from_request (r : request) : res user_info :=
  params <- merge_params r ;;
  Ok {| user_id := match dict_get params "user_id" with
                   | Some v => v
                   | None => PStr "unknown"
                   end;
        user_name := match dict_get params "user_name" with
                     | Some v => v
                     | None => PStr "Unknown User"
                     end |}.

(** [session.get('yandex_access_token') or
     current_app.config.get('YANDEX_OAUTH_TOKEN')] *)
Definition yandex_token (e : environment) : option string :=
  if Telemost.truthy_token (session_yandex_access_token e)
  then session_yandex_access_token e
  else YANDEX_OAUTH_TOKEN e.

(** [local_conferences = get_user_conferences(user_id);
     return jsonify(local_conferences)] *)
Definition respond_local (d : Database.db) (uid : pyval)
  : Database.db * res response :=
  (d, local_conferences <- Database.get_user_conferences d uid ;;
      Ok (jsonify local_conferences)).

(** The dict that the list route builds from one remote record. *)
Definition conf_data (conf : pyval) (u : user_info) : res pyval :=
  id_alt <- py_get conf "ID" PNone ;;
  id_v <- py_get conf "id" id_alt ;;
  name_v <- py_get conf "name" PNone ;;
  type_v <- py_get conf "type" (PStr "conference") ;;
  description_v <- py_get conf "description" (PStr "") ;;
  start_date_alt <- py_get conf "startDate" (PStr "") ;;
  start_date_v <- py_get conf "start_date" start_date_alt ;;
  start_time_alt <- py_get conf "startTime" (PStr "") ;;
  start_time_v <- py_get conf "start_time" start_time_alt ;;
  cohosts_alt <- py_get conf "participants" (PList []) ;;
  cohosts_v <- py_get conf "cohosts" cohosts_alt ;;
  create_calendar_event_alt <-
    py_get conf "createCalendarEvent" (PBool false) ;;
  create_calendar_event_v <-
    py_get conf "create_calendar_event" create_calendar_event_alt ;;
  invite_users_alt <- py_get conf "inviteUsers" (PBool false) ;;
  invite_users_v <- py_get conf "invite_users" invite_users_alt ;;
  live_stream_title_alt <- py_get conf "liveStreamTitle" (PStr "") ;;
  live_stream_title_v <-
    py_get conf "live_stream_title" live_stream_title_alt ;;
  live_stream_description_alt <-
    py_get conf "liveStreamDescription" (PStr "") ;;
  live_stream_description_v <-
    py_get conf "live_stream_description" live_stream_description_alt ;;
  status_v <- py_get conf "status" (PStr "scheduled") ;;
  link_alt <- py_get conf "LINK" (PStr "") ;;
  link_v <- py_get conf "link" link_alt ;;
  created_at_alt <- py_get conf "createdAt" PNone ;;
  created_at_v <- py_get conf "created_at" created_at_alt ;;
  Ok (PDict
        [ ("id", id_v); ("name", name_v); ("type", type_v);
          ("description", description_v);
          ("startDate", start_date_v); ("startTime", start_time_v);
          ("cohosts", cohosts_v);
          ("createCalendarEvent", create_calendar_event_v);
          ("inviteUsers", invite_users_v);
          ("liveStreamTitle", live_stream_title_v);
          ("liveStreamDescription", live_stream_description_v);
          ("ownerId", user_id u); ("ownerName", user_name u);
          ("status", status_v); ("link", link_v);
          ("createdAt", created_at_v) ]).

(** [for conf in ...: conf_data = {...}; try: save_conference(conf_data)
    except: pass].  [clock n] is CURRENT_TIMESTAMP at the [n]-th record. *)
Fixpoint sync (clock : nat -> string) (n : nat) (u : user_info)
  (confs : list pyval) (d : Database.db) : Database.db * res unit :=
  match confs with
  | [] => (d, Ok tt)
  | conf :: rest =>
      match conf_data conf u with
      | Raise e => (d, Raise e)
      | Ok cd =>
          sync clock (S n) u rest
            (match Database.save_conference (clock n) d cd with
             | Ok (d', _) => d'
             | Raise _ => d
             end)
      end
  end.

Definition sync_and_respond (clock : nat -> string) (u : user_info)
  (confs : list pyval) (d : Database.db) : Database.db * res response :=
  match sync clock O u confs d with
  | (d', Ok _) => respond_local d' (user_id u)
  | (d', Raise e) => (d', Raise e)
  end.

(** [GET /api/conferences] *)
Definition get_conferences (clock : nat -> string) (e : environment)
  (r : request) (d : Database.db) : Database.db * res response :=
  match get_user_from_request r with
  | Raise ex => (d, Raise ex)
  | Ok u =>
      match yandex_token e with
      | Some token =>
          if (token =? "")%string then respond_local d (user_id u)
          else
            let attempt :=
              match Telemost.get_conferences (send e) token with
              | Raise ex => (d, Raise ex)
              | Ok yandex_conferences =>
                  match py_contains "error" yandex_conferences with
                  | Raise ex => (d, Raise ex)
                  | Ok true => respond_local d (user_id u)
                  | Ok false =>
                      match yandex_conferences with
                      | PList confs => sync_and_respond clock u confs d
                      | PDict yc =>
                          match dict_get yc "result" with
                          | Some (PList confs) =>
                              sync_and_respond clock u confs d
                          | _ => respond_local d (user_id u)
                          end
                      | _ => respond_local d (user_id u)
                      end
                  end
              end in
            match attempt with
            | (d', Raise _) => respond_local d' (user_id u)
            | done => done
            end
      | None => respond_local d (user_id u)
      end
  end.

Definition error_body (what : string) (ex : exn) : pyval :=
  PDict [("error", PStr (what ++ msg ex))].

Definition py_setitem (v : pyval) (k : string) (x : pyval) : pyval :=
  match v with
  | PDict d => PDict (dict_set d k x)
  | _ => v
  end.

(** [len(get_user_conferences(user_id)) + 1] *)
Definition user_count_plus_one (d : Database.db) (uid : pyval) : res Z :=
  mine <- Database.get_user_conferences d uid ;;
  n <- py_len mine ;;
  Ok (n + 1).

(** [POST /api/conferences], the branch taken without a token. *)
Definition create_without_token (now : string) (u : user_info) (data : pyval)
  (d : Database.db) : Database.db * res response :=
  match
    (type_v <- py_get data "type" (PStr "conference") ;;
     name_v <- py_get data "name" PNone ;;
     cohosts_v <- py_get data "cohosts" (PList []) ;;
     n <- user_count_plus_one d (user_id u) ;;
     Ok (PDict
           [ ("type", type_v); ("name", name_v);
             ("description", PStr "");
             ("startDate", PStr ""); ("startTime", PStr "");
             ("cohosts", cohosts_v);
             ("createCalendarEvent", PBool false);
             ("inviteUsers", PBool false);
             ("liveStreamTitle", PStr "");
             ("liveStreamDescription", PStr "");
             ("ownerId", user_id u); ("ownerName", user_name u);
             ("status", PStr "scheduled");
             ("link", PStr ("https://telemost.yandex.ru/j/"
                              ++ str_of_int n)) ]))
  with
  | Raise ex => (d, Raise ex)
  | Ok conference_data =>
      match Database.save_conference now d conference_data with
      | Raise ex =>
          (d, Ok (jsonify_status
                    (error_body "Failed to save conference: " ex) 500))
      | Ok (d', conference_id) =>
          match
            (if truthy (PStr conference_id) then
               match int_of_str conference_id with
               | Some z => Ok z
               | None =>
                   Raise (exc ValueError
                            ("invalid literal for int() with base 10: '"
                               ++ conference_id ++ "'"))
               end
             else
               everything <- Database.get_all_conferences d' ;;
               py_len everything)
          with
          | Ok id_v =>
              (d', Ok (jsonify (py_setitem conference_data "id" (PInt id_v))))
          | Raise ex =>
              (d', Ok (jsonify_status
                         (error_body "Failed to save conference: " ex) 500))
          end
      end
  end.

(** [POST /api/conferences], the branch taken with a token. *)
Definition create_with_token (now : string) (e : environment)
  (token : string) (u : user_info) (data : pyval) (d : Database.db)
  : Database.db * res response :=
  let attempt :=
    match
      (type_v <- py_get data "type" (PStr "conference") ;;
       name_v <- py_get data "name" PNone ;;
       cohosts_v <- py_get data "cohosts" (PList []) ;;
       result <- Telemost.api_call (send e) (now_iso e)
                   (session_yandex_access_token e) (YANDEX_OAUTH_TOKEN e)
                   "POST" "conferences" (Some token)
                   (PDict [ ("type", type_v); ("name", name_v);
                            ("cohosts", cohosts_v) ])
                   PNone ;;
       has_error <- py_contains "error" result ;;
       Ok (result, has_error))
    with
    | Raise ex => (d, Raise ex)
    | Ok (result, true) => (d, Ok (jsonify_status result 400))
    | Ok (result, false) =>
        match
          (type_v <- py_get data "type" (PStr "conference") ;;
           name_v <- py_get data "name" PNone ;;
           cohosts_v <- py_get data "cohosts" (PList []) ;;
           n <- user_count_plus_one d (user_id u) ;;
           link_id_alt <- py_get result "ID" (PInt n) ;;
           link_id <- py_get result "id" link_id_alt ;;
           link_alt <- py_get result "LINK"
                         (PStr ("https://telemost.yandex.ru/j/"
                                  ++ py_format link_id)) ;;
           link_v <- py_get result "link" link_alt ;;
           n' <- user_count_plus_one d (user_id u) ;;
           id_alt <- py_get result "ID" (PInt n') ;;
           id_v <- py_get result "id" id_alt ;;
           Ok (PDict
                 [ ("type", type_v); ("name", name_v);
                   ("description", PStr "");
                   ("startDate", PStr ""); ("startTime", PStr "");
                   ("cohosts", cohosts_v);
                   ("createCalendarEvent", PBool false);
                   ("inviteUsers", PBool false);
                   ("liveStreamTitle", PStr "");
                   ("liveStreamDescription", PStr "");
                   ("ownerId", user_id u); ("ownerName", user_name u);
                   ("status", PStr "scheduled");
                   ("link", link_v); ("id", id_v) ]))
        with
        | Raise ex => (d, Raise ex)
        | Ok conference_data =>
            match Database.save_conference now d conference_data with
            | Ok (d', _) => (d', Ok (jsonify conference_data))
            | Raise _ => (d, Ok (jsonify result))
            end
        end
    end in
  match attempt with
  | (d', Raise ex) =>
      (d', Ok (jsonify_status (error_body "API call failed: " ex) 500))
  | done => done
  end.

(** [POST /api/conferences] *)
Definition create_conference (now : string) (e : environment) (r : request)
  (d : Database.db) : Database.db * res response :=
  match get_json r with
  | Raise ex => (d, Raise ex)
  | Ok data =>
      match get_user_from_request r with
      | Raise ex => (d, Raise ex)
      | Ok u =>
          match yandex_token e with
          | Some token =>
              if (token =? "")%string then create_without_token now u data d
              else create_with_token now e token u data d
          | None => create_without_token now u data d
          end
      end
  end.

(** What a route returns, a response object or a pair of one and a status
    code, is true in a condition. *)
Definition response_truthy (_ : response) : bool := true.

Definition recursion_error : exn :=
  exc RecursionError "maximum recursion depth exceeded".

(** [DELETE /api/conferences/<int:conf_id>].

    The route is a function named [delete_conference] nested in
    [create_app].  That binding is the one its body sees: the call
    [delete_conference(conf_id)] in the body enters the route again, not the
    function that the module imports from [database].

    [frames] is how many more Python frames the interpreter allows, and
    [jsonify_frames] how many of them a call of [jsonify] needs. *)
Fixpoint delete_conference (jsonify_frames frames : nat) (conf_id : Z)
  (d : Database.db) : Database.db * res response :=
  match frames with
  | O => (d, Raise recursion_error)
  | S frames' =>
      let respond (rsp : response) : res response :=
        if Nat.leb jsonify_frames frames' then Ok rsp
        else Raise recursion_error in
      match delete_conference jsonify_frames frames' conf_id d with
      | (d', Ok success) =>
          match
            (if response_truthy success then
               respond (jsonify
                          (PDict [ ("success", PBool true);
                                   ("message",
                                     PStr "Conference deleted successfully") ]))
             else
               respond (jsonify_status
                          (PDict [("error", PStr "Conference not found")])
                          404))
          with
          | Ok rsp => (d', Ok rsp)
          | Raise ex =>
              (d', respond (jsonify_status
                              (error_body "Failed to delete conference: " ex)
                              500))
          end
      | (d', Raise ex) =>
          (d', respond (jsonify_status
                          (error_body "Failed to delete conference: " ex)
                          500))
      end
  end.

(** [PUT /api/conferences/<int:conf_id>].

    This route too is the binding that its own body sees under its name, so
    [update_conference(conf_id, data)] applies the route, a function of one
    parameter, to two arguments; [surplus] holds the arguments after the
    first. *)
Fixpoint update_conference (frames : nat) (e : environment) (r : request)
  (conf_id : Z) (surplus : list pyval) (d : Database.db)
  : Database.db * res response :=
  match surplus with
  | _ :: _ =>
      (d, Raise (exc TypeError
                   ("create_app.<locals>.update_conference() takes 1 positional "
                      ++ "argument but "
                      ++ str_of_int (Z.of_nat (S (List.length surplus)))
                      ++ " were given")))
  | [] =>
      match frames with
      | O => (d, Raise recursion_error)
      | S frames' =>
          match get_json r with
          | Raise ex => (d, Raise ex)
          | Ok data =>
              (* the remote update: its outcome is dropped *)
              let _ :=
                match yandex_token e with
                | Some token =>
                    if (token =? "")%string then Ok PNone
                    else
                      Telemost.api_call (send e) (now_iso e)
                        (session_yandex_access_token e) (YANDEX_OAUTH_TOKEN e)
                        "PUT" ("conferences/" ++ str_of_int conf_id)
                        (Some token) data PNone
                | None => Ok PNone
                end in
              match update_conference frames' e r conf_id [data] d with
              | (d', Ok success) =>
                  if response_truthy success then
                    match Database.get_conference_by_id d' conf_id with
                    | Ok updated_conf => (d', Ok (jsonify updated_conf))
                    | Raise ex =>
                        (d', Ok (jsonify_status
                                   (error_body
                                      "Failed to update conference: " ex)
                                   500))
                    end
                  else
                    (d', Ok (jsonify_status
                               (PDict [("error", PStr "Conference not found")])
                               404))
              | (d', Raise ex) =>
                  (d', Ok (jsonify_status
                             (error_body "Failed to update conference: " ex)
                             500))
              end
          end
      end
  end.

(** *** PrefixMiddleware *)

(** [s.rstrip('/')] *)
Fixpoint rstrip_slash (s : string) : string :=
  match s with
  | EmptyString => EmptyString
  | String c r =>
      match rstrip_slash r with
      | EmptyString =>
          if Ascii.eqb c "/" then EmptyString else String c EmptyString
      | r' => String c r'
      end
  end.

(** [s[n:]] *)
Fixpoint str_from (n : nat) (s : string) : string :=
  match n, s with
  | O, _ => s
  | S n', String _ r => str_from n' r
  | S _, EmptyString => EmptyString
  end.

(** The two entries of the WSGI environ that the middleware touches. *)
Record environ : Type := {
  PATH_INFO : string;
  SCRIPT_NAME : string
}.

(** [PrefixMiddleware(app, prefix).__call__(environ, start_response)]: the
    environ that is handed on to the application. *)
Definition PrefixMiddleware (prefix : string) (env : environ) : environ :=
  let self_prefix := rstrip_slash prefix in
  if (negb (self_prefix =? "")%string
      && String.prefix self_prefix (PATH_INFO env))%bool
  then {| PATH_INFO := str_from (String.length self_prefix) (PATH_INFO env);
          SCRIPT_NAME := self_prefix |}
  else env.

(** [app.wsgi_app] as [create_app] leaves it for the configured
    [BASE_PATH]. *)
Definition wsgi_environ (base_path : string) (env : environ) : environ :=
  if negb (base_path =? "")%string then PrefixMiddleware base_path env
  else env.

(** [get_member_id()]: the session afterwards and the member id. *)
Definition get_member_id (r : request) (session : dict)
  : res (dict * pyval) :=
  params <- merge_params r ;;
  let member_id :=
    match dict_get params "member_id" with
    | Some v => v
    | None => PNone
    end in
  if truthy member_id then
    Ok (dict_set session "member_id" member_id, member_id)
  else Ok (session, Telemost.session_get session "member_id").

(** What [index] gives to the template. *)
Record index_page : Type := {
  bitrix_auth : bool;
  telemost_auth : bool
}.

(** [session.get(k) is not None] *)
Definition session_has (session : dict) (k : string) : bool :=
  match Telemost.session_get session k with
  | PNone => false
  | _ => true
  end.

(** [GET /] and [POST /]: the session afterwards and the arguments of
    [render_template('index.html', ...)].  [oauth_token] is the configured
    [YANDEX_OAUTH_TOKEN]. *)
Definition index (method : string) (r : request)
  (oauth_token : option string) (session : dict)
  : res (dict * index_page) :=
  session0 <-
    (if (method =? "POST")%string then
       params <- merge_params r ;;
       let param k :=
         match dict_get params k with
         | Some v => v
         | None => PNone
         end in
       if (truthy (param "DOMAIN") && truthy (param "AUTH_ID"))%bool then
         if truthy (param "member_id") then
           Ok (dict_set session "member_id" (param "member_id"))
         else Ok session
       else Ok session
     else Ok session) ;;
  let telemost_configured :=
    match oauth_token with
    | Some _ => true
    | None => false
    end in
  let session1 :=
    if (telemost_configured
        && negb (truthy (Telemost.session_get session0
                           "yandex_access_token")))%bool
    then dict_set session0 "yandex_access_token"
                  (Telemost.py_of_config oauth_token)
    else session0 in
  Ok (session1,
      {| bitrix_auth := true;
         telemost_auth := session_has session1 "yandex_access_token" |}).


End App.

(* ================================================================== *)
(** ** utils/auth.py                                                    *)
(* ================================================================== *)

Module Auth.

(** [f"{n:02d}"] for an int: at least two characters, the sign counted,
    zeros put in front. *)
Definition format_02d (n : Z) : string :=
  let s := str_of_int n in
  if Nat.ltb (String.length s) 2 then "0" ++ s else s.

(** [hours = seconds // 3600; minutes = (seconds % 3600) // 60;
     secs = seconds % 60; f"{hours:02d}:{minutes:02d}:{secs:02d}"] *)
Definition clock_text (seconds : Z) : string :=
  let hours := seconds / 3600 in
  let minutes := (seconds mod 3600) / 60 in
  let secs := seconds mod 60 in
  format_02d hours ++ ":" ++ format_02d minutes ++ ":" ++ format_02d secs.

(** [format_duration(seconds)] *)
Definition format_duration (seconds : pyval) : res string :=
  if negb (truthy seconds) then Ok "00:00:00"
  else
    match seconds with
    | PInt z => Ok (clock_text z)
    | PBool b => Ok (clock_text (if b then 1 else 0))
    | PFloat _ =>
        Raise (exc ValueError
                 "Unknown format code 'd' for object of type 'float'")
    | v =>
        Raise (exc TypeError
                 ("unsupported operand type(s) for //: '" ++ type_name v
                    ++ "' and 'int'"))
    end.

End Auth.

(* ================================================================== *)
(** ** Vocabulary of the statements, and sample inputs                 *)
(* ================================================================== *)

(** The value of key [k] in a conference given as a dict. *)
Definition field (c : pyval) (k : string) : option pyval :=
  match c with
  | PDict d => dict_get d k
  | _ => None
  end.

(** The rows that [WHERE owner_id = U] selects. *)
Definition owned_by (U : string) (r : Database.row) : bool :=
  Database.same_text (Database.owner_id (Database.data r)) (SText U).

(** The keys of the table: ids are pairwise distinct, and so are the links
    that are not NULL. *)
Definition consistent (d : Database.db) : Prop :=
  NoDup (map Database.id (Database.rows d)) /\
  forall r1 r2 s,
    In r1 (Database.rows d) -> In r2 (Database.rows d) ->
    Database.link (Database.data r1) = SText s ->
    Database.link (Database.data r2) = SText s ->
    r1 = r2.

(** No token for the conferencing provider: neither in the session nor in
    the configuration. *)
Definition no_token (e : App.environment) : Prop :=
  Telemost.truthy_token (App.yandex_token e) = false.

Definition query_only (q : list (string * string)) : App.request :=
  {| App.args := q; App.is_json := false;
     App.get_json := Raise (exc BadRequest "415 Unsupported Media Type");
     App.form := []; App.raw_data := ""; App.parse_qs := [] |}.

Definition json_request (q : list (string * string)) (b : pyval)
  : App.request :=
  {| App.args := q; App.is_json := true; App.get_json := Ok b;
     App.form := []; App.raw_data := ""; App.parse_qs := [] |}.

Definition unreachable : Telemost.network :=
  fun _ => Raise (mk_exn RequestException "Connection refused" None).

Definition offline : App.environment :=
  {| App.session_yandex_access_token := None;
     App.YANDEX_OAUTH_TOKEN := None;
     App.send := unreachable;
     App.now_iso := "2024-01-01T09:00:00" |}.

Definition with_token (net : Telemost.network) : App.environment :=
  {| App.session_yandex_access_token := Some "y0_token";
     App.YANDEX_OAUTH_TOKEN := None;
     App.send := net;
     App.now_iso := "2024-01-01T09:00:00" |}.

Definition standup : pyval :=
  PDict [("name", PStr "Standup"); ("type", PStr "conference")].

Definition retro : pyval :=
  PDict [("name", PStr "Retro"); ("type", PStr "conference")].

Definition alice_creates : App.request :=
  json_request [("user_id", "alice"); ("user_name", "Alice")] standup.

Definition bob_creates : App.request :=
  json_request [("user_id", "bob"); ("user_name", "Bob")] retro.

(** The table after alice created [standup] without a token. *)
Definition db_alice : Database.db :=
  fst (App.create_conference "2024-01-01 09:00:00" offline alice_creates
         Database.init_db).

Definition alice_lists : App.request :=
  query_only [("user_id", "alice"); ("user_name", "Alice")].

(** A provider that answers the list request with two records. *)
Definition remote_records : pyval :=
  PList [ PDict [("ID", PInt 5); ("LINK", PStr "https://telemost.yandex.ru/j/5");
                 ("name", PStr "Planning")];
          PDict [("id", PInt 6); ("link", PStr "https://telemost.yandex.ru/j/6")] ].

Definition provider_lists : Telemost.network :=
  fun _ => Ok {| Telemost.status_code := 200; Telemost.reason := "OK";
                 Telemost.text := "[...]";
                 Telemost.json := Ok remote_records |}.


Definition bob_lists : App.request :=
  query_only [("user_id", "bob"); ("user_name", "Bob")].

(** The table after bob, who has a token, listed his conferences: the first
    record of [remote_records] was stored, the second, without a name, was
    skipped. *)
Definition db_synced : Database.db :=
  fst (App.get_conferences (fun _ => "2024-01-01 08:00:00")
         (with_token provider_lists) bob_lists Database.init_db).

Definition link_base : string := "https://telemost.yandex.ru/j/".

Definition deleted_successfully : App.response :=
  App.jsonify (PDict [ ("success", PBool true);
                       ("message", PStr "Conference deleted successfully") ]).

(** *** Conference records *)

(** The value of a field of a record, or the default that [database.py]
    takes for a field that is absent. *)
Definition default (c : dict) (k : string) (dv : pyval) : pyval :=
  match dict_get c k with
  | Some v => v
  | None => dv
  end.

Definition is_str (v : pyval) : bool :=
  match v with PStr _ => true | _ => false end.

Definition is_bool (v : pyval) : bool :=
  match v with PBool _ => true | _ => false end.

Definition is_kind (v : pyval) : bool :=
  match v with
  | PStr s => ((s =? "conference") || (s =? "broadcast"))%string
  | _ => false
  end.

(** A string that a DATE or TIME column keeps as text: not shaped like a
    number. *)
Definition keeps_text (v : pyval) : bool :=
  match v with
  | PStr s =>
      match numeric_literal s with
      | NotNumeric => true
      | _ => false
      end
  | _ => false
  end.

(** A conference record as the data model types it: [name], [type] and
    [ownerId] present, [type] one of the two kinds, the other fields absent
    or of their type, the date and the time not shaped like a number. *)
Definition valid_conference (c : dict) : bool :=
  (is_str (default c "name" PNone)
   && is_kind (default c "type" PNone)
   && is_str (default c "ownerId" PNone)
   && is_str (default c "description" (PStr ""))
   && keeps_text (default c "startDate" (PStr ""))
   && keeps_text (default c "startTime" (PStr ""))
   && is_bool (default c "createCalendarEvent" (PBool false))
   && is_bool (default c "inviteUsers" (PBool false))
   && is_str (default c "liveStreamTitle" (PStr ""))
   && is_str (default c "liveStreamDescription" (PStr ""))
   && is_str (default c "ownerName" (PStr "Unknown"))
   && is_str (default c "link" (PStr ""))
   && is_str (default c "status" (PStr "scheduled")))%bool.

(** No row of the table has the link [v]. *)
Definition link_free (d : Database.db) (v : pyval) : bool :=
  match v with
  | PStr s => negb (Database.link_taken (Database.rows d) (SText s))
  | _ => true
  end.

(** What [get_conference_by_id] is to return for record [c] stored under
    id [i] at time [now]. *)
Definition read_back (c : dict) (i : Z) (now : string) : pyval :=
  PDict
    [ ("id", PInt i);
      ("name", default c "name" PNone);
      ("type", default c "type" PNone);
      ("description", default c "description" (PStr ""));
      ("startDate", default c "startDate" (PStr ""));
      ("startTime", default c "startTime" (PStr ""));
      ("cohosts", default c "cohosts" (PList []));
      ("createCalendarEvent", default c "createCalendarEvent" (PBool false));
      ("inviteUsers", default c "inviteUsers" (PBool false));
      ("liveStreamTitle", default c "liveStreamTitle" (PStr ""));
      ("liveStreamDescription", default c "liveStreamDescription" (PStr ""));
      ("ownerId", default c "ownerId" PNone);
      ("ownerName", default c "ownerName" (PStr "Unknown"));
      ("link", default c "link" (PStr ""));
      ("status", default c "status" (PStr "scheduled"));
      ("createdAt", PStr now) ].

(** The round trip as the specification words it: every field of the
    inserted record, [createdAt] and [updatedAt] apart, is read back
    unchanged under the id that [save_conference] returned. *)
Definition round_trip_as_stated (now : string) (d : Database.db) (c : dict)
  : Prop :=
  exists d' cid i back,
    Database.save_conference now d (PDict c) = Ok (d', cid) /\
    int_of_str cid = Some i /\
    Database.get_conference_by_id d' i = Ok back /\
    forall k v,
      dict_get c k = Some v ->
      k <> "createdAt" -> k <> "updatedAt" ->
      field back k = Some v.

Definition record_with_id : dict :=
  [ ("id", PInt 77); ("name", PStr "Planning"); ("type", PStr "conference");
    ("ownerId", PStr "bob");
    ("link", PStr "https://telemost.yandex.ru/j/77") ].

Definition record_with_year : dict :=
  [ ("name", PStr "Kickoff"); ("type", PStr "conference");
    ("ownerId", PStr "bob"); ("startDate", PStr "2024");
    ("link", PStr "https://telemost.yandex.ru/j/kickoff") ].

Definition record_full : dict :=
  [ ("name", PStr "Review"); ("type", PStr "broadcast");
    ("description", PStr "Quarterly review");
    ("startDate", PStr "2024-03-01"); ("startTime", PStr "10:30");
    ("cohosts", PList [PStr "carol@example.com"]);
    ("createCalendarEvent", PBool true);
    ("liveStreamTitle", PStr "Review live");
    ("ownerId", PStr "bob"); ("ownerName", PStr "Bob");
    ("link", PStr "https://telemost.yandex.ru/j/review") ].

(** *** Spellings of a field in a record of the provider *)

(** The value under [k1], else under [k2], else [dv]. *)
Definition first_present (d : dict) (k1 k2 : string) (dv : pyval) : pyval :=
  match dict_get d k1 with
  | Some v => v
  | None => default d k2 dv
  end.

(** The table of spellings that the list route probes. *)
Definition normalized (conf : dict) (u : App.user_info) : pyval :=
  PDict
    [ ("id", first_present conf "id" "ID" PNone);
      ("name", default conf "name" PNone);
      ("type", default conf "type" (PStr "conference"));
      ("description", default conf "description" (PStr ""));
      ("startDate", first_present conf "start_date" "startDate" (PStr ""));
      ("startTime", first_present conf "start_time" "startTime" (PStr ""));
      ("cohosts", first_present conf "cohosts" "participants" (PList []));
      ("createCalendarEvent",
        first_present conf "create_calendar_event" "createCalendarEvent"
          (PBool false));
      ("inviteUsers",
        first_present conf "invite_users" "inviteUsers" (PBool false));
      ("liveStreamTitle",
        first_present conf "live_stream_title" "liveStreamTitle" (PStr ""));
      ("liveStreamDescription",
        first_present conf "live_stream_description" "liveStreamDescription"
          (PStr ""));
      ("ownerId", App.user_id u); ("ownerName", App.user_name u);
      ("status", default conf "status" (PStr "scheduled"));
      ("link", first_present conf "link" "LINK" (PStr ""));
      ("createdAt", first_present conf "created_at" "createdAt" PNone) ].

Definition alice : App.user_info :=
  {| App.user_id := PStr "alice"; App.user_name := PStr "Alice" |}.

(** A 200 answer whose body is not JSON; [ex] is what [response.json()]
    raises on it. *)
Definition html_page (ex : exn) : Telemost.network :=
  fun _ => Ok {| Telemost.status_code := 200; Telemost.reason := "OK";
                 Telemost.text := "<html>maintenance</html>";
                 Telemost.json := Raise ex |}.

(** The default identity as the specification words it: without [user_id]
    the caller is ["unknown"], named ["Unknown User"]. *)
Definition default_identity_as_stated (r : App.request) : Prop :=
  forall params,
    App.merge_params r = Ok params ->
    dict_get params "user_id" = None ->
    App.get_user_from_request r
    = Ok {| App.user_id := PStr "unknown";
            App.user_name := PStr "Unknown User" |}.

(** Rows that a route adds for caller [U] are rows of [U]. *)
Definition adds_only_for (U : string) (d d' : Database.db) : Prop :=
  forall r, In r (Database.rows d') ->
            In r (Database.rows d) \/ owned_by U r = true.

(** [stores U d d']: the table [d'] comes from [d] by successful calls of
    [save_conference] on records whose [ownerId] is [U]. *)
Inductive stores (U : string) : Database.db -> Database.db -> Prop :=
| stores_none : forall d, stores U d d
| stores_more : forall now d d1 d2 cd cid,
    field cd "ownerId" = Some (PStr U) ->
    Database.save_conference now d cd = Ok (d1, cid) ->
    stores U d1 d2 ->
    stores U d d2.

(** *** Order and invariants of the table *)

(** [a] is listed before [b] under [ORDER BY created_at DESC]. *)
Definition newest_first (a b : Database.row) : Prop :=
  String.leb (Database.created_at b) (Database.created_at a) = true.

(** The rows that [WHERE type = k] selects. *)
Definition of_kind (k : string) (r : Database.row) : bool :=
  Database.same_text (Database.type (Database.data r)) (SText k).

Definition is_text (v : sqlval) : bool :=
  match v with SText _ => true | _ => false end.

(** What NOT NULL and CHECK say of one row. *)
Definition row_checked (r : Database.row) : bool :=
  (is_text (Database.name (Database.data r))
   && (of_kind "conference" r || of_kind "broadcast" r)
   && is_text (Database.owner_id (Database.data r))
   && is_text (Database.owner_name (Database.data r)))%bool.

Definition constraints_hold (d : Database.db) : Prop :=
  forall r, In r (Database.rows d) -> row_checked r = true.

(** No row has an id beyond the AUTOINCREMENT counter. *)
Definition ids_bounded (d : Database.db) : Prop :=
  forall r, In r (Database.rows d) -> Database.id r <= Database.seq d.


(** The invariant of the table: keys pairwise distinct, NOT NULL and CHECK
    respected, ids within the counter. *)
Definition sound (d : Database.db) : Prop :=
  consistent d /\ constraints_hold d /\ ids_bounded d.

(** The table after [record_full] was saved into the empty one. *)
Definition db_review : Database.db :=
  match Database.save_conference "2024-03-01 10:00:00" Database.init_db
          (PDict record_full) with
  | Ok (d, _) => d
  | Raise _ => Database.init_db
  end.

(** Two records that carry no [link], of two owners. *)
Definition linkless_alice : dict :=
  [ ("name", PStr "Standup"); ("type", PStr "conference");
    ("ownerId", PStr "alice") ].

Definition linkless_bob : dict :=
  [ ("name", PStr "Retro"); ("type", PStr "broadcast");
    ("ownerId", PStr "bob") ].

(** The table after [linkless_alice] was saved into the empty one. *)
Definition db_linkless : Database.db :=
  match Database.save_conference "2024-03-02 10:00:00" Database.init_db
          (PDict linkless_alice) with
  | Ok (d, _) => d
  | Raise _ => Database.init_db
  end.

(** [db_review] after its only row was deleted: empty, the counter kept. *)
Definition db_emptied : Database.db :=
  {| Database.rows := []; Database.seq := 1 |}.

(** *** Networks and sessions *)


(** A provider that answers every request with status 503. *)
Definition overloaded : Telemost.network :=
  fun _ => Ok {| Telemost.status_code := 503;
                 Telemost.reason := "Service Unavailable";
                 Telemost.text := "";
                 Telemost.json :=
                   Raise (exc JSONDecodeError
                            "Expecting value: line 1 column 1 (char 0)") |}.

(** The entry of the payload for one cohost. *)
Definition email_entry (s : string) : pyval := PDict [("email", PStr s)].

Definition has_at (s : string) : bool := str_contains "@" s.

(** The keys of the session other than the two Yandex tokens are the same
    in [s] and [s']. *)
Definition same_but_tokens (s s' : dict) : Prop :=
  forall k, k <> "yandex_access_token" -> k <> "yandex_refresh_token" ->
            dict_get s' k = dict_get s k.

Definition configured : Telemost.credentials :=
  {| Telemost.YANDEX_CLIENT_ID := Some "client";
     Telemost.YANDEX_CLIENT_SECRET := Some "secret";
     Telemost.YANDEX_REDIRECT_URI := Some "https://app.example/auth/yandex/callback";
     Telemost.YANDEX_TOKEN_URL := "https://oauth.yandex.ru/token" |}.

(** A token endpoint that answers with a new access token and no refresh
    token. *)
Definition grants_access_only : Telemost.token_network :=
  fun _ => Ok {| Telemost.status_code := 200; Telemost.reason := "OK";
                 Telemost.text := "{...}";
                 Telemost.json :=
                   Ok (PDict [("access_token", PStr "y0_new");
                              ("expires_in", PInt 3600)]) |}.

Definition session_with_tokens : dict :=
  [ ("member_id", PStr "m1");
    ("yandex_access_token", PStr "y0_old");
    ("yandex_refresh_token", PStr "r_old") ].

(** *** Requests and tables *)

(** [d'] holds the rows of [d], unchanged and in their order, followed by
    rows added since; the id counter has not gone back. *)
Definition appended (d d' : Database.db) : Prop :=
  (exists more, Database.rows d' = (Database.rows d ++ more)%list) /\
  Database.seq d <= Database.seq d'.

(** The parameters of the query string, as [merge_params] starts from
    them. *)
Definition query_params (r : App.request) : dict :=
  dict_update [] (App.str_items (App.args r)).

(** A request that names bob in the query string and alice in its JSON
    body. *)
Definition bob_as_alice : App.request :=
  json_request [("user_id", "bob"); ("user_name", "Bob")]
    (PDict [("name", PStr "Standup"); ("type", PStr "conference");
            ("user_id", PStr "alice")]).





(** The token of a session as the routes of [/api/conferences] read it. *)
Definition token_of_session (s : dict) : option string :=
  match dict_get s "yandex_access_token" with
  | Some (PStr t) => Some t
  | _ => None
  end.

(** The session holds no Yandex access token, [None], or a string. *)
Definition token_is_text (s : dict) : bool :=
  match dict_get s "yandex_access_token" with
  | None | Some PNone | Some (PStr _) => true
  | _ => false
  end.

(** The token that the conference routes work with, for a session and a
    configured token. *)
Definition effective_token (oauth_token : option string) (s : dict)
  : option string :=
  App.yandex_token
    {| App.session_yandex_access_token := token_of_session s;
       App.YANDEX_OAUTH_TOKEN := oauth_token;
       App.send := unreachable;
       App.now_iso := "" |}.

(** [db_alice] after its row was deleted and [linkless_bob] was saved. *)
Definition db_after_reuse : Database.db :=
  match Database.delete_conference db_alice 1 with
  | Ok (d1, _) =>
      match Database.save_conference "2024-01-02 09:00:00" d1
              (PDict linkless_bob) with
      | Ok (d2, _) => d2
      | Raise _ => d1
      end
  | Raise _ => db_alice
  end.

(** A provider that answers every request with the response [r]. *)
Definition answers (r : Telemost.response) : Telemost.network :=
  fun _ => Ok r.

(** The answer to a create: a conference with id 901 and its link. *)
Definition created_remote : Telemost.response :=
  {| Telemost.status_code := 201; Telemost.reason := "Created";
     Telemost.text := "{...}";
     Telemost.json :=
       Ok (PDict [ ("id", PInt 901);
                   ("link", PStr "https://telemost.yandex.ru/j/901") ]) |}.

(** A record as [update_conference] takes it: as [valid_conference], but
    [ownerId] is not looked at. *)
Definition valid_update (c : dict) : bool :=
  (is_str (default c "name" PNone)
   && is_kind (default c "type" PNone)
   && is_str (default c "description" (PStr ""))
   && keeps_text (default c "startDate" (PStr ""))
   && keeps_text (default c "startTime" (PStr ""))
   && is_bool (default c "createCalendarEvent" (PBool false))
   && is_bool (default c "inviteUsers" (PBool false))
   && is_str (default c "liveStreamTitle" (PStr ""))
   && is_str (default c "liveStreamDescription" (PStr ""))
   && is_str (default c "ownerName" (PStr "Unknown"))
   && is_str (default c "link" (PStr ""))
   && is_str (default c "status" (PStr "scheduled")))%bool.

(** No row other than the one with id [i] has the link [v]. *)
Definition link_free_for (i : Z) (d : Database.db) (v : pyval) : bool :=
  match v with
  | PStr s =>
      negb (Database.link_taken
              (filter (fun r => negb (Database.id r =? i))
                      (Database.rows d))
              (SText s))
  | _ => true
  end.

(** A new name for the conference of [db_review], sent with another
    owner. *)
Definition renamed : dict :=
  [ ("name", PStr "Review, moved"); ("type", PStr "broadcast");
    ("ownerId", PStr "mallory");
    ("link", PStr "https://telemost.yandex.ru/j/review") ].

(* ================================================================== *)
(** ** Basic facts                                                      *)
(* ================================================================== *)

Lemma In_insert_desc (x r : Database.row) (l : list Database.row) :
  In x (Database.insert_desc r l) <-> x = r \/ In x l.
Proof.
  induction l as [|y l IH]; simpl.
  - intuition.
  - destruct (String.leb _ _); simpl; rewrite ?IH; intuition.
Qed.

Lemma In_order_by_created_at_desc (x : Database.row) (l : list Database.row) :
  In x (Database.order_by_created_at_desc l) <-> In x l.
Proof.
  unfold Database.order_by_created_at_desc.
  induction l as [|y l IH]; simpl.
  - tauto.
  - rewrite In_insert_desc, IH. intuition.
Qed.

Lemma get_user_conferences_str (d : Database.db) (U : string) :
  Database.get_user_conferences d (PStr U) =
  Ok (PList (map Database.conference_of_row
               (Database.order_by_created_at_desc
                  (filter (owned_by U) (Database.rows d))))).
Proof. reflexivity. Qed.

Lemma owned_by_owner (U : string) (r : Database.row) :
  owned_by U r = true ->
  field (Database.conference_of_row r) "ownerId" = Some (PStr U).
Proof.
  unfold owned_by, Database.same_text. simpl.
  destruct (Database.owner_id (Database.data r)); try discriminate.
  intros H. apply String.eqb_eq in H. now subst.
Qed.

(** Every record that [get_user_conferences(U)] returns is owned by [U]. *)
Lemma listed_are_owned (d : Database.db) (U : string) (l : list pyval) :
  Database.get_user_conferences d (PStr U) = Ok (PList l) ->
  forall c, In c l -> field c "ownerId" = Some (PStr U).
Proof.
  rewrite get_user_conferences_str. intros [= <-] c Hc.
  apply in_map_iff in Hc. destruct Hc as (r & <- & Hr).
  apply In_order_by_created_at_desc, filter_In in Hr.
  now apply owned_by_owner.
Qed.

Lemma respond_local_str (d : Database.db) (U : string) :
  exists l,
    App.respond_local d (PStr U) = (d, Ok (App.jsonify (PList l))) /\
    Database.get_user_conferences d (PStr U) = Ok (PList l).
Proof.
  eexists. unfold App.respond_local.
  rewrite get_user_conferences_str. simpl. split; reflexivity.
Qed.

Ltac local_leaf d U HU :=
  exists d; rewrite ?HU;
  destruct (respond_local_str d U) as (? & -> & _); reflexivity.

(** In every branch the list route ends by reading the caller's own rows. *)
Lemma get_conferences_answers_local (clock : nat -> string)
  (e : App.environment) (r : App.request) (d : Database.db)
  (u : App.user_info) (U : string) :
  App.get_user_from_request r = Ok u ->
  App.user_id u = PStr U ->
  exists d',
    App.get_conferences clock e r d = App.respond_local d' (PStr U).
Proof.
  intros Hu HU. unfold App.get_conferences. rewrite Hu.
  assert (Hsync : forall confs,
    exists d',
      (let attempt := App.sync_and_respond clock u confs d in
       match attempt with
       | (d1, Raise _) => App.respond_local d1 (App.user_id u)
       | done => done
       end) = App.respond_local d' (PStr U)).
  { intros confs. unfold App.sync_and_respond.
    destruct (App.sync clock 0 u confs d) as [d1 [[]|ex]].
    - local_leaf d1 U HU.
    - cbv zeta. exists d1. now rewrite HU. }
  destruct (App.yandex_token e) as [token|]; [|exists d; now rewrite HU].
  destruct (token =? "")%string; [exists d; now rewrite HU|].
  destruct (Telemost.get_conferences (App.send e) token) as [yc|ex];
    [|exists d; now rewrite HU].
  destruct (py_contains "error" yc) as [[|]|ex];
    [local_leaf d U HU| |exists d; now rewrite HU].
  destruct yc as [| | | | |confs|yc]; try local_leaf d U HU.
  - apply Hsync.
  - destruct (dict_get yc "result") as [[| | | | |confs|]|];
      try local_leaf d U HU.
    apply Hsync.
Qed.

(* ================================================================== *)
(** ** The list route                                                   *)
(* ================================================================== *)

(** C1. Owner isolation. [get_user_conferences(U1)] returns only records
    whose [ownerId] is [U1], so none of another owner [U2]; and whatever the
    token and whatever the provider answers (no token, an error, a list that
    is synchronised first), [GET /api/conferences] for caller [U1] answers
    with [get_user_conferences(U1)] read from the table as the route leaves
    it, hence with records of [U1] only. *)
Theorem C1_owner_isolation (clock : nat -> string) (e : App.environment)
  (r : App.request) (d : Database.db) (u : App.user_info) (U1 U2 : string) :
  U1 <> U2 ->
  App.get_user_from_request r = Ok u ->
  App.user_id u = PStr U1 ->
  (exists l,
     Database.get_user_conferences d (PStr U1) = Ok (PList l) /\
     forall c, In c l ->
       field c "ownerId" = Some (PStr U1) /\
       field c "ownerId" <> Some (PStr U2)) /\
  (exists d' l,
     App.get_conferences clock e r d = (d', Ok (App.jsonify (PList l))) /\
     Database.get_user_conferences d' (PStr U1) = Ok (PList l) /\
     forall c, In c l ->
       field c "ownerId" = Some (PStr U1) /\
       field c "ownerId" <> Some (PStr U2)).
Proof.
  intros Hne Hu HU.
  assert (Hother : forall c, field c "ownerId" = Some (PStr U1) ->
            field c "ownerId" <> Some (PStr U2)).
  { intros c -> [= E]. now apply Hne. }
  split.
  - eexists. split; [apply get_user_conferences_str|].
    intros c Hc. pose proof (listed_are_owned d U1 _ eq_refl c Hc). auto.
  - destruct (get_conferences_answers_local clock e r d u U1 Hu HU)
      as (d' & ->).
    destruct (respond_local_str d' U1) as (l & -> & Hl).
    exists d', l. repeat split; auto.
    + eapply listed_are_owned; eauto.
    + apply Hother. eapply listed_are_owned; eauto.
Qed.

Lemma C1_owner_isolation_witness :
  exists d' l,
    App.get_conferences (fun _ => "2024-01-02 10:00:00")
      (with_token provider_lists) alice_lists db_alice
    = (d', Ok (App.jsonify (PList l))) /\
    Database.get_user_conferences d' (PStr "alice") = Ok (PList l) /\
    forall c, In c l ->
      field c "ownerId" = Some (PStr "alice") /\
      field c "ownerId" <> Some (PStr "bob").
Proof.
  refine (proj2 (C1_owner_isolation (fun _ => "2024-01-02 10:00:00")
                   (with_token provider_lists) alice_lists db_alice
                   {| App.user_id := PStr "alice";
                      App.user_name := PStr "Alice" |}
                   "alice" "bob" _ _ _)).
  - discriminate.
  - reflexivity.
  - reflexivity.
Defined.

(** The client turns a failure of the network, and a 4xx or 5xx answer,
    into an error value. *)
Lemma get_conferences_request_failed (net : Telemost.network)
  (token : string) (ex : exn) :
  (forall q, net q = Raise ex) ->
  is_request_exception ex = true ->
  exists err,
    Telemost.get_conferences net token = Ok (PDict err) /\
    dict_has err "error" = true.
Proof.
  intros Hnet Hex. unfold Telemost.get_conferences.
  rewrite Hnet. simpl. rewrite Hex. eexists. split; reflexivity.
Qed.

(** C2. Fallback of the list route. When the client returns an error value
    (a dict with key [error]), the route answers 200 with exactly
    [get_user_conferences(U)] of the table as it was, and the table is left
    as it was: nothing of the provider is merged, no error is shown. *)
Theorem C2_list_fallback (clock : nat -> string) (e : App.environment)
  (r : App.request) (d : Database.db) (u : App.user_info)
  (U token : string) (err : dict) :
  App.get_user_from_request r = Ok u ->
  App.user_id u = PStr U ->
  App.yandex_token e = Some token ->
  token <> "" ->
  Telemost.get_conferences (App.send e) token = Ok (PDict err) ->
  dict_has err "error" = true ->
  exists l,
    Database.get_user_conferences d (PStr U) = Ok (PList l) /\
    App.get_conferences clock e r d = (d, Ok (App.jsonify (PList l))).
Proof.
  intros Hu HU Htok Hne Hget Herr.
  unfold App.get_conferences. rewrite Hu, Htok.
  apply String.eqb_neq in Hne. rewrite Hne, Hget.
  simpl py_contains. rewrite Herr, HU.
  destruct (respond_local_str d U) as (l & -> & Hl).
  exists l. split; [exact Hl|reflexivity].
Qed.

Lemma C2_list_fallback_witness :
  exists l,
    Database.get_user_conferences db_alice (PStr "alice") = Ok (PList l) /\
    App.get_conferences (fun _ => "2024-01-02 10:00:00")
      (with_token unreachable) alice_lists db_alice
    = (db_alice, Ok (App.jsonify (PList l))).
Proof.
  refine (C2_list_fallback (fun _ => "2024-01-02 10:00:00")
            (with_token unreachable) alice_lists db_alice
            {| App.user_id := PStr "alice"; App.user_name := PStr "Alice" |}
            "alice" "y0_token"
            [ ("error", PStr "Request failed: Connection refused");
              ("status_code", PNone) ] _ _ _ _ _ _).
  - reflexivity.
  - reflexivity.
  - reflexivity.
  - discriminate.
  - reflexivity.
  - reflexivity.
Defined.

(* ================================================================== *)
(** ** Rows, ids and links                                              *)
(* ================================================================== *)

Ltac inv_bind H :=
  repeat match type of H with
         | bind ?c _ = Ok _ =>
             let E := fresh "E" in
             destruct c eqn:E; [cbn [bind] in H|discriminate H]
         end.

Lemma int_of_str_of_int (z : Z) : int_of_str (str_of_int z) = Some z.
Proof.
  unfold int_of_str, str_of_int.
  rewrite NilZero.isi.
  - simpl. now rewrite DecimalZ.of_to.
  - destruct z; simpl; try discriminate.
    intros [= E]. now apply DecimalPos.Unsigned.to_uint_nonnil in E.
  - destruct z; simpl; try discriminate.
    intros [= E]. now apply DecimalPos.Unsigned.to_uint_nonnil in E.
Qed.

Lemma str_of_int_nonempty (z : Z) : truthy (PStr (str_of_int z)) = true.
Proof.
  pose proof (int_of_str_of_int z) as H.
  simpl. destruct (str_of_int z); [discriminate H|reflexivity].
Qed.

Lemma max_id_ge (r : Database.row) (rs : list Database.row) :
  In r rs -> Database.id r <= Database.max_id rs.
Proof.
  induction rs as [|x rs IH]; simpl; [tauto|].
  intros [->|H]; [lia|]. specialize (IH H). lia.
Qed.

Lemma next_id_fresh (d : Database.db) (r : Database.row) :
  In r (Database.rows d) -> Database.id r < Database.next_id d.
Proof.
  intros H. apply max_id_ge in H. unfold Database.next_id. lia.
Qed.

Lemma link_taken_false (rs : list Database.row) (s : string) :
  Database.link_taken rs (SText s) = false ->
  forall r, In r rs -> Database.link (Database.data r) <> SText s.
Proof.
  unfold Database.link_taken. intros H r Hr E.
  assert (X : existsb (fun r => Database.same_text
                (Database.link (Database.data r)) (SText s)) rs = true).
  { apply existsb_exists. exists r. split; [exact Hr|].
    rewrite E. simpl. apply String.eqb_refl. }
  congruence.
Qed.

Lemma check_constraints_link (rs : list Database.row) (c : Database.columns) :
  Database.check_constraints rs c = Ok tt ->
  Database.link_taken rs (Database.link c) = false.
Proof.
  unfold Database.check_constraints.
  repeat match goal with
         | |- context [if ?b then _ else _] => destruct b; try discriminate
         end.
  reflexivity.
Qed.

Lemma insert_row_inv (now : string) (d d' : Database.db)
  (c : Database.columns) (i : Z) :
  Database.insert_row now d c = Ok (d', i) ->
  i = Database.next_id d /\
  d' = {| Database.rows :=
            Database.rows d ++
            [ {| Database.id := i; Database.data := c;
                 Database.created_at := now; Database.updated_at := now |} ];
          Database.seq := i |} /\
  Database.link_taken (Database.rows d) (Database.link c) = false.
Proof.
  unfold Database.insert_row. intros H.
  destruct (Database.check_constraints (Database.rows d) c) as [[]|] eqn:E;
    [|discriminate].
  cbn [bind] in H.
  destruct (int64_max <? Database.next_id d); [discriminate|].
  injection H as <- <-.
  repeat split. now apply check_constraints_link.
Qed.

Lemma NoDup_map_In_inj {A B : Type} (f : A -> B) (l : list A) (a b : A) :
  NoDup (map f l) -> In a l -> In b l -> f a = f b -> a = b.
Proof.
  induction l as [|x l IH]; simpl; [tauto|].
  intros Hnd Ha Hb E. inversion Hnd as [|? ? Hx Hl]; subst.
  destruct Ha as [->|Ha], Hb as [->|Hb]; auto.
  - exfalso. apply Hx. rewrite E. now apply in_map.
  - exfalso. apply Hx. rewrite <- E. now apply in_map.
Qed.

Lemma init_db_consistent : consistent Database.init_db.
Proof.
  split; simpl; [constructor|tauto].
Qed.

Lemma insert_row_consistent (now : string) (d d' : Database.db)
  (c : Database.columns) (i : Z) :
  consistent d ->
  Database.insert_row now d c = Ok (d', i) ->
  consistent d'.
Proof.
  intros [Hid Hlink] H.
  apply insert_row_inv in H. destruct H as (-> & -> & Hfree).
  split; simpl.
  - rewrite map_app. simpl.
    apply NoDup_app; [exact Hid|repeat constructor; simpl; tauto|].
    intros x Hx [<-|[]]. apply in_map_iff in Hx.
    destruct Hx as (r & E & Hr). apply next_id_fresh in Hr. lia.
  - intros r1 r2 s H1 H2 L1 L2.
    apply in_app_or in H1. apply in_app_or in H2. simpl in H1, H2.
    destruct H1 as [H1|[<-|[]]], H2 as [H2|[<-|[]]].
    + eauto.
    + exfalso. simpl in L2. rewrite L2 in Hfree.
      now apply (link_taken_false _ _ Hfree r1 H1).
    + exfalso. simpl in L1. rewrite L1 in Hfree.
      now apply (link_taken_false _ _ Hfree r2 H2).
    + reflexivity.
Qed.

(* ================================================================== *)
(** ** Creating without a token                                         *)
(* ================================================================== *)

Lemma save_conference_inv (now : string) (d d' : Database.db) (cd : pyval)
  (cid : string) :
  Database.save_conference now d cd = Ok (d', cid) ->
  exists c i,
    Database.insert_row now d c = Ok (d', i) /\
    cid = str_of_int i /\
    (forall s, field cd "link" = Some (PStr s) -> Database.link c = SText s) /\
    (forall s, field cd "ownerId" = Some (PStr s) ->
               Database.owner_id c = SText s).
Proof.
  unfold Database.save_conference. intros H. inv_bind H.
  match goal with
  | X : Database.insert_row _ _ _ = Ok ?p |- _ => destruct p as [d1 i]
  end.
  simpl in H. injection H as <- <-.
  eexists _, i. split; [eassumption|]. split; [reflexivity|].
  destruct cd; try discriminate. simpl field. simpl in *.
  split; intros lk Hs; rewrite Hs in *; simpl in *.
  - match goal with
    | X : Ok (PStr lk) = Ok ?v, Y : bind_param ?v = Ok ?w |- _ =>
        injection X as <-; simpl in Y; injection Y as <-
    end.
    reflexivity.
  - match goal with
    | X : Ok (PStr lk) = Ok ?v, Y : bind_param ?v = Ok ?w |- _ =>
        injection X as <-; simpl in Y; injection Y as <-
    end.
    reflexivity.
Qed.

(** What the branch without a token answers when it answers 200: the id is
    the one the table gave, the link is built from the number of conferences
    the caller has, plus one. *)
Lemma create_without_token_response (now : string) (u : App.user_info)
  (data : pyval) (d d' : Database.db) (b : pyval) :
  App.create_without_token now u data d = (d', Ok (App.jsonify b)) ->
  exists n c,
    App.user_count_plus_one d (App.user_id u) = Ok n /\
    Database.insert_row now d c = Ok (d', Database.next_id d) /\
    (forall s, App.user_id u = PStr s -> Database.owner_id c = SText s) /\
    Database.link c = SText (link_base ++ str_of_int n) /\
    field b "id" = Some (PInt (Database.next_id d)) /\
    field b "link" = Some (PStr (link_base ++ str_of_int n)) /\
    field b "status" = Some (PStr "scheduled") /\
    field b "ownerId" = Some (App.user_id u).
Proof.
  unfold App.create_without_token. intros H.
  destruct (py_get data "type" (PStr "conference")) as [ty|] eqn:Ety;
    [|discriminate].
  destruct (py_get data "name" PNone) as [nm|] eqn:Enm; [|discriminate].
  destruct (py_get data "cohosts" (PList [])) as [co|] eqn:Eco;
    [|discriminate].
  destruct (App.user_count_plus_one d (App.user_id u)) as [n|] eqn:En;
    [|discriminate].
  cbn [bind] in H.
  match type of H with
  | context [Database.save_conference now d ?cd] =>
      destruct (Database.save_conference now d cd) as [[d1 cid]|ex] eqn:Es
  end; [|discriminate].
  apply save_conference_inv in Es.
  destruct Es as (c & i & Hins & -> & Hlink & Hown).
  rewrite str_of_int_nonempty, int_of_str_of_int in H.
  injection H as <- <-.
  pose proof (insert_row_inv _ _ _ _ _ Hins) as (-> & _ & _).
  exists n, c. repeat split; try reflexivity; try assumption.
  - intros s Hs. apply Hown. simpl. now rewrite Hs.
  - apply Hlink. reflexivity.
Qed.

Lemma create_conference_no_token (now : string) (e : App.environment)
  (r : App.request) (d : Database.db) (data : pyval) (u : App.user_info) :
  no_token e ->
  App.get_json r = Ok data ->
  App.get_user_from_request r = Ok u ->
  App.create_conference now e r d = App.create_without_token now u data d.
Proof.
  unfold no_token, App.create_conference. intros Hno -> ->.
  destruct (App.yandex_token e) as [token|]; [|reflexivity].
  simpl in Hno. apply negb_false_iff in Hno. now rewrite Hno.
Qed.

(** Two creations without a token, one after the other: when both answer
    200, the two ids differ and the two links differ. *)
Lemma no_token_creates_differ (now1 now2 : string) (u1 u2 : App.user_info)
  (data1 data2 : pyval) (d d1 d2 : Database.db) (b1 b2 : pyval) :
  App.create_without_token now1 u1 data1 d = (d1, Ok (App.jsonify b1)) ->
  App.create_without_token now2 u2 data2 d1 = (d2, Ok (App.jsonify b2)) ->
  field b1 "id" <> field b2 "id" /\ field b1 "link" <> field b2 "link".
Proof.
  intros H1 H2.
  apply create_without_token_response in H1, H2.
  destruct H1 as (n1 & c1 & _ & I1 & _ & L1 & -> & -> & _).
  destruct H2 as (n2 & c2 & _ & I2 & _ & L2 & -> & -> & _).
  apply insert_row_inv in I1, I2.
  destruct I1 as (_ & -> & _). destruct I2 as (_ & _ & Hfree).
  split.
  - intros [= E]. revert E. unfold Database.next_id. simpl.
    generalize (Database.max_id (Database.rows d)); intros.
    match type of E with
    | context [Database.max_id ?l] =>
        pose proof (max_id_ge
          {| Database.id := Z.max (Database.seq d) z + 1;
             Database.data := c1;
             Database.created_at := now1;
             Database.updated_at := now1 |} l)
    end.
    simpl in *. lia.
  - intros [= E]. rewrite L2, <- E in Hfree.
    refine (link_taken_false _ _ Hfree
              {| Database.id := Database.next_id d; Database.data := c1;
                 Database.created_at := now1; Database.updated_at := now1 |}
              _ L1).
    simpl. apply in_or_app. right. now left.
Qed.

(** C3. Creating without a token, at the input where the code leaves the
    statement.  The table holds one conference, of bob, stored when bob
    listed with his token (id 1).  Alice, without a token, creates her first
    conference: the answer is 200 with status [scheduled] and owner
    [alice], the table gives id 2, and the link ends in [/j/1], the number
    of alice's conferences plus one, not in the id. *)
Theorem C3_create_without_token_link_is_not_from_id :
  map Database.id (Database.rows db_synced) = [1] /\
  exists d' b,
    App.create_conference "2024-01-01 09:00:00" offline alice_creates
      db_synced = (d', Ok (App.jsonify b)) /\
    field b "status" = Some (PStr "scheduled") /\
    field b "ownerId" = Some (PStr "alice") /\
    field b "id" = Some (PInt 2) /\
    field b "link" = Some (PStr "https://telemost.yandex.ru/j/1") /\
    map Database.id (Database.rows d') = [1; 2].
Proof.
  split; [reflexivity|].
  eexists _, _. split; [vm_compute; reflexivity|].
  repeat split; reflexivity.
Qed.

(** C4. Two callers creating without a token, at the input where the code
    leaves the statement.  On the empty table alice creates a conference,
    then bob does.  Each has no conference yet, so each is given the link
    ending in [/j/1]: alice's creation is stored, bob's is refused by the
    UNIQUE constraint on [link] and answered 500, and the table keeps
    alice's row only. *)
Theorem C4_second_caller_without_token_is_refused :
  exists b1,
    App.create_conference "2024-01-01 09:00:00" offline alice_creates
      Database.init_db = (db_alice, Ok (App.jsonify b1)) /\
    field b1 "link" = Some (PStr "https://telemost.yandex.ru/j/1") /\
    App.create_conference "2024-01-01 09:00:05" offline bob_creates db_alice
    = (db_alice,
       Ok (App.jsonify_status
             (PDict [("error",
                PStr ("Failed to save conference: "
                        ++ "UNIQUE constraint failed: conferences.link"))])
             500)).
Proof.
  eexists. split; [vm_compute; reflexivity|].
  split; reflexivity.
Qed.

(* ================================================================== *)
(** ** Updating and deleting                                            *)
(* ================================================================== *)

(** *** The functions of [database.py] *)

Lemma find_filter_out (i : Z) (rs : list Database.row) :
  find (fun r => Database.id r =? i)
       (filter (fun r => negb (Database.id r =? i)) rs) = None.
Proof.
  induction rs as [|x rs IH]; simpl; [reflexivity|].
  destruct (Database.id x =? i) eqn:E; simpl; [exact IH|].
  now rewrite E.
Qed.

(** [delete(id)] then [getById(id)] gives [None]. *)
Lemma delete_then_get (d d' : Database.db) (i : Z) (found : bool) :
  Database.delete_conference d i = Ok (d', found) ->
  Database.get_conference_by_id d' i = Ok PNone.
Proof.
  unfold Database.delete_conference, Database.get_conference_by_id.
  destruct (bind_param (PInt i)) as [p|]; [|discriminate].
  cbn [bind]. intros [= <- _]. simpl. now rewrite find_filter_out.
Qed.

(** A second [delete(id)] returns [False]; it does not raise. *)
Lemma delete_twice (d d' : Database.db) (i : Z) (found : bool) :
  Database.delete_conference d i = Ok (d', found) ->
  Database.delete_conference d' i = Ok (d', false).
Proof.
  unfold Database.delete_conference.
  destruct (bind_param (PInt i)) as [p|]; [|discriminate].
  cbn [bind]. intros [= <- _]. simpl. f_equal. f_equal.
  - f_equal. induction (Database.rows d) as [|x rs IH]; simpl; [reflexivity|].
    destruct (Database.id x =? i) eqn:E; simpl; [exact IH|].
    rewrite E. simpl. now rewrite IH.
  - induction (Database.rows d) as [|x rs IH]; simpl; [reflexivity|].
    destruct (Database.id x =? i) eqn:E; simpl; [exact IH|].
    now rewrite E.
Qed.

(** [delete(id)] returns whether a row had that id. *)
Lemma delete_found (d d' : Database.db) (i : Z) (found : bool) :
  Database.delete_conference d i = Ok (d', found) ->
  found = true <-> exists r, In r (Database.rows d) /\ Database.id r = i.
Proof.
  unfold Database.delete_conference.
  destruct (bind_param (PInt i)) as [p|]; [|discriminate].
  cbn [bind]. intros [= _ <-]. rewrite existsb_exists.
  split; intros (r & Hr & E); exists r; split; auto; lia.
Qed.

Lemma find_updated (i : Z) (f : Database.row -> Database.row)
  (rs : list Database.row) (old : Database.row) :
  (forall r, Database.id (f r) = Database.id r) ->
  find (fun r => Database.id r =? i) rs = Some old ->
  find (fun r => Database.id r =? i)
       (map (fun r => if Database.id r =? i then f r else r) rs)
  = Some (f old).
Proof.
  intros Hf. induction rs as [|x rs IH]; simpl; [discriminate|].
  destruct (Database.id x =? i) eqn:E.
  - intros [= <-]. simpl. now rewrite Hf, E.
  - intros H. simpl. rewrite E. auto.
Qed.

(** [update(id, P)] with [P] naming the conference ["X"]: when it returns
    [True], [getById(id)] shows the name ["X"], and the row carries the time
    of the update in [updated_at]. *)
Lemma update_then_get (now : string) (d d' : Database.db) (i : Z)
  (P : pyval) (X : string) :
  field P "name" = Some (PStr X) ->
  Database.update_conference now d i P = Ok (d', true) ->
  exists r,
    find (fun r => Database.id r =? i) (Database.rows d') = Some r /\
    Database.updated_at r = now /\
    Database.get_conference_by_id d' i = Ok (Database.conference_of_row r) /\
    field (Database.conference_of_row r) "name" = Some (PStr X).
Proof.
  intros HX H. unfold Database.update_conference in H. inv_bind H.
  unfold Database.update_row in H.
  destruct (find (fun r => Database.id r =? i) (Database.rows d))
    as [old|] eqn:Eold; [|discriminate].
  match type of H with
  | context [Database.check_constraints ?rs ?c] =>
      destruct (Database.check_constraints rs c) as [[]|]; [|discriminate]
  end.
  cbn [bind] in H. injection H as <-.
  eexists. split; [|split; [|split]].
  - simpl Database.rows.
    apply (find_updated i
             (fun r => {| Database.id := Database.id r;
                          Database.data := _;
                          Database.created_at := Database.created_at r;
                          Database.updated_at := now |})
             _ old); [reflexivity|exact Eold].
  - reflexivity.
  - unfold Database.get_conference_by_id.
    match goal with
    | X : bind_param (PInt i) = Ok _ |- _ => rewrite X
    end.
    cbn [bind]. simpl Database.rows.
    rewrite (find_updated i
             (fun r => {| Database.id := Database.id r;
                          Database.data := _;
                          Database.created_at := Database.created_at r;
                          Database.updated_at := now |})
             _ old); [reflexivity|reflexivity|exact Eold].
  - destruct P; try discriminate. simpl in HX. simpl in *.
    rewrite HX in *.
    match goal with
    | A : Ok (PStr X) = Ok ?v, B : bind_param ?v = Ok ?w |- _ =>
        injection A as <-; simpl in B; injection B as <-
    end.
    reflexivity.
Qed.

(** [update(id, P)] returns [False], and changes nothing, when no row has
    that id. *)
Lemma update_missing (now : string) (d d' : Database.db) (i : Z) (P : pyval)
  (found : bool) :
  find (fun r => Database.id r =? i) (Database.rows d) = None ->
  Database.update_conference now d i P = Ok (d', found) ->
  d' = d /\ found = false.
Proof.
  intros Hnone H. unfold Database.update_conference in H. inv_bind H.
  unfold Database.update_row in H. rewrite Hnone in H.
  injection H as <- <-. split; reflexivity.
Qed.

(** *** The keys of the table are kept by every statement *)

Lemma ids_distinct_without (i : Z) (rs : list Database.row) :
  NoDup (map Database.id rs) ->
  NoDup (map Database.id
           (filter (fun r => negb (Database.id r =? i)) rs)).
Proof.
  induction rs as [|x rs IH]; intros Hnd; [exact Hnd|].
  apply NoDup_cons_iff in Hnd. destruct Hnd as [Hx Hrs].
  cbn [filter]. destruct (negb (Database.id x =? i)); [|now apply IH].
  cbn [map]. apply NoDup_cons; [|now apply IH].
  intros Hin. apply Hx. apply in_map_iff in Hin.
  destruct Hin as (y & Ey & Hy). apply filter_In in Hy.
  apply in_map_iff. exists y. tauto.
Qed.

Lemma save_conference_consistent (now : string) (d d' : Database.db)
  (cd : pyval) (cid : string) :
  consistent d ->
  Database.save_conference now d cd = Ok (d', cid) ->
  consistent d'.
Proof.
  intros Hc Hs. apply save_conference_inv in Hs.
  destruct Hs as (c & i & Hins & _). eapply insert_row_consistent; eauto.
Qed.

Lemma delete_conference_consistent (d d' : Database.db) (i : Z)
  (found : bool) :
  consistent d ->
  Database.delete_conference d i = Ok (d', found) ->
  consistent d'.
Proof.
  intros [Hid Hlink]. unfold Database.delete_conference.
  destruct (bind_param (PInt i)); [|discriminate].
  cbn [bind]. intros [= <- _]. split; simpl.
  - now apply ids_distinct_without.
  - intros r1 r2 lk H1 H2. apply filter_In in H1, H2.
    apply Hlink; tauto.
Qed.

Lemma update_row_consistent (now : string) (d d' : Database.db) (i : Z)
  (c : Database.row -> Database.columns) (found : bool) :
  consistent d ->
  Database.update_row now d i c = Ok (d', found) ->
  consistent d'.
Proof.
  intros [Hid Hlink]. unfold Database.update_row.
  destruct (find (fun r => Database.id r =? i) (Database.rows d))
    as [old|]; [|now intros [= <- _]].
  destruct (Database.check_constraints _ (c old)) as [[]|] eqn:Ec;
    [|discriminate].
  cbn [bind]. intros [= <- _].
  apply check_constraints_link in Ec.
  split; simpl.
  - rewrite map_map.
    erewrite map_ext; [exact Hid|].
    intros r. now destruct (Database.id r =? i).
  - intros r1 r2 lk H1 H2 L1 L2.
    apply in_map_iff in H1, H2.
    destruct H1 as (a & <- & Ha), H2 as (b & <- & Hb).
    destruct (Database.id a =? i) eqn:Ea, (Database.id b =? i) eqn:Eb.
    + apply Z.eqb_eq in Ea, Eb.
      assert (a = b) by (eapply NoDup_map_In_inj; eauto; congruence).
      now subst.
    + exfalso. simpl in L1. rewrite L1 in Ec.
      apply (link_taken_false _ _ Ec b); [|exact L2].
      apply filter_In. split; [exact Hb|]. now rewrite Eb.
    + exfalso. simpl in L2. rewrite L2 in Ec.
      apply (link_taken_false _ _ Ec a); [|exact L1].
      apply filter_In. split; [exact Ha|]. now rewrite Ea.
    + eauto.
Qed.

Lemma update_conference_consistent (now : string) (d d' : Database.db)
  (i : Z) (P : pyval) (found : bool) :
  consistent d ->
  Database.update_conference now d i P = Ok (d', found) ->
  consistent d'.
Proof.
  intros Hc H. unfold Database.update_conference in H. inv_bind H.
  eapply update_row_consistent; eauto.
Qed.

(** *** The routes *)

(** The PUT route never reaches the table: it answers 500. *)
Lemma update_route_answers_500 (frames : nat) (e : App.environment)
  (r : App.request) (conf_id : Z) (d : Database.db) (data : pyval) :
  App.get_json r = Ok data ->
  App.update_conference (S frames) e r conf_id [] d =
  (d, Ok (App.jsonify_status
            (PDict [("error",
               PStr ("Failed to update conference: "
                 ++ "create_app.<locals>.update_conference() takes 1 "
                 ++ "positional argument but 2 were given"))])
            500)).
Proof.
  intros Hj. simpl. rewrite Hj. destruct frames; reflexivity.
Qed.

Lemma delete_route_short_stack (J frames : nat) (conf_id : Z)
  (d : Database.db) :
  (frames <= J)%nat ->
  App.delete_conference J frames conf_id d = (d, Raise App.recursion_error).
Proof.
  induction frames as [|f IH]; intros H; [reflexivity|].
  simpl. rewrite IH by lia.
  assert (E : Nat.leb J f = false) by (apply Nat.leb_gt; lia).
  now rewrite E.
Qed.

(** The DELETE route never reaches the table either.  With room on the
    stack for two more frames than an answer needs, it answers 200,
    "deleted successfully", whatever the table holds. *)
Lemma delete_route_answers_success (J frames : nat) (conf_id : Z)
  (d : Database.db) :
  (J + 2 <= frames)%nat ->
  App.delete_conference J frames conf_id d = (d, Ok deleted_successfully).
Proof.
  intros H.
  assert (Hbase : exists rsp,
            App.delete_conference J (S J) conf_id d = (d, Ok rsp)).
  { simpl. rewrite delete_route_short_stack by lia.
    rewrite Nat.leb_refl. eexists. reflexivity. }
  induction frames as [|f IH]; [lia|].
  destruct (Nat.eq_dec f (S J)) as [->|Hne].
  - destruct Hbase as (rsp & Hb).
    change (App.delete_conference J (S (S J)) conf_id d)
      with (let respond := fun rsp0 : App.response =>
                             if Nat.leb J (S J) then Ok rsp0
                             else Raise App.recursion_error in
            match App.delete_conference J (S J) conf_id d with
            | (d', Ok success) =>
                match (if App.response_truthy success
                       then respond deleted_successfully
                       else respond (App.jsonify_status
                                       (PDict [("error",
                                          PStr "Conference not found")]) 404))
                with
                | Ok rsp0 => (d', Ok rsp0)
                | Raise ex =>
                    (d', respond (App.jsonify_status
                           (App.error_body "Failed to delete conference: " ex)
                           500))
                end
            | (d', Raise ex) =>
                (d', respond (App.jsonify_status
                       (App.error_body "Failed to delete conference: " ex)
                       500))
            end).
    rewrite Hb. cbv zeta. unfold App.response_truthy.
    assert (E : Nat.leb J (S J) = true) by (apply Nat.leb_le; lia).
    now rewrite E.
  - simpl. rewrite IH by lia. unfold App.response_truthy.
    assert (E : Nat.leb J f = true) by (apply Nat.leb_le; lia).
    now rewrite E.
Qed.

Lemma delete_route_keeps_table (J frames : nat) (conf_id : Z)
  (d : Database.db) :
  fst (App.delete_conference J frames conf_id d) = d.
Proof.
  induction frames as [|f IH]; [reflexivity|].
  simpl. destruct (App.delete_conference J f conf_id d) as [d1 [rsp|ex]];
    simpl in IH; subst d1.
  - unfold App.response_truthy. destruct (Nat.leb J f); reflexivity.
  - reflexivity.
Qed.

(** C5. The PUT route at an input where the code leaves the statement.
    Alice's conference has id 1 and name [Standup].
    [PUT /api/conferences/1] with a body that names it ["X"] is answered
    500: the call [update_conference(conf_id, data)] in the route applies
    the route itself to two arguments.  The table is as before and
    [get_conference_by_id(1)] still shows [Standup].  The function
    [update_conference] of [database.py], given the same body, returns
    [True] and makes [get_conference_by_id(1)] show ["X"]. *)
Theorem C5_update_route_does_not_update :
  let P := PDict [("name", PStr "X"); ("type", PStr "conference")] in
  App.update_conference 900 offline (json_request [] P) 1 [] db_alice
  = (db_alice,
     Ok (App.jsonify_status
           (PDict [("error",
              PStr ("Failed to update conference: "
                ++ "create_app.<locals>.update_conference() takes 1 "
                ++ "positional argument but 2 were given"))])
           500)) /\
  (exists c, Database.get_conference_by_id db_alice 1 = Ok c /\
             field c "name" = Some (PStr "Standup")) /\
  (exists d' c,
     Database.update_conference "2024-01-01 09:30:00" db_alice 1 P
     = Ok (d', true) /\
     Database.get_conference_by_id d' 1 = Ok c /\
     field c "name" = Some (PStr "X") /\
     map Database.updated_at (Database.rows d') = ["2024-01-01 09:30:00"]).
Proof.
  intros P. split; [|split].
  - exact (update_route_answers_500 899 offline (json_request [] P) 1
             db_alice P eq_refl).
  - eexists. split; [vm_compute; reflexivity|reflexivity].
  - eexists _, _. split; [vm_compute; reflexivity|].
    split; [vm_compute; reflexivity|]. split; reflexivity.
Qed.

(** C6. The DELETE route at inputs where the code leaves the statement.
    The call [delete_conference(conf_id)] in the route enters the route
    again, never the function of [database.py]; the recursion ends in a
    RecursionError that the route's own handlers absorb on the way back.
    With a stack of 900 frames, an answer needing 40:
    on the empty table [DELETE /api/conferences/7] is answered 200,
    "deleted successfully", where no row matches; and
    [DELETE /api/conferences/1] on alice's table is answered the same while
    [get_conference_by_id(1)] still returns her conference.  The function
    [delete_conference] of [database.py] removes the row, and returns
    [False] the second time. *)
Theorem C6_delete_route_does_not_delete :
  App.delete_conference 40 900 7 Database.init_db
  = (Database.init_db, Ok deleted_successfully) /\
  App.delete_conference 40 900 1 db_alice
  = (db_alice, Ok deleted_successfully) /\
  (exists c, Database.get_conference_by_id db_alice 1 = Ok c /\
             field c "name" = Some (PStr "Standup")) /\
  (exists d',
     Database.delete_conference db_alice 1 = Ok (d', true) /\
     Database.get_conference_by_id d' 1 = Ok PNone /\
     Database.delete_conference d' 1 = Ok (d', false)).
Proof.
  split; [|split; [|split]].
  - apply delete_route_answers_success. lia.
  - apply delete_route_answers_success. lia.
  - eexists. split; [vm_compute; reflexivity|reflexivity].
  - eexists. split; [vm_compute; reflexivity|].
    split; vm_compute; reflexivity.
Qed.

(* ================================================================== *)
(** ** Insert and read back                                             *)
(* ================================================================== *)

Lemma is_str_inv (v : pyval) : is_str v = true -> exists s, v = PStr s.
Proof. destruct v; try discriminate. eauto. Qed.

Lemma is_bool_inv (v : pyval) : is_bool v = true -> exists b, v = PBool b.
Proof. destruct v; try discriminate. eauto. Qed.

Lemma is_kind_inv (v : pyval) :
  is_kind v = true ->
  exists s, v = PStr s /\ Database.type_allowed (SText s) = true.
Proof. destruct v; try discriminate. simpl. eauto. Qed.

Lemma next_id_positive (d : Database.db) : 0 < Database.next_id d.
Proof.
  unfold Database.next_id.
  assert (0 <= Database.max_id (Database.rows d)).
  { induction (Database.rows d); simpl; lia. }
  lia.
Qed.

Lemma keeps_text_inv (v : pyval) :
  keeps_text v = true ->
  exists s, v = PStr s /\ numeric_affinity (SText s) = SText s.
Proof.
  destruct v; try discriminate. simpl. intros H. eexists. split; [reflexivity|].
  destruct (numeric_literal s); try discriminate. reflexivity.
Qed.

Lemma py_get_default (c : dict) (k : string) (dv : pyval) :
  py_get (PDict c) k dv = Ok (default c k dv).
Proof. reflexivity. Qed.

Lemma py_item_default (c : dict) (k : string) (s : string) :
  default c k PNone = PStr s -> py_item (PDict c) k = Ok (PStr s).
Proof.
  unfold default, py_item. destruct (dict_get c k); [now intros ->|discriminate].
Qed.

Lemma find_app_fresh (i : Z) (rs : list Database.row) (r : Database.row) :
  (forall x, In x rs -> Database.id x < i) ->
  Database.id r = i ->
  find (fun x => Database.id x =? i) (rs ++ [r]) = Some r.
Proof.
  intros Hrs Hr. induction rs as [|x rs IH]; simpl.
  - rewrite Hr, Z.eqb_refl. reflexivity.
  - assert (E : (Database.id x =? i) = false).
    { apply Z.eqb_neq. specialize (Hrs x (or_introl eq_refl)). lia. }
    rewrite E. apply IH. intros y Hy. apply Hrs. now right.
Qed.



Ltac open_valid :=
  repeat match goal with
         | H : (_ && _)%bool = true |- _ =>
             apply andb_prop in H; destruct H
         | H : is_str _ = true |- _ =>
             apply is_str_inv in H; destruct H as [? H]
         | H : is_bool _ = true |- _ =>
             apply is_bool_inv in H; destruct H as [? H]
         | H : keeps_text _ = true |- _ =>
             apply keeps_text_inv in H; destruct H as (? & H & ?)
         | H : is_kind _ = true |- _ =>
             apply is_kind_inv in H; destruct H as (? & H & ?)
         end.

(** C7, amended. For a valid conference record whose link no row has, and as
    long as ids are left, [save_conference] stores it under the next id of
    the table and [get_conference_by_id] of that id returns the record field
    for field, an absent field read back as its default, with these
    differences: [id] is the id that the table gave (an [id] in the record
    is not stored), [createdAt] is the time of the insertion, and
    [updatedAt], set to the same time in the row, is not part of what is
    returned. *)
Theorem C7_round_trip (now : string) (d : Database.db) (c : dict) :
  valid_conference c = true ->
  link_free d (default c "link" (PStr "")) = true ->
  Database.next_id d <= int64_max ->
  exists d',
    Database.save_conference now d (PDict c)
    = Ok (d', str_of_int (Database.next_id d)) /\
    Database.get_conference_by_id d' (Database.next_id d)
    = Ok (read_back c (Database.next_id d) now) /\
    exists r, In r (Database.rows d') /\
              Database.id r = Database.next_id d /\
              Database.created_at r = now /\ Database.updated_at r = now.
Proof.
  intros Hv Hfree Hmax.
  unfold valid_conference in Hv. open_valid.
  unfold Database.save_conference, read_back.
  rewrite !py_get_default.
  repeat match goal with
         | H : default c _ PNone = PStr _ |- _ =>
             rewrite (py_item_default _ _ _ H)
         end.
  repeat match goal with
         | H : default c _ _ = _ |- _ => rewrite H in *
         end.
  cbn [bind bind_param].
  unfold Database.insert_row, Database.check_constraints, Database.stored.
  cbn [Database.name Database.type Database.description Database.start_date
       Database.start_time Database.cohosts Database.create_calendar_event
       Database.invite_users Database.live_stream_title
       Database.live_stream_description Database.owner_id
       Database.owner_name Database.link Database.status
       text_affinity Database.is_null].
  simpl in Hfree. apply negb_true_iff in Hfree.
  repeat match goal with
         | H : Database.type_allowed _ = true |- _ => rewrite H
         end.
  rewrite Hfree. cbn [negb bind].
  assert (E : (int64_max <? Database.next_id d) = false)
    by (apply Z.ltb_ge; exact Hmax).
  rewrite E. cbn [fst snd].
  eexists. split; [reflexivity|]. split.
  - unfold Database.get_conference_by_id. simpl bind_param.
    pose proof (next_id_positive d) as Hpos.
    assert (E1 : (int64_min <=? Database.next_id d) = true)
      by (apply Z.leb_le; unfold int64_min; lia).
    assert (E2 : (Database.next_id d <=? int64_max) = true)
      by (apply Z.leb_le; exact Hmax).
    rewrite E1, E2. cbn [andb bind Database.rows fst].
    rewrite find_app_fresh with (r := {| Database.id := Database.next_id d;
                                         Database.data := _;
                                         Database.created_at := now;
                                         Database.updated_at := now |});
      [|apply next_id_fresh|reflexivity].
    unfold Database.conference_of_row.
    cbn [Database.id Database.data Database.created_at Database.name
         Database.type Database.description Database.start_date
         Database.start_time Database.cohosts Database.create_calendar_event
         Database.invite_users Database.live_stream_title
         Database.live_stream_description Database.owner_id
         Database.owner_name Database.link Database.status
         text_affinity py_of_sql].
    repeat match goal with
           | H : numeric_affinity _ = _ |- _ => rewrite H
           end.
    destruct x8, x7; reflexivity.
  - eexists. split; [simpl; apply in_or_app; right; left; reflexivity|].
    repeat split.
Qed.

Lemma C7_round_trip_witness :
  exists d',
    Database.save_conference "2024-02-20 12:00:00" db_synced
      (PDict record_full) = Ok (d', "2") /\
    Database.get_conference_by_id d' 2
    = Ok (read_back record_full 2 "2024-02-20 12:00:00") /\
    exists r, In r (Database.rows d') /\
              Database.id r = 2 /\
              Database.created_at r = "2024-02-20 12:00:00" /\
              Database.updated_at r = "2024-02-20 12:00:00".
Proof.
  refine (C7_round_trip "2024-02-20 12:00:00" db_synced record_full _ _ _).
  - reflexivity.
  - reflexivity.
  - vm_compute. discriminate.
Defined.

(** C7 as stated fails on two records stored in the empty table: one that
    carries [id] 77 is read back with [id] 1, and one whose [startDate] is
    the string ["2024"] is read back with the integer 2024, the DATE column
    having turned the text into a number. *)
Lemma C7_round_trip_counterexample :
  ~ round_trip_as_stated "2024-02-20 12:00:00" Database.init_db
      record_with_id /\
  ~ round_trip_as_stated "2024-02-20 12:00:00" Database.init_db
      record_with_year.
Proof.
  split; intros (d' & cid & i & back & Hs & Hi & Hg & Hall).
  - vm_compute in Hs. injection Hs as <- <-.
    vm_compute in Hi. injection Hi as <-.
    vm_compute in Hg. injection Hg as <-.
    specialize (Hall "id" (PInt 77) eq_refl).
    vm_compute in Hall.
    assert (X : Some (PInt 1) = Some (PInt 77))
      by (apply Hall; discriminate).
    discriminate X.
  - vm_compute in Hs. injection Hs as <- <-.
    vm_compute in Hi. injection Hi as <-.
    vm_compute in Hg. injection Hg as <-.
    specialize (Hall "startDate" (PStr "2024") eq_refl).
    vm_compute in Hall.
    assert (X : Some (PInt 2024) = Some (PStr "2024"))
      by (apply Hall; discriminate).
    discriminate X.
Qed.

(* ================================================================== *)
(** ** Spellings of the provider's fields                               *)
(* ================================================================== *)

(** C8, amended. The list route reads a record of the provider by the table
    [normalized]: two spellings, the first present one taken, for [id]
    ([id], [ID]), the start date and time, the two flags and the two
    live-stream texts (snake case, then camel case), [cohosts] ([cohosts],
    [participants]), [link] ([link], [LINK]) and the creation time; one
    spelling only for [name], [type], [description] and [status].  The
    records [{ID: 5, LINK: "x"}] and [{id: 5, link: "x"}] are read alike.
    The client reads the answer to a creation likewise: [id] under [id] then
    [ID], the link under [link], [JOIN_URL], [join_url], else built from
    that id. *)
Theorem C8_field_spellings (conf data : dict) (u : App.user_info)
  (now_iso : string) :
  App.conf_data (PDict conf) u = Ok (normalized conf u) /\
  App.conf_data (PDict [("ID", PInt 5); ("LINK", PStr "x")]) u
  = App.conf_data (PDict [("id", PInt 5); ("link", PStr "x")]) u /\
  exists b,
    Telemost.created_conf_data now_iso (PDict data) (PDict conf) = Ok b /\
    field b "id" = Some (first_present conf "id" "ID" PNone) /\
    field b "link" =
      Some (match dict_get conf "link" with
            | Some v => v
            | None =>
                first_present conf "JOIN_URL" "join_url"
                  (PStr ("https://telemost.yandex.ru/j/"
                           ++ py_format
                                (first_present conf "id" "ID" (PStr "new"))))
            end).
Proof.
  split; [reflexivity|]. split; [reflexivity|].
  unfold Telemost.created_conf_data, Telemost.request_or_remote.
  destruct (truthy (PDict data)); eexists; (split; [reflexivity|]);
    split; reflexivity.
Qed.

(** C8 as stated fails for [name]: the record that spells its keys in upper
    case is read with no name, the one in lower case with its name. *)
Lemma C8_field_spellings_counterexample :
  exists a b,
    App.conf_data (PDict [("ID", PInt 5); ("NAME", PStr "Planning")]) alice
    = Ok a /\
    App.conf_data (PDict [("id", PInt 5); ("name", PStr "Planning")]) alice
    = Ok b /\
    field a "id" = Some (PInt 5) /\ field b "id" = Some (PInt 5) /\
    field a "name" = Some PNone /\
    field b "name" = Some (PStr "Planning") /\
    a <> b.
Proof.
  eexists _, _. split; [reflexivity|]. split; [reflexivity|].
  repeat split; try reflexivity. discriminate.
Qed.

(* ================================================================== *)
(** ** What the client returns and what it raises                       *)
(* ================================================================== *)

(** A failure of the network becomes an error value. *)
Lemma request_failed_catches (ex : exn) :
  is_request_exception ex = true ->
  exists err,
    Telemost.request_failed (Raise ex) = Ok (PDict err) /\
    dict_get err "error" = Some (PStr ("Request failed: " ++ msg ex)).
Proof.
  intros H. unfold Telemost.request_failed. rewrite H.
  eexists. split; reflexivity.
Qed.

(** In [api_call], an answer that is neither 200 nor 201 becomes an error
    value with the status code. *)
Lemma read_response_error_status (now_iso method u : string) (data : pyval)
  (r : Telemost.response) :
  Telemost.status_code r <> 200 ->
  Telemost.status_code r <> 201 ->
  (forall ex, Telemost.json r = Raise ex -> is_json_decode_error ex = true) ->
  exists detail,
    Telemost.read_response now_iso method u data r
    = Ok (PDict [ ("error", detail);
                  ("status_code", PInt (Telemost.status_code r)) ]).
Proof.
  intros H200 H201 Hjson. unfold Telemost.read_response.
  apply Z.eqb_neq in H200, H201. rewrite H200, H201. simpl.
  destruct (Telemost.json r) as [v|ex] eqn:E.
  - eexists. reflexivity.
  - rewrite (Hjson ex eq_refl). eexists. reflexivity.
Qed.

(** In [api_call], a 200 answer to a request other than the creation whose
    body is not JSON is wrapped under [result]. *)
Lemma read_response_not_json (now_iso u : string) (data : pyval)
  (r : Telemost.response) (ex : exn) :
  Telemost.status_code r = 200 ->
  Telemost.text r <> "" ->
  Telemost.json r = Raise ex ->
  is_json_decode_error ex = true ->
  Telemost.read_response now_iso "GET" u data r
  = Ok (PDict [("result", PStr (Telemost.text r))]).
Proof.
  intros Hs Ht Hj Hex. unfold Telemost.read_response.
  rewrite Hs, Hj, Hex. apply String.eqb_neq in Ht. rewrite Ht. reflexivity.
Qed.

(** C9. The client at inputs where the code leaves the statement.
    [create_conference(token, None)], that is [api_call] with the default
    of [data], raises AttributeError before anything is sent, and a creation
    whose [cohosts] holds a number raises TypeError: only exceptions of
    [requests] are turned into error values.  And [get_conferences] does not
    wrap a 200 answer that is not JSON under [result]: it returns an error
    value when the JSON error of [requests] is a RequestException, and
    raises otherwise. *)
Theorem C9_client_raises (net : Telemost.network) (now_iso : string) :
  Telemost.create_conference net now_iso None None (Some "y0_token") PNone
  = Raise (no_attribute PNone "get") /\
  Telemost.create_conference net now_iso None None (Some "y0_token")
    (PDict [("name", PStr "Standup"); ("cohosts", PList [PInt 1])])
  = Raise (exc TypeError "argument of type 'int' is not iterable") /\
  Telemost.get_conferences
    (html_page (exc JSONDecodeError "Expecting value")) "y0_token"
  = Raise (exc JSONDecodeError "Expecting value") /\
  Telemost.get_conferences
    (html_page (exc RequestsJSONDecodeError "Expecting value")) "y0_token"
  = Ok (PDict [ ("error", PStr "Request failed: Expecting value");
                ("status_code", PNone) ]).
Proof.
  repeat split; reflexivity.
Qed.

(* ================================================================== *)
(** ** The identity of the caller                                       *)
(* ================================================================== *)

Lemma stores_trans (U : string) (d1 d2 d3 : Database.db) :
  stores U d1 d2 -> stores U d2 d3 -> stores U d1 d3.
Proof.
  induction 1 as [|now d d1 d2 cd cid Hown Hs H12 IH]; [auto|].
  intros H23. eapply stores_more; eauto.
Qed.

Lemma stores_one (now : string) (d d' : Database.db) (cd : pyval)
  (cid U : string) :
  field cd "ownerId" = Some (PStr U) ->
  Database.save_conference now d cd = Ok (d', cid) ->
  stores U d d'.
Proof.
  intros Hown Hs. eapply stores_more; eauto. apply stores_none.
Qed.

Lemma save_adds_only_for (now : string) (d d' : Database.db) (cd : pyval)
  (cid U : string) :
  field cd "ownerId" = Some (PStr U) ->
  Database.save_conference now d cd = Ok (d', cid) ->
  adds_only_for U d d'.
Proof.
  intros Hown Hs. apply save_conference_inv in Hs.
  destruct Hs as (c & i & Hins & _ & _ & Hc).
  apply insert_row_inv in Hins. destruct Hins as (_ & -> & _).
  intros r Hr. simpl in Hr. apply in_app_or in Hr.
  destruct Hr as [Hr|[<-|[]]]; [now left|right].
  unfold owned_by. simpl. rewrite (Hc U Hown). simpl. apply String.eqb_refl.
Qed.

(** What [stores] keeps: the rows of the other owners, and the keys. *)
Lemma stores_adds_only_for (U : string) (d d' : Database.db) :
  stores U d d' -> adds_only_for U d d'.
Proof.
  induction 1 as [d|now d d1 d2 cd cid Hown Hs H12 IH].
  - intros r Hr. now left.
  - intros r Hr. destruct (IH r Hr) as [H1|H1]; [|now right].
    exact (save_adds_only_for now d d1 cd cid U Hown Hs r H1).
Qed.

Lemma stores_consistent (U : string) (d d' : Database.db) :
  stores U d d' -> consistent d -> consistent d'.
Proof.
  induction 1 as [d|now d d1 d2 cd cid Hown Hs H12 IH]; [auto|].
  intros Hc. apply IH. eapply save_conference_consistent; eauto.
Qed.

Lemma conf_data_owner (conf cd : pyval) (u : App.user_info) :
  App.conf_data conf u = Ok cd ->
  field cd "ownerId" = Some (App.user_id u).
Proof.
  unfold App.conf_data. destruct conf; try discriminate.
  cbn. intros [= <-]. reflexivity.
Qed.

Lemma sync_stores (clock : nat -> string) (u : App.user_info)
  (U : string) (confs : list pyval) :
  App.user_id u = PStr U ->
  forall n d, stores U d (fst (App.sync clock n u confs d)).
Proof.
  intros HU. induction confs as [|conf confs IH]; intros n d; simpl.
  - apply stores_none.
  - destruct (App.conf_data conf u) as [cd|ex] eqn:Ecd; simpl.
    + apply conf_data_owner in Ecd. rewrite HU in Ecd.
      destruct (Database.save_conference (clock n) d cd) as [[d1 cid]|ex]
        eqn:Es.
      * eapply stores_more; eauto.
      * apply IH.
    + apply stores_none.
Qed.

Lemma get_conferences_stores (clock : nat -> string)
  (e : App.environment) (r : App.request) (d : Database.db)
  (u : App.user_info) (U : string) :
  App.get_user_from_request r = Ok u ->
  App.user_id u = PStr U ->
  stores U d (fst (App.get_conferences clock e r d)).
Proof.
  intros Hu HU. unfold App.get_conferences. rewrite Hu.
  assert (Hsync : forall confs,
    stores U d
      (fst (let attempt := App.sync_and_respond clock u confs d in
            match attempt with
            | (d1, Raise _) => App.respond_local d1 (App.user_id u)
            | done => done
            end))).
  { intros confs. unfold App.sync_and_respond.
    pose proof (sync_stores clock u U confs HU 0%nat d) as Hs.
    destruct (App.sync clock 0 u confs d) as [d1 [[]|ex]]; simpl in Hs.
    - rewrite HU. destruct (respond_local_str d1 U) as (l & -> & _).
      exact Hs.
    - cbv zeta. exact Hs. }
  assert (Hloc : forall rest : Database.db * res App.response,
            fst rest = d -> stores U d (fst rest)).
  { intros rest ->. apply stores_none. }
  destruct (App.yandex_token e) as [token|]; [|apply Hloc; reflexivity].
  destruct (token =? "")%string; [apply Hloc; reflexivity|].
  destruct (Telemost.get_conferences (App.send e) token) as [yc|ex];
    [|apply Hloc; reflexivity].
  destruct (py_contains "error" yc) as [[|]|ex];
    [apply Hloc; rewrite HU;
     destruct (respond_local_str d U) as (? & -> & _); reflexivity
    | |apply Hloc; reflexivity].
  destruct yc as [| | | | |confs|yc];
    try (apply Hloc; rewrite HU;
         destruct (respond_local_str d U) as (? & -> & _); reflexivity).
  - apply Hsync.
  - destruct (dict_get yc "result") as [[| | | | |confs|]|];
      try (apply Hloc; rewrite HU;
           destruct (respond_local_str d U) as (? & -> & _); reflexivity).
    apply Hsync.
Qed.

Lemma create_without_token_stores (now : string) (u : App.user_info)
  (U : string) (data : pyval) (d : Database.db) :
  App.user_id u = PStr U ->
  stores U d (fst (App.create_without_token now u data d)).
Proof.
  intros HU. unfold App.create_without_token.
  match goal with
  | |- context [match ?x with Ok _ => _ | Raise _ => _ end] =>
      destruct x as [cd|ex] eqn:Ecd
  end; [|apply stores_none].
  assert (Hown : field cd "ownerId" = Some (PStr U)).
  { inv_bind Ecd. injection Ecd as <-. simpl. now rewrite HU. }
  destruct (Database.save_conference now d cd) as [[d1 cid]|ex] eqn:Es;
    [|apply stores_none].
  assert (H1 : stores U d d1) by (eapply stores_one; eauto).
  match goal with
  | |- context [match ?x with Ok _ => _ | Raise _ => _ end] =>
      destruct x
  end; exact H1.
Qed.

Lemma create_with_token_stores (now : string) (e : App.environment)
  (token : string) (u : App.user_info) (U : string) (data : pyval)
  (d : Database.db) :
  App.user_id u = PStr U ->
  stores U d (fst (App.create_with_token now e token u data d)).
Proof.
  intros HU. unfold App.create_with_token.
  match goal with
  | |- context [match ?x with Ok _ => _ | Raise _ => _ end] =>
      destruct x as [[result [|]]|ex]
  end; try apply stores_none.
  match goal with
  | |- context [match ?x with Ok _ => _ | Raise _ => _ end] =>
      destruct x as [cd|ex] eqn:Ecd
  end; [|apply stores_none].
  assert (Hown : field cd "ownerId" = Some (PStr U)).
  { inv_bind Ecd. injection Ecd as <-. simpl. now rewrite HU. }
  destruct (Database.save_conference now d cd) as [[d1 cid]|ex] eqn:Es;
    [|apply stores_none].
  cbv zeta. simpl. eapply stores_one; eauto.
Qed.

Lemma create_conference_stores (now : string) (e : App.environment)
  (r : App.request) (d : Database.db) (u : App.user_info) (U : string) :
  App.get_user_from_request r = Ok u ->
  App.user_id u = PStr U ->
  stores U d (fst (App.create_conference now e r d)).
Proof.
  intros Hu HU. unfold App.create_conference.
  destruct (App.get_json r) as [data|ex]; [|apply stores_none].
  rewrite Hu.
  destruct (App.yandex_token e) as [token|];
    [destruct (token =? "")%string|].
  - now apply create_without_token_stores.
  - now apply create_with_token_stores.
  - now apply create_without_token_stores.
Qed.

Lemma get_conferences_no_token (clock : nat -> string) (e : App.environment)
  (r : App.request) (d : Database.db) (u : App.user_info) :
  no_token e ->
  App.get_user_from_request r = Ok u ->
  App.get_conferences clock e r d = App.respond_local d (App.user_id u).
Proof.
  unfold no_token, App.get_conferences. intros Hno ->.
  destruct (App.yandex_token e) as [token|]; [|reflexivity].
  simpl in Hno. apply negb_false_iff in Hno. now rewrite Hno.
Qed.

Lemma identity_without_user_id (r : App.request) (params : dict) :
  App.merge_params r = Ok params ->
  dict_get params "user_id" = None ->
  App.get_user_from_request r
  = Ok {| App.user_id := PStr "unknown";
          App.user_name := default params "user_name" (PStr "Unknown User") |}.
Proof.
  intros Hp Hid. unfold App.get_user_from_request. rewrite Hp. cbn [bind].
  now rewrite Hid.
Qed.

(** The list and the create routes keep ids and links pairwise distinct. *)
Lemma routes_keep_consistent (clock : nat -> string) (now : string)
  (e : App.environment) (r : App.request) (d : Database.db)
  (u : App.user_info) (U : string) :
  App.get_user_from_request r = Ok u ->
  App.user_id u = PStr U ->
  consistent d ->
  consistent (fst (App.get_conferences clock e r d)) /\
  consistent (fst (App.create_conference now e r d)).
Proof.
  intros Hu HU Hc. split.
  - eapply stores_consistent; [|exact Hc].
    eapply get_conferences_stores; eauto.
  - eapply stores_consistent; [|exact Hc].
    eapply create_conference_stores; eauto.
Qed.

(** C10, amended. A request whose merged parameters have no [user_id] is
    served as caller ["unknown"]; the name is ["Unknown User"] only when
    [user_name] is absent too, a given [user_name] is kept.  The list route
    then answers with the conferences of owner ["unknown"], the list and the
    create routes add rows of owner ["unknown"] only, a creation without a
    token answers with [ownerId] ["unknown"], and without a token any two
    such requests are given the same list. *)
Theorem C10_default_identity (r : App.request) (params : dict) :
  App.merge_params r = Ok params ->
  dict_get params "user_id" = None ->
  App.get_user_from_request r
  = Ok {| App.user_id := PStr "unknown";
          App.user_name := default params "user_name" (PStr "Unknown User") |}
  /\
  (forall clock e d,
     exists d' l,
       App.get_conferences clock e r d = (d', Ok (App.jsonify (PList l))) /\
       Database.get_user_conferences d' (PStr "unknown") = Ok (PList l) /\
       adds_only_for "unknown" d d') /\
  (forall now e d,
     adds_only_for "unknown" d (fst (App.create_conference now e r d))) /\
  (forall now e d d' b,
     no_token e ->
     App.create_conference now e r d = (d', Ok (App.jsonify b)) ->
     field b "ownerId" = Some (PStr "unknown")) /\
  (forall r2 params2 clock e d,
     App.merge_params r2 = Ok params2 ->
     dict_get params2 "user_id" = None ->
     no_token e ->
     App.get_conferences clock e r d = App.get_conferences clock e r2 d).
Proof.
  intros Hp Hid.
  pose proof (identity_without_user_id r params Hp Hid) as Hu.
  split; [exact Hu|]. split; [|split; [|split]].
  - intros clock e d.
    pose proof (stores_adds_only_for _ _ _
                  (get_conferences_stores clock e r d _ "unknown"
                     Hu eq_refl)) as Hadd.
    destruct (get_conferences_answers_local clock e r d _ "unknown"
                Hu eq_refl) as (d' & Hg).
    rewrite Hg in *.
    destruct (respond_local_str d' "unknown") as (l & Hl & Hget).
    rewrite Hl in *. exists d', l. auto.
  - intros now e d.
    apply stores_adds_only_for.
    now apply (create_conference_stores now e r d _ "unknown" Hu).
  - intros now e d d' b Hno Hc.
    destruct (App.get_json r) as [data|ex] eqn:Ej.
    2:{ unfold App.create_conference in Hc. rewrite Ej in Hc.
        discriminate Hc. }
    rewrite (create_conference_no_token now e r d data _ Hno Ej Hu) in Hc.
    apply create_without_token_response in Hc.
    destruct Hc as (n & c & _ & _ & _ & _ & _ & _ & _ & Hown).
    exact Hown.
  - intros r2 params2 clock e d Hp2 Hid2 Hno.
    pose proof (identity_without_user_id r2 params2 Hp2 Hid2) as Hu2.
    rewrite (get_conferences_no_token clock e r d _ Hno Hu).
    rewrite (get_conferences_no_token clock e r2 d _ Hno Hu2).
    reflexivity.
Qed.

Lemma C10_default_identity_witness :
  App.get_user_from_request (query_only [("user_name", "Bob")])
  = Ok {| App.user_id := PStr "unknown"; App.user_name := PStr "Bob" |}.
Proof.
  exact (proj1 (C10_default_identity (query_only [("user_name", "Bob")])
                  [("user_name", PStr "Bob")] eq_refl eq_refl)).
Defined.

(** C10 as stated fails on a request that gives [user_name] and no
    [user_id]: the caller is ["unknown"] by id, and keeps the given name. *)
Lemma C10_default_identity_counterexample :
  ~ default_identity_as_stated (query_only [("user_name", "Bob")]).
Proof.
  intros H. specialize (H [("user_name", PStr "Bob")] eq_refl eq_refl).
  discriminate H.
Qed.

(* ================================================================== *)
(** ** More of database.py: listing                                     *)
(* ================================================================== *)

Lemma insert_desc_perm (r : Database.row) (l : list Database.row) :
  Permutation (Database.insert_desc r l) (r :: l).
Proof.
  induction l as [|x l IH]; simpl; [reflexivity|].
  destruct (String.leb _ _); [reflexivity|].
  rewrite IH. apply perm_swap.
Qed.

Lemma order_by_perm (l : list Database.row) :
  Permutation (Database.order_by_created_at_desc l) l.
Proof.
  unfold Database.order_by_created_at_desc.
  induction l as [|x l IH]; simpl; [reflexivity|].
  rewrite insert_desc_perm. now constructor.
Qed.

Lemma insert_desc_sorted (r : Database.row) (l : list Database.row) :
  Sorted newest_first l -> Sorted newest_first (Database.insert_desc r l).
Proof.
  induction l as [|x l IH]; intros Hs; simpl.
  - repeat constructor.
  - destruct (String.leb (Database.created_at x) (Database.created_at r))
      eqn:E.
    + constructor; [exact Hs|]. constructor. exact E.
    + apply Sorted_inv in Hs. destruct Hs as [Hl Hx].
      constructor; [now apply IH|].
      assert (Hrx : newest_first x r).
      { unfold newest_first.
        destruct (String.leb_total (Database.created_at x)
                    (Database.created_at r)) as [H|H]; congruence. }
      destruct l as [|y l]; simpl.
      * constructor. exact Hrx.
      * destruct (String.leb (Database.created_at y)
                    (Database.created_at r)).
        -- constructor. exact Hrx.
        -- constructor. now apply HdRel_inv in Hx.
Qed.

Lemma order_by_sorted (l : list Database.row) :
  Sorted newest_first (Database.order_by_created_at_desc l).
Proof.
  unfold Database.order_by_created_at_desc.
  induction l as [|x l IH]; simpl; [constructor|].
  now apply insert_desc_sorted.
Qed.

(** X1. [get_user_conferences(U)] returns the conferences of the rows owned
    by [U], each row once, the newest first. *)
Theorem X1_get_user_conferences_newest_first (d : Database.db) (U : string) :
  exists rs,
    Database.get_user_conferences d (PStr U)
    = Ok (PList (map Database.conference_of_row rs)) /\
    Permutation rs (filter (owned_by U) (Database.rows d)) /\
    Sorted newest_first rs.
Proof.
  eexists. split; [apply get_user_conferences_str|].
  split; [apply order_by_perm|apply order_by_sorted].
Qed.







(* ================================================================== *)
(** ** More of database.py: what every statement keeps                  *)
(* ================================================================== *)

Lemma text_affinity_shape (v : sqlval) :
  text_affinity v = SNull \/ exists s, text_affinity v = SText s.
Proof. destruct v; simpl; eauto. Qed.

Lemma checked_columns (rs : list Database.row) (c : Database.columns)
  (i : Z) (t1 t2 : string) :
  Database.check_constraints rs (Database.stored c) = Ok tt ->
  row_checked {| Database.id := i; Database.data := Database.stored c;
                 Database.created_at := t1; Database.updated_at := t2 |}
  = true.
Proof.
  unfold Database.check_constraints, row_checked, of_kind. simpl.
  destruct (text_affinity_shape (Database.name c)) as [->|(s1 & ->)];
    [discriminate|].
  destruct (text_affinity_shape (Database.type c)) as [->|(s2 & ->)];
    [discriminate|].
  destruct (text_affinity_shape (Database.owner_id c)) as [->|(s3 & ->)];
    [discriminate|].
  destruct (text_affinity_shape (Database.owner_name c)) as [->|(s4 & ->)];
    [discriminate|].
  simpl.
  destruct ((s2 =? "conference") || (s2 =? "broadcast"))%string;
    [reflexivity|discriminate].
Qed.

Lemma save_conference_stored (now : string) (d d' : Database.db)
  (cd : pyval) (cid : string) :
  Database.save_conference now d cd = Ok (d', cid) ->
  exists c i,
    Database.insert_row now d (Database.stored c) = Ok (d', i) /\
    cid = str_of_int i.
Proof.
  unfold Database.save_conference. intros H. inv_bind H.
  match goal with
  | X : Database.insert_row _ _ _ = Ok ?p |- _ => destruct p as [d1 i]
  end.
  simpl in H. injection H as <- <-.
  eexists _, i. split; [eassumption|reflexivity].
Qed.

Lemma insert_row_sound (now : string) (d d' : Database.db)
  (c : Database.columns) (i : Z) :
  sound d ->
  Database.insert_row now d (Database.stored c) = Ok (d', i) ->
  sound d'.
Proof.
  intros (Hk & Hc & Hb) Hins.
  split; [eapply insert_row_consistent; eauto|].
  pose proof Hins as Hins'. unfold Database.insert_row in Hins'.
  destruct (Database.check_constraints (Database.rows d) (Database.stored c))
    as [[]|] eqn:Ec; [|discriminate].
  apply insert_row_inv in Hins. destruct Hins as (-> & -> & _).
  split.
  - intros r Hr. simpl in Hr. apply in_app_or in Hr.
    destruct Hr as [Hr|[<-|[]]]; [now apply Hc|].
    eapply checked_columns; eauto.
  - intros r Hr. simpl in Hr. apply in_app_or in Hr. simpl.
    destruct Hr as [Hr|[<-|[]]]; [|simpl; lia].
    apply next_id_fresh in Hr. lia.
Qed.

Lemma update_row_sound (now : string) (d d' : Database.db) (i : Z)
  (c : Database.row -> Database.columns) (found : bool) :
  sound d ->
  Database.update_row now d i (fun old => Database.stored (c old))
  = Ok (d', found) ->
  sound d'.
Proof.
  intros (Hk & Hc & Hb) Hupd.
  split; [eapply update_row_consistent; eauto|].
  unfold Database.update_row in Hupd.
  destruct (find (fun r => Database.id r =? i) (Database.rows d))
    as [old|]; [|injection Hupd as <- _; split; assumption].
  destruct (Database.check_constraints _ (Database.stored (c old)))
    as [[]|] eqn:Ec; [|discriminate].
  cbn [bind] in Hupd. injection Hupd as <- _.
  split.
  - intros r Hr. simpl in Hr. apply in_map_iff in Hr.
    destruct Hr as (a & <- & Ha).
    destruct (Database.id a =? i); [|now apply Hc].
    eapply checked_columns; eauto.
  - intros r Hr. simpl in Hr. apply in_map_iff in Hr.
    destruct Hr as (a & <- & Ha). simpl.
    destruct (Database.id a =? i); simpl; now apply Hb.
Qed.

Lemma init_db_sound : sound Database.init_db.
Proof.
  split; [apply init_db_consistent|]. split; intros r [].
Qed.

(** X3. The statements of [database.py] keep the invariant of the table:
    after a successful [save_conference], [update_conference] or
    [delete_conference] on a table where ids and non-NULL links are
    pairwise distinct, every row has a name, an owner and one of the two
    types, and no id exceeds the AUTOINCREMENT counter, the same holds
    again. *)
Theorem X3_statements_keep_the_table_sound (d : Database.db) :
  sound d ->
  (forall now cd d' cid,
     Database.save_conference now d cd = Ok (d', cid) -> sound d') /\
  (forall now i P d' found,
     Database.update_conference now d i P = Ok (d', found) -> sound d') /\
  (forall i d' found,
     Database.delete_conference d i = Ok (d', found) -> sound d').
Proof.
  intros Hs. split; [|split].
  - intros now cd d' cid H. apply save_conference_stored in H.
    destruct H as (c & i & Hins & _). eapply insert_row_sound; eauto.
  - intros now i P d' found H.
    unfold Database.update_conference in H. inv_bind H.
    eapply update_row_sound; [exact Hs|exact H].
  - intros i d' found H. destruct Hs as (Hk & Hc & Hb).
    split; [eapply delete_conference_consistent; eauto|].
    unfold Database.delete_conference in H.
    destruct (bind_param (PInt i)); [|discriminate].
    cbn [bind] in H. injection H as <- _.
    split; intros r Hr; simpl in Hr; apply filter_In in Hr.
    + apply Hc; tauto.
    + simpl. apply Hb; tauto.
Qed.

Lemma X3_statements_keep_the_table_sound_witness :
  sound Database.init_db /\ sound db_review.
Proof.
  split; [exact init_db_sound|].
  apply (proj1 (X3_statements_keep_the_table_sound Database.init_db
                  init_db_sound)
           "2024-03-01 10:00:00" (PDict record_full) db_review "1").
  vm_compute. reflexivity.
Defined.

(* ================================================================== *)
(** ** More of database.py: selection by type, ids, links               *)
(* ================================================================== *)

Lemma get_conferences_by_type_str (d : Database.db) (k : string) :
  Database.get_conferences_by_type d (PStr k)
  = Ok (PList (map Database.conference_of_row
                 (Database.order_by_created_at_desc
                    (filter (of_kind k) (Database.rows d))))).
Proof. reflexivity. Qed.

Lemma checked_kind (r : Database.row) :
  row_checked r = true ->
  Database.type (Database.data r) = SText "conference" \/
  Database.type (Database.data r) = SText "broadcast".
Proof.
  unfold row_checked, of_kind. intros H.
  apply andb_prop in H. destruct H as [H _].
  apply andb_prop in H. destruct H as [H _].
  apply andb_prop in H. destruct H as [_ H].
  destruct (Database.type (Database.data r)) as [| |?|s]; try discriminate.
  simpl in H. apply orb_prop in H.
  destruct H as [H|H]; apply String.eqb_eq in H; subst; auto.
Qed.

Lemma kinds_split (rs : list Database.row) :
  (forall r, In r rs -> row_checked r = true) ->
  Permutation (filter (of_kind "conference") rs ++
               filter (of_kind "broadcast") rs) rs.
Proof.
  induction rs as [|x rs IH]; intros H; [reflexivity|].
  pose proof (checked_kind x (H x (or_introl eq_refl))) as Hx.
  specialize (IH (fun r Hr => H r (or_intror Hr))).
  assert (Ek : forall k,
            of_kind k x
            = Database.same_text (Database.type (Database.data x)) (SText k))
    by reflexivity.
  simpl. rewrite !Ek.
  destruct Hx as [-> | ->]; simpl.
  - now apply perm_skip.
  - symmetry. apply Permutation_cons_app. now symmetry.
Qed.

Lemma other_kind_selects_nothing (t : string) (rs : list Database.row) :
  (forall r, In r rs -> row_checked r = true) ->
  t <> "conference" -> t <> "broadcast" ->
  filter (of_kind t) rs = [].
Proof.
  intros H Hc Hb. induction rs as [|x rs IH]; [reflexivity|].
  pose proof (checked_kind x (H x (or_introl eq_refl))) as Hx.
  assert (Ek : of_kind t x
               = Database.same_text (Database.type (Database.data x))
                   (SText t)) by reflexivity.
  assert (E : forall k,
            k <> t -> Database.same_text (SText k) (SText t) = false).
  { intros k Hk. simpl. now apply String.eqb_neq. }
  simpl. rewrite Ek.
  destruct Hx as [-> | ->]; rewrite E by congruence;
    apply IH; intros r Hr; apply H; now right.
Qed.

(** X4. On a table whose rows respect the CHECK on [type],
    [get_conferences_by_type('conference')] and
    [get_conferences_by_type('broadcast')] split the table: every row is in
    exactly one of the two lists; any other type selects nothing. *)
Theorem X4_get_conferences_by_type_splits_the_table (d : Database.db) :
  constraints_hold d ->
  exists cs bs,
    Database.get_conferences_by_type d (PStr "conference")
    = Ok (PList (map Database.conference_of_row cs)) /\
    Database.get_conferences_by_type d (PStr "broadcast")
    = Ok (PList (map Database.conference_of_row bs)) /\
    Permutation (cs ++ bs) (Database.rows d) /\
    Sorted newest_first cs /\ Sorted newest_first bs /\
    forall t, t <> "conference" -> t <> "broadcast" ->
              Database.get_conferences_by_type d (PStr t) = Ok (PList []).
Proof.
  intros Hc.
  exists (Database.order_by_created_at_desc
            (filter (of_kind "conference") (Database.rows d))),
         (Database.order_by_created_at_desc
            (filter (of_kind "broadcast") (Database.rows d))).
  split; [reflexivity|]. split; [reflexivity|].
  split; [|split; [apply order_by_sorted|split; [apply order_by_sorted|]]].
  - rewrite !order_by_perm. now apply kinds_split.
  - intros t H1 H2. rewrite get_conferences_by_type_str.
    now rewrite other_kind_selects_nothing.
Qed.

Lemma X4_get_conferences_by_type_splits_the_table_witness :
  exists cs bs,
    Database.get_conferences_by_type db_review (PStr "conference")
    = Ok (PList (map Database.conference_of_row cs)) /\
    Database.get_conferences_by_type db_review (PStr "broadcast")
    = Ok (PList (map Database.conference_of_row bs)) /\
    Permutation (cs ++ bs) (Database.rows db_review) /\
    Sorted newest_first cs /\ Sorted newest_first bs /\
    forall t, t <> "conference" -> t <> "broadcast" ->
              Database.get_conferences_by_type db_review (PStr t)
              = Ok (PList []).
Proof.
  apply (X4_get_conferences_by_type_splits_the_table db_review).
  intros r Hr. vm_compute in Hr. destruct Hr as [<-|[]]. reflexivity.
Defined.

Lemma find_not_stored (i j : Z) (rs : list Database.row) (r : Database.row) :
  Database.id r <> j ->
  find (fun x => Database.id x =? j)
       (filter (fun x => negb (Database.id x =? i)) rs ++ [r])
  = if i =? j then None
    else find (fun x => Database.id x =? j) rs.
Proof.
  intros Hr. induction rs as [|x rs IH]; simpl.
  - apply Z.eqb_neq in Hr. rewrite Hr. now destruct (i =? j).
  - destruct (Database.id x =? i) eqn:Ei; simpl.
    + rewrite IH. apply Z.eqb_eq in Ei. rewrite Ei.
      now destruct (i =? j).
    + destruct (Database.id x =? j) eqn:Ej; [|exact IH].
      apply Z.eqb_eq in Ej. rewrite <- Ej.
      rewrite Z.eqb_sym. now rewrite Ei.
Qed.

(** X5. An id is not given twice: after a row was deleted, the next
    [save_conference] returns an id above the deleted one and above every
    id the table held, and [get_conference_by_id] of the deleted id still
    returns [None]. *)
Theorem X5_deleted_id_is_not_given_again (now : string)
  (d d1 d2 : Database.db) (r : Database.row) (found : bool) (cd : pyval)
  (cid : string) :
  ids_bounded d ->
  In r (Database.rows d) ->
  Database.delete_conference d (Database.id r) = Ok (d1, found) ->
  Database.save_conference now d1 cd = Ok (d2, cid) ->
  exists j,
    cid = str_of_int j /\
    (forall x, In x (Database.rows d) -> Database.id x < j) /\
    Database.get_conference_by_id d2 (Database.id r) = Ok PNone.
Proof.
  intros Hb Hr Hdel Hsave.
  apply save_conference_stored in Hsave.
  destruct Hsave as (c & j & Hins & ->).
  apply insert_row_inv in Hins. destruct Hins as (Hj & -> & _).
  unfold Database.delete_conference in Hdel.
  unfold Database.get_conference_by_id.
  destruct (bind_param (PInt (Database.id r))); [|discriminate].
  cbn [bind] in *. injection Hdel as <- _.
  assert (Hlt : forall x, In x (Database.rows d) -> Database.id x < j).
  { intros x Hx. apply Hb in Hx. subst j. unfold Database.next_id. simpl.
    lia. }
  exists j. split; [reflexivity|]. split; [exact Hlt|].
  cbn [Database.rows]. rewrite find_not_stored.
  - now rewrite Z.eqb_refl.
  - simpl. apply Hlt in Hr. lia.
Qed.

Lemma X5_deleted_id_is_not_given_again_witness :
  exists j,
    "2" = str_of_int j /\
    (forall x, In x (Database.rows db_alice) -> Database.id x < j) /\
    Database.get_conference_by_id db_after_reuse 1 = Ok PNone.
Proof.
  refine (X5_deleted_id_is_not_given_again "2024-01-02 09:00:00"
            db_alice _ db_after_reuse
            {| Database.id := 1;
               Database.data := _;
               Database.created_at := "2024-01-01 09:00:00";
               Database.updated_at := "2024-01-01 09:00:00" |}
            true (PDict linkless_bob) "2" _ _ _ _).
  - intros x Hx. vm_compute in Hx. destruct Hx as [<-|[]]. vm_compute.
    discriminate.
  - vm_compute. left. reflexivity.
  - vm_compute. reflexivity.
  - vm_compute. reflexivity.
Defined.

Lemma save_conference_link (now : string) (d d' : Database.db) (c : dict)
  (cid s : string) :
  default c "link" (PStr "") = PStr s ->
  Database.save_conference now d (PDict c) = Ok (d', cid) ->
  exists r, In r (Database.rows d') /\
            Database.link (Database.data r) = SText s.
Proof.
  intros Hl H. unfold Database.save_conference in H.
  rewrite !py_get_default in H. rewrite Hl in H.
  inv_bind H.
  match goal with
  | X : Database.insert_row _ _ _ = Ok ?p |- _ =>
      destruct p as [d1 i]; apply insert_row_inv in X;
      destruct X as (_ & X & _)
  end.
  simpl in H. injection H as <- _. subst d1.
  eexists. split; [simpl; apply in_or_app; right; left; reflexivity|].
  simpl.
  match goal with
  | Y : bind_param (PStr s) = Ok ?w |- _ => simpl in Y; injection Y as <-
  end.
  reflexivity.
Qed.

Lemma link_taken_by (rs : list Database.row) (r : Database.row) (s : string) :
  In r rs -> Database.link (Database.data r) = SText s ->
  Database.link_taken rs (SText s) = true.
Proof.
  intros Hr Hl. unfold Database.link_taken. apply existsb_exists.
  exists r. split; [exact Hr|]. rewrite Hl. simpl. apply String.eqb_refl.
Qed.

(** X6. The link is a key of the table, the default link too: after a
    record was saved, [save_conference] of a valid record with the same
    link, or of a second record that has no [link] when the first had none
    (both get the default [''], which is not NULL), raises IntegrityError
    on UNIQUE(link). *)
Theorem X6_second_record_with_the_same_link_is_refused (now1 now2 : string)
  (d d1 : Database.db) (c1 c2 : dict) (cid s : string) :
  valid_conference c2 = true ->
  default c1 "link" (PStr "") = PStr s ->
  default c2 "link" (PStr "") = PStr s ->
  Database.save_conference now1 d (PDict c1) = Ok (d1, cid) ->
  Database.save_conference now2 d1 (PDict c2)
  = Raise (Database.integrity "UNIQUE constraint failed: conferences.link").
Proof.
  intros Hv Hl1 Hl2 Hsave.
  destruct (save_conference_link _ _ _ _ _ _ Hl1 Hsave) as (r & Hr & Hrl).
  pose proof (link_taken_by _ _ _ Hr Hrl) as Htaken.
  unfold valid_conference in Hv. open_valid.
  unfold Database.save_conference.
  rewrite !py_get_default.
  repeat match goal with
         | H : default c2 _ PNone = PStr _ |- _ =>
             rewrite (py_item_default _ _ _ H)
         end.
  rewrite Hl2 in *. clear Hl2.
  repeat match goal with
         | H : default c2 _ _ = _ |- _ => rewrite H in *
         end.
  cbn [bind bind_param].
  unfold Database.insert_row, Database.check_constraints, Database.stored.
  cbn [Database.name Database.type Database.description Database.start_date
       Database.start_time Database.cohosts Database.create_calendar_event
       Database.invite_users Database.live_stream_title
       Database.live_stream_description Database.owner_id
       Database.owner_name Database.link Database.status
       text_affinity Database.is_null].
  repeat match goal with
         | H : Database.type_allowed _ = true |- _ => rewrite H
         end.
  rewrite Htaken. reflexivity.
Qed.

Lemma X6_second_record_with_the_same_link_is_refused_witness :
  Database.save_conference "2024-03-02 11:00:00" db_linkless
    (PDict linkless_bob)
  = Raise (Database.integrity "UNIQUE constraint failed: conferences.link").
Proof.
  apply (X6_second_record_with_the_same_link_is_refused
           "2024-03-02 10:00:00" "2024-03-02 11:00:00"
           Database.init_db db_linkless linkless_alice linkless_bob "1" "").
  - reflexivity.
  - reflexivity.
  - reflexivity.
  - vm_compute. reflexivity.
Defined.

Lemma same_id_same_row (d : Database.db) (i : Z) (old a : Database.row) :
  consistent d ->
  find (fun r => Database.id r =? i) (Database.rows d) = Some old ->
  In a (Database.rows d) -> (Database.id a =? i) = true ->
  a = old.
Proof.
  intros [Hnd _] Hf Ha Ei. apply find_some in Hf. destruct Hf as [Ho Eo].
  apply Z.eqb_eq in Ei. apply Z.eqb_eq in Eo.
  eapply NoDup_map_In_inj; eauto. congruence.
Qed.

Lemma checked_owner (r : Database.row) :
  row_checked r = true ->
  text_affinity (Database.owner_id (Database.data r))
  = Database.owner_id (Database.data r).
Proof.
  unfold row_checked. intros H.
  apply andb_prop in H. destruct H as [H _].
  apply andb_prop in H. destruct H as [_ H].
  destruct (Database.owner_id (Database.data r)); try discriminate.
  reflexivity.
Qed.

(** X7. [update_conference(conf_id, P)] never moves a row to another owner:
    whatever [P] holds ([ownerId] included), the ids, owners and creation
    times of the table are the same afterwards, row by row, rows with
    another id are as they were, the id counter is unchanged, and when no
    row has the id the table is unchanged and the result is [False]. *)
Theorem X7_update_keeps_id_owner_and_creation_time (now : string)
  (d d' : Database.db) (i : Z) (P : pyval) (found : bool) :
  sound d ->
  Database.update_conference now d i P = Ok (d', found) ->
  map Database.id (Database.rows d') = map Database.id (Database.rows d) /\
  map (fun r => Database.owner_id (Database.data r)) (Database.rows d')
  = map (fun r => Database.owner_id (Database.data r)) (Database.rows d) /\
  map Database.created_at (Database.rows d')
  = map Database.created_at (Database.rows d) /\
  (forall r, In r (Database.rows d) -> Database.id r <> i ->
             In r (Database.rows d')) /\
  Database.seq d' = Database.seq d /\
  (found = false -> d' = d) /\
  (found = true <-> exists r, In r (Database.rows d) /\ Database.id r = i).
Proof.
  intros (Hk & Hc & _) H.
  unfold Database.update_conference in H. inv_bind H.
  unfold Database.update_row in H.
  destruct (find (fun r => Database.id r =? i) (Database.rows d))
    as [old|] eqn:Ef.
  - match type of H with
    | bind ?c _ = _ => destruct c as [[]|]; [|discriminate]
    end.
    cbn [bind] in H. injection H as <- <-. cbn [Database.rows Database.seq].
    rewrite !map_map.
    split; [|split; [|split; [|split; [|split; [|split]]]]].
    + apply map_ext. intros a. now destruct (Database.id a =? i).
    + apply map_ext_in. intros a Ha.
      destruct (Database.id a =? i) eqn:Ei; [|reflexivity].
      rewrite (same_id_same_row d i old a Hk Ef Ha Ei). simpl.
      apply checked_owner. apply Hc.
      apply find_some in Ef. tauto.
    + apply map_ext. intros a. now destruct (Database.id a =? i).
    + intros r Hr Hi. apply in_map_iff. exists r. split; [|exact Hr].
      apply Z.eqb_neq in Hi. now rewrite Hi.
    + reflexivity.
    + discriminate.
    + split; [|reflexivity].
      intros _. apply find_some in Ef. destruct Ef as [Ho Eo].
      exists old. split; [exact Ho|]. now apply Z.eqb_eq.
  - injection H as <- <-.
    split; [|split; [|split; [|split; [|split; [|split]]]]];
      try reflexivity; try tauto.
    split; [discriminate|].
    intros (r & Hr & Hi).
    eapply find_none in Ef; [|exact Hr]. simpl in Ef.
    apply Z.eqb_neq in Ef. contradiction.
Qed.

Lemma db_review_sound : sound db_review.
Proof.
  assert (H : Database.save_conference "2024-03-01 10:00:00"
                Database.init_db (PDict record_full) = Ok (db_review, "1"))
    by (vm_compute; reflexivity).
  apply save_conference_stored in H. destruct H as (c & i & Hins & _).
  eapply insert_row_sound; [apply init_db_sound|exact Hins].
Qed.

Lemma X7_update_keeps_id_owner_and_creation_time_witness :
  map (fun r => Database.owner_id (Database.data r))
      (Database.rows
         (match Database.update_conference "2024-03-05 08:00:00" db_review 1
                  (PDict linkless_alice) with
          | Ok (d, _) => d
          | Raise _ => db_review
          end))
  = [SText "bob"].
Proof.
  refine (proj1 (proj2
            (X7_update_keeps_id_owner_and_creation_time
               "2024-03-05 08:00:00" db_review _ 1 (PDict linkless_alice)
               true _ _))).
  - exact db_review_sound.
  - vm_compute. reflexivity.
Defined.

Lemma find_other_id (i j : Z) (rs : list Database.row) :
  j <> i ->
  find (fun r => Database.id r =? j)
       (filter (fun r => negb (Database.id r =? i)) rs)
  = find (fun r => Database.id r =? j) rs.
Proof.
  intros Hji. induction rs as [|x rs IH]; [reflexivity|]. simpl.
  destruct (Database.id x =? i) eqn:Ei; simpl.
  - apply Z.eqb_eq in Ei.
    assert (Ej : (Database.id x =? j) = false) by (apply Z.eqb_neq; lia).
    now rewrite Ej.
  - now rewrite IH.
Qed.

Lemma nothing_to_delete (i : Z) (rs : list Database.row) :
  existsb (fun r => Database.id r =? i) rs = false ->
  filter (fun r => negb (Database.id r =? i)) rs = rs.
Proof.
  induction rs as [|x rs IH]; [reflexivity|]. simpl.
  destruct (Database.id x =? i); simpl; [discriminate|].
  intros H. now rewrite IH.
Qed.

(** X8. [delete_conference(conf_id)] removes the row of that id and nothing
    else: afterwards [get_conference_by_id(conf_id)] is [None], every other
    id reads as before, a second delete returns [False] and changes
    nothing; the result is [True] exactly when a row had the id, and with
    [False] the table is as it was. *)
Theorem X8_delete_removes_that_row_only (d d' : Database.db) (i : Z)
  (found : bool) :
  Database.delete_conference d i = Ok (d', found) ->
  Database.get_conference_by_id d' i = Ok PNone /\
  (forall j, j <> i ->
     Database.get_conference_by_id d' j = Database.get_conference_by_id d j) /\
  Database.delete_conference d' i = Ok (d', false) /\
  (found = true <-> exists r, In r (Database.rows d) /\ Database.id r = i) /\
  (found = false -> d' = d).
Proof.
  intros H.
  split; [eapply delete_then_get; eauto|].
  split; [|split; [eapply delete_twice; eauto|
                   split; [eapply delete_found; eauto|]]].
  - intros j Hj. unfold Database.delete_conference in H.
    destruct (bind_param (PInt i)); [|discriminate].
    cbn [bind] in H. injection H as <- _.
    unfold Database.get_conference_by_id. cbn [Database.rows].
    now rewrite find_other_id.
  - unfold Database.delete_conference in H.
    destruct (bind_param (PInt i)); [|discriminate].
    cbn [bind] in H. injection H as <- <-. intros E.
    rewrite (nothing_to_delete _ _ E). now destruct d.
Qed.

Lemma X8_delete_removes_that_row_only_witness :
  Database.get_conference_by_id db_emptied 1 = Ok PNone /\
  (forall j, j <> 1 ->
     Database.get_conference_by_id db_emptied j
     = Database.get_conference_by_id db_review j) /\
  Database.delete_conference db_emptied 1 = Ok (db_emptied, false) /\
  (true = true <->
   exists r, In r (Database.rows db_review) /\ Database.id r = 1) /\
  (true = false -> db_emptied = db_review).
Proof.
  apply (X8_delete_removes_that_row_only db_review db_emptied 1 true).
  vm_compute. reflexivity.
Defined.

(** X9. [name] and [type] are required of every record: when one of them is
    missing, [save_conference] and [update_conference] both raise KeyError
    for the first missing key before any statement is executed, whatever
    else the record holds. *)
Theorem X9_name_and_type_are_required (now : string) (d : Database.db)
  (i : Z) (c : dict) :
  dict_get c "name" = None \/ dict_get c "type" = None ->
  exists k,
    (k = "name" \/ k = "type") /\
    dict_get c k = None /\
    Database.save_conference now d (PDict c)
    = Raise (exc KeyError ("'" ++ k ++ "'")) /\
    Database.update_conference now d i (PDict c)
    = Raise (exc KeyError ("'" ++ k ++ "'")).
Proof.
  intros H.
  destruct (dict_get c "name") as [v|] eqn:En.
  - destruct H as [H|H]; [discriminate|].
    exists "type". split; [now right|]. split; [exact H|].
    unfold Database.save_conference, Database.update_conference.
    cbn [py_get py_item bind]. rewrite En, H. split; reflexivity.
  - exists "name". split; [now left|]. split; [exact En|].
    unfold Database.save_conference, Database.update_conference.
    cbn [py_get py_item bind]. rewrite En. split; reflexivity.
Qed.

Lemma X9_name_and_type_are_required_witness :
  exists k,
    (k = "name" \/ k = "type") /\
    dict_get [("name", PStr "Renamed")] k = None /\
    Database.save_conference "2024-03-05 08:00:00" db_review
      (PDict [("name", PStr "Renamed")])
    = Raise (exc KeyError ("'" ++ k ++ "'")) /\
    Database.update_conference "2024-03-05 08:00:00" db_review 1
      (PDict [("name", PStr "Renamed")])
    = Raise (exc KeyError ("'" ++ k ++ "'")).
Proof.
  apply (X9_name_and_type_are_required "2024-03-05 08:00:00" db_review 1
           [("name", PStr "Renamed")]).
  right. reflexivity.
Defined.

Lemma owner_list_after_save (now : string) (d d' : Database.db) (cd : pyval)
  (cid U : string) :
  field cd "ownerId" = Some (PStr U) ->
  Database.save_conference now d cd = Ok (d', cid) ->
  exists r : Database.row,
    Database.rows d' = (Database.rows d ++ [r])%list /\
    cid = str_of_int (Database.id r) /\
    Database.id r = Database.next_id d /\
    Database.owner_id (Database.data r) = SText U.
Proof.
  intros HU H. apply save_conference_inv in H.
  destruct H as (c & i & Hins & -> & _ & Ho).
  apply insert_row_inv in Hins. destruct Hins as (-> & -> & _).
  eexists. split; [reflexivity|]. split; [reflexivity|].
  split; [reflexivity|]. simpl. now apply Ho.
Qed.

(** X10. A saved conference shows in the list of its owner and in no other:
    after [save_conference] of a record with [ownerId] U,
    [get_user_conferences(V)] is unchanged for every other V, and
    [get_user_conferences(U)] has one entry more, among them the row of the
    returned id. *)
Theorem X10_saved_conference_shows_for_its_owner_only (now : string)
  (d d' : Database.db) (cd : pyval) (cid U : string) :
  field cd "ownerId" = Some (PStr U) ->
  Database.save_conference now d cd = Ok (d', cid) ->
  (forall V, V <> U ->
     Database.get_user_conferences d' (PStr V)
     = Database.get_user_conferences d (PStr V)) /\
  exists rs rs' r,
    Database.get_user_conferences d (PStr U)
    = Ok (PList (map Database.conference_of_row rs)) /\
    Database.get_user_conferences d' (PStr U)
    = Ok (PList (map Database.conference_of_row rs')) /\
    Permutation rs' (r :: rs) /\
    cid = str_of_int (Database.id r) /\
    owned_by U r = true /\
    forall x, In x rs -> Database.id x <> Database.id r.
Proof.
  intros HU H.
  destruct (owner_list_after_save _ _ _ _ _ _ HU H)
    as (r & Hrows & Hcid & Hid & Ho).
  split.
  - intros V HV. rewrite !get_user_conferences_str. rewrite Hrows.
    rewrite filter_app. simpl. unfold owned_by at 2. rewrite Ho. simpl.
    apply String.eqb_neq in HV. rewrite String.eqb_sym in HV. rewrite HV.
    now rewrite app_nil_r.
  - exists (Database.order_by_created_at_desc
              (filter (owned_by U) (Database.rows d))),
           (Database.order_by_created_at_desc
              (filter (owned_by U) (Database.rows d'))), r.
    split; [apply get_user_conferences_str|].
    split; [apply get_user_conferences_str|].
    assert (Hr : owned_by U r = true).
    { unfold owned_by. rewrite Ho. simpl. apply String.eqb_refl. }
    split; [|split; [exact Hcid|split; [exact Hr|]]].
    + rewrite !order_by_perm. rewrite Hrows, filter_app. simpl.
      rewrite Hr. symmetry. apply Permutation_cons_append.
    + intros x Hx.
      apply (Permutation_in _ (order_by_perm _)) in Hx.
      apply filter_In in Hx. destruct Hx as [Hx _].
      apply next_id_fresh in Hx. lia.
Qed.

Lemma X10_saved_conference_shows_for_its_owner_only_witness :
  (forall V, V <> "bob" ->
     Database.get_user_conferences db_review (PStr V)
     = Database.get_user_conferences Database.init_db (PStr V)) /\
  exists rs rs' r,
    Database.get_user_conferences Database.init_db (PStr "bob")
    = Ok (PList (map Database.conference_of_row rs)) /\
    Database.get_user_conferences db_review (PStr "bob")
    = Ok (PList (map Database.conference_of_row rs')) /\
    Permutation rs' (r :: rs) /\
    "1" = str_of_int (Database.id r) /\
    owned_by "bob" r = true /\
    forall x, In x rs -> Database.id x <> Database.id r.
Proof.
  apply (X10_saved_conference_shows_for_its_owner_only
           "2024-03-01 10:00:00" Database.init_db db_review
           (PDict record_full) "1" "bob").
  - reflexivity.
  - vm_compute. reflexivity.
Defined.

(* ================================================================== *)
(** ** More of models/telemost.py                                       *)
(* ================================================================== *)

Lemma conferences_endpoint (s : string) :
  str_contains "conferences" (lower ("conferences/" ++ s)) = true.
Proof. reflexivity. Qed.

(** X11. The conference id does not reach the provider: every endpoint
    that contains [conferences] is sent to the one collection URL, so
    [update_conference] and [delete_conference] do the same for any two
    ids, and [get_conference] of any id is [list_conferences] without
    parameters. *)
Theorem X11_conference_id_is_not_sent (send : Telemost.network)
  (now : string) (st ot at_ : option string) (id1 id2 data : pyval) :
  Telemost.update_conference send now st ot at_ id1 data
  = Telemost.update_conference send now st ot at_ id2 data /\
  Telemost.delete_conference send now st ot at_ id1
  = Telemost.delete_conference send now st ot at_ id2 /\
  Telemost.get_conference send now st ot at_ id1
  = Telemost.list_conferences send now st ot at_ PNone.
Proof.
  unfold Telemost.update_conference, Telemost.delete_conference,
    Telemost.get_conference, Telemost.list_conferences, Telemost.api_call.
  rewrite !conferences_endpoint.
  repeat split.
Qed.




(** X13. [get_conferences] turns an HTTP error into an error value that
    carries the status: when the provider answers with a status from 400 to
    599 the result is [{'error': 'Request failed: ...', 'status_code':
    status}]; an answer of another status with an empty body is the empty
    list. *)
Theorem X13_get_conferences_reports_http_errors (send : Telemost.network)
  (token : string) (r : Telemost.response) :
  send {| Telemost.http_method := "GET";
          Telemost.url := Telemost.conferences_url;
          Telemost.authorization := "OAuth " ++ token;
          Telemost.json_payload := PNone; Telemost.query := PNone |}
  = Ok r ->
  (400 <= Telemost.status_code r < 600 ->
   exists m,
     Telemost.get_conferences send token
     = Ok (PDict [ ("error", PStr ("Request failed: " ++ m));
                   ("status_code", PInt (Telemost.status_code r)) ])) /\
  (Telemost.status_code r < 400 \/ 600 <= Telemost.status_code r ->
   Telemost.text r = "" ->
   Telemost.get_conferences send token = Ok (PList [])).
Proof.
  intros Hr. unfold Telemost.get_conferences. rewrite Hr. cbn [bind].
  unfold Telemost.raise_for_status. split.
  - intros Hc.
    destruct ((400 <=? Telemost.status_code r)
              && (Telemost.status_code r <? 500))%bool eqn:E4.
    + cbn [bind]. simpl. eauto.
    + assert (E5 : ((500 <=? Telemost.status_code r)
                    && (Telemost.status_code r <? 600))%bool = true).
      { apply andb_false_iff in E4. apply andb_true_iff.
        rewrite Z.leb_le, Z.ltb_lt.
        destruct E4 as [E4|E4];
          [apply Z.leb_gt in E4|apply Z.ltb_ge in E4]; lia. }
      rewrite E5. cbn [bind]. simpl. eauto.
  - intros Hc Ht.
    assert (E4 : ((400 <=? Telemost.status_code r)
                  && (Telemost.status_code r <? 500))%bool = false).
    { apply andb_false_iff. rewrite Z.leb_gt, Z.ltb_ge. lia. }
    assert (E5 : ((500 <=? Telemost.status_code r)
                  && (Telemost.status_code r <? 600))%bool = false).
    { apply andb_false_iff. rewrite Z.leb_gt, Z.ltb_ge. lia. }
    rewrite E4, E5, Ht. reflexivity.
Qed.

Lemma X13_get_conferences_reports_http_errors_witness :
  exists m,
    Telemost.get_conferences overloaded "y0_token"
    = Ok (PDict [ ("error", PStr ("Request failed: " ++ m));
                  ("status_code", PInt 503) ]).
Proof.
  refine (proj1 (X13_get_conferences_reports_http_errors overloaded
                   "y0_token" _ eq_refl) _).
  simpl. lia.
Defined.

Lemma cohost_emails_of_strings (l : list string) :
  Telemost.cohost_emails (map PStr l)
  = Ok (map email_entry (filter has_at l)).
Proof.
  induction l as [|s l IH]; [reflexivity|].
  simpl. rewrite IH. cbn [bind]. unfold has_at.
  now destruct (str_contains "@" s).
Qed.

(** X14. What a POST to [conferences] sends to the provider.  For a request
    dict whose [cohosts] is a list of strings the payload is a dict with
    [waiting_room_level] ['PUBLIC']; with [cohosts], when the list is not
    empty, holding one [{'email': s}] for each string that contains ['@'],
    in their order (none, when no string has one); with [live_stream]
    exactly when [type] is ['broadcast']; and with no other key: neither
    the name nor the description nor the date is sent. *)
Theorem X14_payload_of_a_created_conference (c : dict) (l : list string) :
  dict_get c "cohosts" = Some (PList (map PStr l)) ->
  exists items,
    Telemost.yandex_format_data (PDict c) = Ok (PDict items) /\
    dict_get items "waiting_room_level" = Some (PStr "PUBLIC") /\
    dict_get items "cohosts"
    = match l with
      | [] => None
      | _ => Some (PList (map email_entry (filter has_at l)))
      end /\
    (dict_get items "live_stream" <> None <->
     dict_get c "type" = Some (PStr "broadcast")) /\
    forall k, k <> "waiting_room_level" -> k <> "live_stream" ->
              k <> "cohosts" -> dict_get items k = None.
Proof.
  intros Hc. unfold Telemost.yandex_format_data.
  assert (Ht : truthy (PDict c) = true)
    by (destruct c; [discriminate Hc|reflexivity]).
  rewrite Ht. cbn [py_get bind]. rewrite Hc.
  assert (Hco :
    (if truthy (PList (map PStr l))
     then items <- py_iter (PList (map PStr l)) ;;
          emails <- Telemost.cohost_emails items ;;
          Ok [("cohosts", PList emails)]
     else Ok [])
    = Ok match l with
         | [] => []
         | _ => [("cohosts", PList (map email_entry (filter has_at l)))]
         end).
  { destruct l as [|s l]; [reflexivity|].
    cbn [truthy map py_iter bind].
    change (PStr s :: map PStr l) with (map PStr (s :: l)).
    now rewrite cohost_emails_of_strings. }
  assert (Hneq : forall k k' : string, k <> k' -> (k' =? k)%string = false).
  { intros k k' H. apply String.eqb_neq. congruence. }
  destruct (dict_get c "type") as [ty|] eqn:Ety.
  - destruct (eq_str ty "broadcast") eqn:Eb.
    + destruct ty; try discriminate Eb. simpl in Eb.
      apply String.eqb_eq in Eb. subst.
      cbn [bind]. rewrite Hco. cbn [bind]. eexists. split; [reflexivity|].
      split; [reflexivity|]. split; [now destruct l|].
      split; [split; [reflexivity|discriminate]|].
      intros k H1 H2 H3. cbn [app dict_get].
      rewrite (Hneq _ _ H1), (Hneq _ _ H2).
      destruct l; cbn [dict_get]; [reflexivity|]. now rewrite (Hneq _ _ H3).
    + cbn [bind]. rewrite Hco. cbn [bind]. eexists. split; [reflexivity|].
      split; [reflexivity|]. split; [now destruct l|].
      split.
      * split.
        -- intros H. exfalso. apply H. now destruct l.
        -- intros [= ->]. discriminate Eb.
      * intros k H1 H2 H3. cbn [app dict_get]. rewrite (Hneq _ _ H1).
        destruct l; cbn [dict_get]; [reflexivity|].
        now rewrite (Hneq _ _ H3).
  - cbn [eq_str bind]. rewrite Hco. cbn [bind]. eexists.
    split; [reflexivity|].
    split; [reflexivity|]. split; [now destruct l|].
    split.
    * split.
      -- intros H. exfalso. apply H. now destruct l.
      -- discriminate.
    * intros k H1 H2 H3. cbn [app dict_get]. rewrite (Hneq _ _ H1).
      destruct l; cbn [dict_get]; [reflexivity|]. now rewrite (Hneq _ _ H3).
Qed.

Lemma X14_payload_of_a_created_conference_witness :
  exists items,
    Telemost.yandex_format_data
      (PDict [ ("type", PStr "broadcast"); ("name", PStr "Review");
               ("cohosts", PList (map PStr ["carol@example.com"; "dave"])) ])
    = Ok (PDict items) /\
    dict_get items "waiting_room_level" = Some (PStr "PUBLIC") /\
    dict_get items "cohosts"
    = Some (PList (map email_entry
                     (filter has_at ["carol@example.com"; "dave"]))) /\
    (dict_get items "live_stream" <> None <->
     dict_get [ ("type", PStr "broadcast"); ("name", PStr "Review");
                ("cohosts", PList (map PStr ["carol@example.com"; "dave"])) ]
       "type" = Some (PStr "broadcast")) /\
    forall k, k <> "waiting_room_level" -> k <> "live_stream" ->
              k <> "cohosts" -> dict_get items k = None.
Proof.
  apply (X14_payload_of_a_created_conference
           [ ("type", PStr "broadcast"); ("name", PStr "Review");
             ("cohosts", PList (map PStr ["carol@example.com"; "dave"])) ]
           ["carol@example.com"; "dave"]).
  reflexivity.
Defined.

Lemma dict_get_set (d : dict) (k k' : string) (v : pyval) :
  dict_get (dict_set d k v) k'
  = if (k =? k')%string then Some v else dict_get d k'.
Proof.
  induction d as [|[k0 v0] d IH]; cbn [dict_set dict_get]; [reflexivity|].
  destruct (k0 =? k)%string eqn:E0; cbn [dict_get].
  - apply String.eqb_eq in E0. subst k0.
    now destruct (k =? k')%string.
  - rewrite IH. destruct (k0 =? k')%string eqn:E1; [|reflexivity].
    apply String.eqb_eq in E1. subst k0. now rewrite String.eqb_sym, E0.
Qed.

Lemma tokens_stored (s : dict) (a r : pyval) :
  let s' := dict_set (dict_set s "yandex_access_token" a)
                     "yandex_refresh_token" r in
  dict_get s' "yandex_access_token" = Some a /\
  dict_get s' "yandex_refresh_token" = Some r /\
  same_but_tokens s s'.
Proof.
  cbv zeta. rewrite !dict_get_set. split; [reflexivity|].
  split; [reflexivity|]. intros k Ha Hr. rewrite !dict_get_set.
  apply not_eq_sym, String.eqb_neq in Ha.
  apply not_eq_sym, String.eqb_neq in Hr. now rewrite Ha, Hr.
Qed.

(** X15. [refresh_access_token] loses no refresh token: when it returns
    [None] (nothing to refresh with, or the request failed) the session is
    as it was; when it returns the answer of the provider, the session
    holds the new access token, and as refresh token the new one or, when
    the answer has none, the one it had; no other key of the session is
    touched. *)
Theorem X15_refresh_keeps_the_refresh_token (post : Telemost.token_network)
  (cfg : Telemost.credentials) (s s' : dict) (v : pyval) :
  Telemost.refresh_access_token post cfg s = (s', Ok v) ->
  (v = PNone /\ s' = s) \/
  (exists td,
     v = PDict td /\
     truthy (Telemost.session_get s "yandex_refresh_token") = true /\
     dict_get s' "yandex_access_token"
     = Some (default td "access_token" PNone) /\
     dict_get s' "yandex_refresh_token"
     = Some (default td "refresh_token"
               (Telemost.session_get s "yandex_refresh_token")) /\
     same_but_tokens s s').
Proof.
  unfold Telemost.refresh_access_token.
  destruct (truthy (Telemost.session_get s "yandex_refresh_token")) eqn:Et;
    cbn [negb orb]; [|intros [= <- <-]; now left].
  destruct (negb (Telemost.truthy_token (Telemost.YANDEX_CLIENT_ID cfg))
            || negb (Telemost.truthy_token
                       (Telemost.YANDEX_CLIENT_SECRET cfg)))%bool;
    [intros [= <- <-]; now left|].
  destruct (Telemost.token_response post _ _) as [token_data|e].
  - destruct token_data as [| | | | | |td];
      try (cbn; intros H; discriminate H).
    cbn [py_get]. intros [= <- <-]. right. exists td.
    split; [reflexivity|]. split; [reflexivity|].
    apply tokens_stored.
  - destruct (is_request_exception e); intros [= <- <-]. now left.
Qed.

Lemma X15_refresh_keeps_the_refresh_token_witness :
  exists td,
    PDict [("access_token", PStr "y0_new"); ("expires_in", PInt 3600)]
    = PDict td /\
    truthy (Telemost.session_get session_with_tokens "yandex_refresh_token")
    = true /\
    dict_get [ ("member_id", PStr "m1");
               ("yandex_access_token", PStr "y0_new");
               ("yandex_refresh_token", PStr "r_old") ]
      "yandex_access_token"
    = Some (default td "access_token" PNone) /\
    dict_get [ ("member_id", PStr "m1");
               ("yandex_access_token", PStr "y0_new");
               ("yandex_refresh_token", PStr "r_old") ]
      "yandex_refresh_token"
    = Some (default td "refresh_token"
              (Telemost.session_get session_with_tokens
                 "yandex_refresh_token")) /\
    same_but_tokens session_with_tokens
      [ ("member_id", PStr "m1");
        ("yandex_access_token", PStr "y0_new");
        ("yandex_refresh_token", PStr "r_old") ].
Proof.
  destruct (X15_refresh_keeps_the_refresh_token grants_access_only
              configured session_with_tokens
              [ ("member_id", PStr "m1");
                ("yandex_access_token", PStr "y0_new");
                ("yandex_refresh_token", PStr "r_old") ]
              (PDict [("access_token", PStr "y0_new");
                      ("expires_in", PInt 3600)])
              eq_refl) as [[H _]|H].
  - discriminate H.
  - exact H.
Defined.

(** X16. [get_access_token] changes the session only with the answer of
    the provider: without client id or secret no request is made and the
    session is as it was, as it is when the request fails; otherwise the
    result is the answer and the session holds its access token and its
    refresh token, [None] where the answer has none, so that a refresh
    token stored before is overwritten; no other key is touched. *)
Theorem X16_get_access_token_stores_the_answer
  (post : Telemost.token_network) (cfg : Telemost.credentials)
  (s s' : dict) (code v : pyval) :
  Telemost.get_access_token post cfg s code = (s', Ok v) ->
  (s' = s /\ exists m, v = PDict [("error", PStr m)]) \/
  (exists td,
     v = PDict td /\
     Telemost.truthy_token (Telemost.YANDEX_CLIENT_ID cfg) = true /\
     Telemost.truthy_token (Telemost.YANDEX_CLIENT_SECRET cfg) = true /\
     dict_get s' "yandex_access_token"
     = Some (default td "access_token" PNone) /\
     dict_get s' "yandex_refresh_token"
     = Some (default td "refresh_token" PNone) /\
     same_but_tokens s s').
Proof.
  unfold Telemost.get_access_token.
  destruct (Telemost.truthy_token (Telemost.YANDEX_CLIENT_ID cfg));
    cbn [negb orb]; [|intros [= <- <-]; left; eauto].
  destruct (Telemost.truthy_token (Telemost.YANDEX_CLIENT_SECRET cfg));
    cbn [negb]; [|intros [= <- <-]; left; eauto].
  destruct (Telemost.token_response post _ _) as [token_data|e].
  - destruct token_data as [| | | | | |td];
      try (cbn; intros H; discriminate H).
    cbn [py_get]. intros [= <- <-]. right. exists td.
    split; [reflexivity|]. split; [reflexivity|]. split; [reflexivity|].
    apply tokens_stored.
  - destruct (is_request_exception e); intros [= <- <-]. left. eauto.
Qed.

Lemma X16_get_access_token_stores_the_answer_witness :
  exists td,
    PDict [("access_token", PStr "y0_new"); ("expires_in", PInt 3600)]
    = PDict td /\
    Telemost.truthy_token (Telemost.YANDEX_CLIENT_ID configured) = true /\
    Telemost.truthy_token (Telemost.YANDEX_CLIENT_SECRET configured) = true /\
    dict_get [ ("member_id", PStr "m1");
               ("yandex_access_token", PStr "y0_new");
               ("yandex_refresh_token", PNone) ]
      "yandex_access_token"
    = Some (default td "access_token" PNone) /\
    dict_get [ ("member_id", PStr "m1");
               ("yandex_access_token", PStr "y0_new");
               ("yandex_refresh_token", PNone) ]
      "yandex_refresh_token"
    = Some (default td "refresh_token" PNone) /\
    same_but_tokens session_with_tokens
      [ ("member_id", PStr "m1");
        ("yandex_access_token", PStr "y0_new");
        ("yandex_refresh_token", PNone) ].
Proof.
  destruct (X16_get_access_token_stores_the_answer grants_access_only
              configured session_with_tokens
              [ ("member_id", PStr "m1");
                ("yandex_access_token", PStr "y0_new");
                ("yandex_refresh_token", PNone) ]
              (PStr "code") 
              (PDict [("access_token", PStr "y0_new");
                      ("expires_in", PInt 3600)])
              eq_refl) as [[_ [m H]]|H].
  - discriminate H.
  - exact H.
Defined.

(* ================================================================== *)
(** ** More of app.py                                                   *)
(* ================================================================== *)

Lemma rstrip_slash_twice (s : string) :
  App.rstrip_slash (App.rstrip_slash s) = App.rstrip_slash s.
Proof.
  induction s as [|c r IH]; [reflexivity|]. simpl.
  destruct (App.rstrip_slash r) as [|c' r'] eqn:E.
  - destruct (Ascii.eqb c "/") eqn:Ec; [reflexivity|].
    simpl. now rewrite Ec.
  - change (App.rstrip_slash (String c (String c' r')))
      with (match App.rstrip_slash (String c' r') with
            | EmptyString =>
                if Ascii.eqb c "/" then EmptyString else String c EmptyString
            | x => String c x
            end).
    now rewrite IH.
Qed.

Lemma prefix_then_rest (p s : string) :
  String.prefix p s = true ->
  (p ++ App.str_from (String.length p) s)%string = s.
Proof.
  revert s. induction p as [|a p IH]; intros s H; [reflexivity|].
  destruct s as [|b s]; [discriminate H|]. simpl in *.
  destruct (ascii_dec a b) as [->|]; [|discriminate H].
  now rewrite IH.
Qed.

(** X17. [PrefixMiddleware] only moves the prefix: the environ is handed
    on unchanged, or [SCRIPT_NAME] is the configured [BASE_PATH] without
    its trailing slashes, not empty, and [SCRIPT_NAME] followed by the new
    [PATH_INFO] is the [PATH_INFO] that came in. *)
Theorem X17_prefix_middleware_splits_the_path (base_path : string)
  (env : App.environ) :
  App.wsgi_environ base_path env = env \/
  (App.SCRIPT_NAME (App.wsgi_environ base_path env)
   = App.rstrip_slash base_path /\
   App.SCRIPT_NAME (App.wsgi_environ base_path env) <> "" /\
   App.rstrip_slash (App.SCRIPT_NAME (App.wsgi_environ base_path env))
   = App.SCRIPT_NAME (App.wsgi_environ base_path env) /\
   (App.SCRIPT_NAME (App.wsgi_environ base_path env)
      ++ App.PATH_INFO (App.wsgi_environ base_path env))%string
   = App.PATH_INFO env).
Proof.
  unfold App.wsgi_environ, App.PrefixMiddleware.
  destruct (negb (base_path =? "")%string); [|now left].
  destruct (App.rstrip_slash base_path =? "")%string eqn:Ee;
    cbn [negb andb]; [now left|].
  destruct (String.prefix (App.rstrip_slash base_path) (App.PATH_INFO env))
    eqn:Ep; [|now left].
  right. cbn [App.SCRIPT_NAME App.PATH_INFO].
  split; [reflexivity|]. split; [now apply String.eqb_neq|].
  split; [apply rstrip_slash_twice|now apply prefix_then_rest].
Qed.

(** X18. [get_member_id] remembers: after a request that carried a
    [member_id], a request that carries none gets the same one from the
    session, and the session keeps it. *)
Theorem X18_member_id_is_remembered (r1 r2 : App.request) (p1 p2 : dict)
  (s : dict) (m : pyval) :
  App.merge_params r1 = Ok p1 ->
  dict_get p1 "member_id" = Some m ->
  truthy m = true ->
  App.merge_params r2 = Ok p2 ->
  dict_get p2 "member_id" = None ->
  exists s1,
    App.get_member_id r1 s = Ok (s1, m) /\
    App.get_member_id r2 s1 = Ok (s1, m) /\
    forall k, k <> "member_id" -> dict_get s1 k = dict_get s k.
Proof.
  intros H1 Hm Ht H2 Hn. unfold App.get_member_id.
  rewrite H1, H2. cbn [bind]. rewrite Hm, Hn, Ht. cbn [truthy].
  eexists. split; [reflexivity|]. split.
  - unfold Telemost.session_get. rewrite dict_get_set.
    now rewrite String.eqb_refl.
  - intros k Hk. rewrite dict_get_set.
    apply not_eq_sym, String.eqb_neq in Hk. now rewrite Hk.
Qed.

Lemma X18_member_id_is_remembered_witness :
  exists s1,
    App.get_member_id (query_only [("member_id", "m1")]) [] = Ok (s1, PStr "m1") /\
    App.get_member_id (query_only [("user_id", "alice")]) s1
    = Ok (s1, PStr "m1") /\
    forall k, k <> "member_id" -> dict_get s1 k = dict_get [] k.
Proof.
  apply (X18_member_id_is_remembered (query_only [("member_id", "m1")])
           (query_only [("user_id", "alice")])
           [("member_id", PStr "m1")] [("user_id", PStr "alice")]
           [] (PStr "m1")); reflexivity.
Defined.

Lemma dict_get_update (other d : dict) (k : string) :
  NoDup (map fst other) ->
  dict_get (dict_update d other) k
  = match dict_get other k with
    | Some v => Some v
    | None => dict_get d k
    end.
Proof.
  unfold dict_update. revert d.
  induction other as [|[k0 v0] other IH]; intros d Hn; [reflexivity|].
  inversion Hn as [|? ? Hk0 Hn']; subst.
  cbn [fold_left fst snd dict_get]. rewrite (IH _ Hn'), dict_get_set.
  destruct (k0 =? k)%string eqn:E; [|reflexivity].
  apply String.eqb_eq in E. subst k0.
  destruct (dict_get other k) as [v|] eqn:Eo; [|reflexivity].
  exfalso. apply Hk0. clear - Eo.
  induction other as [|[k1 v1] other IH]; [discriminate Eo|].
  cbn [dict_get] in Eo. simpl.
  destruct (k1 =? k)%string eqn:E1.
  - left. now apply String.eqb_eq.
  - right. now apply IH.
Qed.

(** X19. In a JSON request the body wins over the query string: every key
    of the body is read from the body by [merge_params], the other keys
    from the query string; so the caller is who the body says, whatever
    [user_id] the URL carries. *)
Theorem X19_json_body_overrides_the_query (r : App.request) (body : dict) :
  App.is_json r = true ->
  App.get_json r = Ok (PDict body) ->
  NoDup (map fst body) ->
  exists params u,
    App.merge_params r = Ok params /\
    (forall k, dict_get params k
               = match dict_get body k with
                 | Some v => Some v
                 | None => dict_get (query_params r) k
                 end) /\
    App.get_user_from_request r = Ok u /\
    (forall v, dict_get body "user_id" = Some v -> App.user_id u = v).
Proof.
  intros Hj Hb Hn.
  assert (Hm : App.merge_params r
               = Ok (dict_update (query_params r) body)).
  { unfold App.merge_params. rewrite Hj, Hb. cbn [bind].
    unfold py_or. destruct body; reflexivity. }
  unfold App.get_user_from_request. rewrite Hm. cbn [bind].
  eexists _, _. split; [reflexivity|].
  split; [intros k; now apply dict_get_update|].
  split; [reflexivity|].
  intros v Hv. cbn [App.user_id]. rewrite dict_get_update by exact Hn.
  now rewrite Hv.
Qed.

Lemma X19_json_body_overrides_the_query_witness :
  exists params u,
    App.merge_params bob_as_alice = Ok params /\
    (forall k, dict_get params k
               = match dict_get [("name", PStr "Standup");
                                 ("type", PStr "conference");
                                 ("user_id", PStr "alice")] k with
                 | Some v => Some v
                 | None => dict_get (query_params bob_as_alice) k
                 end) /\
    App.get_user_from_request bob_as_alice = Ok u /\
    (forall v, dict_get [("name", PStr "Standup");
                         ("type", PStr "conference");
                         ("user_id", PStr "alice")] "user_id" = Some v ->
               App.user_id u = v).
Proof.
  apply (X19_json_body_overrides_the_query bob_as_alice
           [("name", PStr "Standup"); ("type", PStr "conference");
            ("user_id", PStr "alice")]).
  - reflexivity.
  - reflexivity.
  - repeat constructor; simpl; intuition discriminate.
Defined.

(* ================================================================== *)
(** ** More of app.py: what the routes do to the table                  *)
(* ================================================================== *)

Lemma appended_refl (d : Database.db) : appended d d.
Proof.
  split; [|lia]. exists []. now rewrite app_nil_r.
Qed.

Lemma appended_trans (d1 d2 d3 : Database.db) :
  appended d1 d2 -> appended d2 d3 -> appended d1 d3.
Proof.
  intros [[m1 H1] L1] [[m2 H2] L2]. split; [|lia].
  exists (m1 ++ m2)%list. now rewrite H2, H1, app_assoc.
Qed.

Lemma save_conference_appends (now : string) (d d' : Database.db)
  (cd : pyval) (cid : string) :
  Database.save_conference now d cd = Ok (d', cid) -> appended d d'.
Proof.
  intros H. apply save_conference_stored in H.
  destruct H as (c & i & Hins & _).
  apply insert_row_inv in Hins. destruct Hins as (-> & -> & _).
  split; simpl.
  - eexists. reflexivity.
  - unfold Database.next_id. lia.
Qed.

Lemma sync_appends (clock : nat -> string) (u : App.user_info)
  (confs : list pyval) :
  forall n d, appended d (fst (App.sync clock n u confs d)).
Proof.
  induction confs as [|conf confs IH]; intros n d; simpl.
  - apply appended_refl.
  - destruct (App.conf_data conf u) as [cd|ex]; [|apply appended_refl].
    destruct (Database.save_conference (clock n) d cd) as [[d1 cid]|ex]
      eqn:Es; [|apply IH].
    eapply appended_trans; [eapply save_conference_appends; eauto|apply IH].
Qed.

Ltac local_answer :=
  unfold App.respond_local;
  repeat match goal with
         | |- context [Database.get_user_conferences ?d ?u] =>
             destruct (Database.get_user_conferences d u); cbn [bind fst]
         end.

Lemma get_conferences_appends (clock : nat -> string)
  (e : App.environment) (r : App.request) (d : Database.db) :
  appended d (fst (App.get_conferences clock e r d)).
Proof.
  unfold App.get_conferences.
  destruct (App.get_user_from_request r) as [u|ex];
    [|apply appended_refl].
  assert (Hsync : forall confs,
    appended d
      (fst (let attempt := App.sync_and_respond clock u confs d in
            match attempt with
            | (d1, Raise _) => App.respond_local d1 (App.user_id u)
            | done => done
            end))).
  { intros confs. unfold App.sync_and_respond.
    pose proof (sync_appends clock u confs 0%nat d) as Hs.
    destruct (App.sync clock 0 u confs d) as [d1 [[]|ex]]; simpl in Hs;
      cbv zeta; local_answer; exact Hs. }
  destruct (App.yandex_token e) as [token|];
    [|local_answer; apply appended_refl].
  destruct (token =? "")%string; [local_answer; apply appended_refl|].
  destruct (Telemost.get_conferences (App.send e) token) as [yc|ex];
    [|cbv zeta; local_answer; apply appended_refl].
  destruct (py_contains "error" yc) as [[|]|ex];
    [cbv zeta; local_answer; apply appended_refl
    | |cbv zeta; local_answer; apply appended_refl].
  destruct yc as [| | | | |confs|yc];
    try (cbv zeta; local_answer; apply appended_refl).
  - apply Hsync.
  - destruct (dict_get yc "result") as [[| | | | |confs|]|];
      try (cbv zeta; local_answer; apply appended_refl).
    apply Hsync.
Qed.

Lemma create_without_token_appends (now : string) (u : App.user_info)
  (data : pyval) (d : Database.db) :
  appended d (fst (App.create_without_token now u data d)).
Proof.
  unfold App.create_without_token.
  match goal with
  | |- context [match ?x with Ok _ => _ | Raise _ => _ end] =>
      destruct x as [cd|ex]
  end; [|apply appended_refl].
  destruct (Database.save_conference now d cd) as [[d1 cid]|ex] eqn:Es;
    [|apply appended_refl].
  apply save_conference_appends in Es.
  match goal with
  | |- context [match ?x with Ok _ => _ | Raise _ => _ end] =>
      destruct x
  end; exact Es.
Qed.

Lemma create_with_token_appends (now : string) (e : App.environment)
  (token : string) (u : App.user_info) (data : pyval) (d : Database.db) :
  appended d (fst (App.create_with_token now e token u data d)).
Proof.
  unfold App.create_with_token.
  match goal with
  | |- context [match ?x with Ok _ => _ | Raise _ => _ end] =>
      destruct x as [[result [|]]|ex]
  end; try apply appended_refl.
  match goal with
  | |- context [match ?x with Ok _ => _ | Raise _ => _ end] =>
      destruct x as [cd|ex]
  end; [|apply appended_refl].
  destruct (Database.save_conference now d cd) as [[d1 cid]|ex] eqn:Es;
    [|apply appended_refl].
  cbv zeta. simpl. eapply save_conference_appends; eauto.
Qed.

Lemma update_route_keeps_table (frames : nat) (e : App.environment)
  (r : App.request) (conf_id : Z) (surplus : list pyval)
  (d : Database.db) :
  fst (App.update_conference frames e r conf_id surplus d) = d.
Proof.
  destruct frames as [|frames], surplus as [|x surplus]; try reflexivity.
  simpl. destruct (App.get_json r) as [data|ex]; [|reflexivity].
  destruct frames; reflexivity.
Qed.

(** X20. No route removes or rewrites a stored row.  After
    [GET /api/conferences] and after [POST /api/conferences] the table
    holds the rows it held, unchanged and in their order, followed by the
    rows that were added, and the id counter has not gone back; the DELETE
    and PUT routes leave the table as it is.  This holds for every
    request, caller, token and answer of the provider. *)
Theorem X20_routes_only_append (clock : nat -> string) (now : string)
  (e : App.environment) (r : App.request) (d : Database.db)
  (J frames : nat) (conf_id : Z) (surplus : list pyval) :
  appended d (fst (App.get_conferences clock e r d)) /\
  appended d (fst (App.create_conference now e r d)) /\
  fst (App.delete_conference J frames conf_id d) = d /\
  fst (App.update_conference frames e r conf_id surplus d) = d.
Proof.
  split; [apply get_conferences_appends|].
  split; [|split; [apply delete_route_keeps_table
                  |apply update_route_keeps_table]].
  unfold App.create_conference.
  destruct (App.get_json r) as [data|ex]; [|apply appended_refl].
  destruct (App.get_user_from_request r) as [u|ex]; [|apply appended_refl].
  destruct (App.yandex_token e) as [token|];
    [destruct (token =? "")%string|].
  - apply create_without_token_appends.
  - apply create_with_token_appends.
  - apply create_without_token_appends.
Qed.

(* ================================================================== *)
(** ** More of app.py: listing twice                                    *)
(* ================================================================== *)















(* ================================================================== *)
(** ** More of app.py: what a create answers                            *)
(* ================================================================== *)

Lemma create_with_token_answers (now : string) (e : App.environment)
  (token : string) (u : App.user_info) (data : pyval) (d : Database.db) :
  exists d' rsp,
    App.create_with_token now e token u data d = (d', Ok rsp) /\
    (App.status rsp = 200 \/ App.status rsp = 400 \/ App.status rsp = 500) /\
    (App.status rsp <> 200 -> d' = d).
Proof.
  unfold App.create_with_token.
  match goal with
  | |- context [match ?x with Ok _ => _ | Raise _ => _ end] =>
      destruct x as [[result [|]]|ex]
  end; cbv zeta.
  - eexists _, _. split; [reflexivity|]. simpl. split; [auto|reflexivity].
  - match goal with
    | |- context [match ?x with Ok _ => _ | Raise _ => _ end] =>
        destruct x as [cd|ex]
    end.
    + destruct (Database.save_conference now d cd) as [[d1 cid]|ex];
        eexists _, _; (split; [reflexivity|]); simpl;
        (split; [auto|]); intros H; congruence.
    + eexists _, _. split; [reflexivity|]. simpl. split; [auto|reflexivity].
  - eexists _, _. split; [reflexivity|]. simpl. split; [auto|reflexivity].
Qed.

(** X22. With a token, [POST /api/conferences] always answers: for every
    JSON body, be it a dict or not, and whatever the provider does, the
    route returns a response with status 200, 400 or 500 and raises
    nothing; the table changes only under a 200. *)
Theorem X22_create_with_token_always_answers (now : string)
  (e : App.environment) (r : App.request) (d : Database.db)
  (data : pyval) (u : App.user_info) :
  App.get_json r = Ok data ->
  App.get_user_from_request r = Ok u ->
  Telemost.truthy_token (App.yandex_token e) = true ->
  exists d' rsp,
    App.create_conference now e r d = (d', Ok rsp) /\
    (App.status rsp = 200 \/ App.status rsp = 400 \/ App.status rsp = 500) /\
    (App.status rsp <> 200 -> d' = d).
Proof.
  intros Hj Hu Ht. unfold App.create_conference. rewrite Hj, Hu.
  destruct (App.yandex_token e) as [token|]; [|discriminate Ht].
  simpl in Ht. destruct (token =? "")%string; [discriminate Ht|].
  apply create_with_token_answers.
Qed.

Lemma X22_create_with_token_always_answers_witness :
  exists d' rsp,
    App.create_conference "2024-01-01 09:00:00" (with_token unreachable)
      (json_request [("user_id", "alice")] (PList [])) Database.init_db
    = (d', Ok rsp) /\
    (App.status rsp = 200 \/ App.status rsp = 400 \/ App.status rsp = 500) /\
    (App.status rsp <> 200 -> d' = Database.init_db).
Proof.
  apply (X22_create_with_token_always_answers "2024-01-01 09:00:00"
           (with_token unreachable)
           (json_request [("user_id", "alice")] (PList []))
           Database.init_db (PList [])
           {| App.user_id := PStr "alice";
              App.user_name := PStr "Unknown User" |});
    reflexivity.
Defined.

(** X23. Without a token, [POST /api/conferences] with a dict as body and
    a caller whose id is a string answers 200 or 500: under 200 exactly one
    row was added, for the caller and under the next id of the table; under
    500 the table is as it was.  A body that is not a dict is not answered:
    the route raises AttributeError before it reaches its [try]. *)
Theorem X23_create_without_token_answers (now : string)
  (u : App.user_info) (U : string) (data : pyval) (d : Database.db) :
  App.user_id u = PStr U ->
  (forall c, data = PDict c ->
     exists d' rsp,
       App.create_without_token now u data d = (d', Ok rsp) /\
       ((App.status rsp = 200 /\
         exists row,
           Database.rows d' = (Database.rows d ++ [row])%list /\
           owned_by U row = true /\
           Database.id row = Database.next_id d) \/
        (App.status rsp = 500 /\ d' = d))) /\
  ((forall c, data <> PDict c) ->
   exists ex,
     App.create_without_token now u data d = (d, Raise ex) /\
     cls ex = AttributeError).
Proof.
  intros HU. split.
  - intros c ->. unfold App.create_without_token, App.user_count_plus_one.
    rewrite HU, get_user_conferences_str. cbn [py_get bind py_len].
    match goal with
    | |- context [Database.save_conference now d ?cd] =>
        destruct (Database.save_conference now d cd) as [[d1 cid]|ex] eqn:Es
    end.
    + apply owner_list_after_save with (U := U) in Es; [|reflexivity].
      destruct Es as (row & Hrows & -> & Hid & Ho).
      rewrite str_of_int_nonempty, int_of_str_of_int.
      eexists _, _. split; [reflexivity|]. left.
      split; [reflexivity|]. exists row. split; [exact Hrows|].
      split; [|exact Hid]. unfold owned_by. rewrite Ho. simpl.
      apply String.eqb_refl.
    + eexists _, _. split; [reflexivity|]. right. split; reflexivity.
  - intros Hn. unfold App.create_without_token.
    destruct data as [| | | | | |c];
      try (eexists; split; reflexivity).
    exfalso. now apply (Hn c).
Qed.

Lemma X23_create_without_token_answers_witness :
  exists d' rsp,
    App.create_without_token "2024-01-01 09:00:00" alice standup
      Database.init_db = (d', Ok rsp) /\
    ((App.status rsp = 200 /\
      exists row,
        Database.rows d' = (Database.rows Database.init_db ++ [row])%list /\
        owned_by "alice" row = true /\
        Database.id row = Database.next_id Database.init_db) \/
     (App.status rsp = 500 /\ d' = Database.init_db)).
Proof.
  apply (proj1 (X23_create_without_token_answers "2024-01-01 09:00:00"
                  alice "alice" standup Database.init_db eq_refl)
           [("name", PStr "Standup"); ("type", PStr "conference")]).
  reflexivity.
Defined.

(* ================================================================== *)
(** ** More of app.py: the index page and the OAuth callback            *)
(* ================================================================== *)

Lemma index_session (method : string) (r : App.request)
  (oauth_token : option string) (s s1 : dict) (page : App.index_page) :
  App.index method r oauth_token s = Ok (s1, page) ->
  exists s0,
    dict_get s0 "yandex_access_token" = dict_get s "yandex_access_token" /\
    s1 = (if ((match oauth_token with Some _ => true | None => false end)
              && negb (truthy (Telemost.session_get s0
                                 "yandex_access_token")))%bool
          then dict_set s0 "yandex_access_token"
                        (Telemost.py_of_config oauth_token)
          else s0) /\
    App.telemost_auth page = App.session_has s1 "yandex_access_token".
Proof.
  unfold App.index. intros H.
  match type of H with
  | bind ?c _ = _ => destruct c as [s0|] eqn:E0; [|discriminate H]
  end.
  cbn [bind] in H. injection H as <- <-.
  exists s0. split; [|split; reflexivity].
  destruct (method =? "POST")%string; [|now injection E0 as <-].
  destruct (App.merge_params r) as [params|]; [|discriminate E0].
  cbn [bind] in E0.
  destruct (truthy _ && truthy _)%bool; [|now injection E0 as <-].
  destruct (truthy _); injection E0 as <-; [|reflexivity].
  now rewrite dict_get_set.
Qed.

(** X24. Opening the index page does not change which token the
    conference routes work with: the configured token is copied into the
    session only where the routes would have fallen back to it anyway.
    The page shows [telemost_auth] exactly when afterwards the session
    holds a token that is not [None], which is the case whenever a token
    is configured (an empty one too). *)
Theorem X24_index_keeps_the_effective_token (method : string)
  (r : App.request) (oauth_token : option string) (s s1 : dict)
  (page : App.index_page) :
  token_is_text s = true ->
  App.index method r oauth_token s = Ok (s1, page) ->
  effective_token oauth_token s1 = effective_token oauth_token s /\
  App.bitrix_auth page = true /\
  (App.telemost_auth page = true <->
   oauth_token <> None \/ App.session_has s "yandex_access_token" = true).
Proof.
  intros Ht H.
  assert (Hb : App.bitrix_auth page = true).
  { unfold App.index in H.
    match type of H with
    | bind ?c _ = _ => destruct c; [|discriminate H]
    end.
    cbn [bind] in H. now injection H as _ <-. }
  apply index_session in H. destruct H as (s0 & H0 & -> & Ha).
  rewrite Ha. clear Ha. split; [|split; [exact Hb|]].
  - (* the token that the routes work with *)
    unfold effective_token, App.yandex_token, token_of_session,
      token_is_text, Telemost.session_get in *.
    cbn [App.session_yandex_access_token App.YANDEX_OAUTH_TOKEN].
    rewrite <- H0 in *.
    destruct oauth_token as [o|]; [|reflexivity].
    destruct (dict_get s0 "yandex_access_token") as [[| | | |t| |]|] eqn:E;
      try discriminate Ht; cbn [andb negb truthy Telemost.py_of_config].
    + rewrite dict_get_set, String.eqb_refl. cbn.
      now destruct (o =? "")%string.
    + destruct (t =? "")%string eqn:Et; cbn [negb].
      * rewrite dict_get_set, String.eqb_refl. cbn. rewrite Et.
        now destruct (o =? "")%string.
      * now rewrite E.
    + rewrite dict_get_set, String.eqb_refl. cbn.
      now destruct (o =? "")%string.
  - (* what the page shows *)
    unfold App.session_has, Telemost.session_get in *.
    rewrite <- H0 in *.
    destruct oauth_token as [o|]; cbn [andb].
    + split; [intros _; left; discriminate|intros _].
      destruct (dict_get s0 "yandex_access_token") as [v|] eqn:E;
        [|cbn; now rewrite dict_get_set, String.eqb_refl].
      destruct (truthy v) eqn:Ev; cbn [negb].
      * rewrite E. destruct v; try reflexivity. discriminate Ev.
      * now rewrite dict_get_set, String.eqb_refl.
    + split; [intros H; now right
             |intros [H|H]; [now contradiction H|exact H]].
Qed.

Lemma X24_index_keeps_the_effective_token_witness :
  effective_token (Some "y0_config")
    [("yandex_access_token", PStr "y0_config")]
  = effective_token (Some "y0_config") [] /\
  true = true /\
  (true = true <->
   Some "y0_config" <> None \/
   App.session_has [] "yandex_access_token" = true).
Proof.
  apply (X24_index_keeps_the_effective_token "GET" alice_lists
           (Some "y0_config") []
           [("yandex_access_token", PStr "y0_config")]
           {| App.bitrix_auth := true; App.telemost_auth := true |});
    reflexivity.
Defined.



(* ================================================================== *)
(** ** utils/auth.py                                                    *)
(* ================================================================== *)

(** X26. [format_duration] of an int splits it into hours, minutes and
    seconds: the three fields, each printed with [:02d], stand for numbers
    h, m, s with h * 3600 + m * 60 + s = seconds and m and s from 0 to 59;
    h is not negative unless the duration is.  The early return for 0
    gives the same text as the computation would. *)
Theorem X26_format_duration_splits_the_seconds (seconds : Z) :
  exists h m s,
    Auth.format_duration (PInt seconds)
    = Ok (Auth.format_02d h ++ ":" ++ Auth.format_02d m ++ ":"
            ++ Auth.format_02d s) /\
    h * 3600 + m * 60 + s = seconds /\
    0 <= m < 60 /\ 0 <= s < 60 /\
    (0 <= seconds -> 0 <= h).
Proof.
  exists (seconds / 3600), ((seconds mod 3600) / 60), (seconds mod 60).
  split.
  - unfold Auth.format_duration. cbn [truthy].
    destruct (seconds =? 0) eqn:E; cbn [negb]; [|reflexivity].
    apply Z.eqb_eq in E. subst. reflexivity.
  - assert (E : seconds mod 60 = (seconds mod 3600) mod 60).
    { symmetry. apply Z.mod_mod_divide. exists 60. reflexivity. }
    pose proof (Z.div_mod seconds 3600 ltac:(lia)) as H1.
    pose proof (Z.div_mod (seconds mod 3600) 60 ltac:(lia)) as H2.
    pose proof (Z.mod_pos_bound seconds 3600 ltac:(lia)) as B1.
    pose proof (Z.mod_pos_bound seconds 60 ltac:(lia)) as B2.
    assert (B3 : 0 <= (seconds mod 3600) / 60 < 60).
    { split; [apply Z.div_pos; lia|].
      apply Z.div_lt_upper_bound; lia. }
    split; [lia|]. split; [exact B3|]. split; [exact B2|].
    intros Hs. apply Z.div_pos; lia.
Qed.

(* ================================================================== *)
(** ** More of app.py: a create with a token                            *)
(* ================================================================== *)

(** What the client returns for the POST that the create route makes, when
    the provider answers 200 or 201 with a JSON object. *)
Lemma api_call_created (send : Telemost.network) (now_iso : string)
  (st ot : option string) (token T N : string) (l : list string)
  (r : Telemost.response) (y : dict) :
  token <> "" ->
  (forall q, send q = Ok r) ->
  Telemost.status_code r = 200 \/ Telemost.status_code r = 201 ->
  Telemost.text r <> "" ->
  Telemost.json r = Ok (PDict y) ->
  Telemost.api_call send now_iso st ot "POST" "conferences" (Some token)
    (PDict [ ("type", PStr T); ("name", PStr N);
             ("cohosts", PList (map PStr l)) ]) PNone
  = Ok (PDict
          [ ("id", first_present y "id" "ID" PNone);
            ("name", PStr N); ("type", PStr T);
            ("description", PStr "");
            ("startDate", PStr ""); ("startTime", PStr "");
            ("cohosts", PList (map PStr l));
            ("createCalendarEvent", PBool false);
            ("inviteUsers", PBool false);
            ("liveStreamTitle", PStr "");
            ("liveStreamDescription", PStr "");
            ("status", PStr "scheduled");
            ("link",
              match dict_get y "link" with
              | Some v => v
              | None =>
                  first_present y "JOIN_URL" "join_url"
                    (PStr ("https://telemost.yandex.ru/j/"
                             ++ py_format
                                  (first_present y "id" "ID" (PStr "new"))))
              end);
            ("createdAt", PStr now_iso) ]).
Proof.
  intros Htok Hsend Hstatus Htext Hjson.
  unfold Telemost.api_call. cbn [Telemost.truthy_token].
  apply String.eqb_neq in Htok. rewrite Htok. cbn [negb].
  change (str_contains "conferences" (lower "conferences")) with true.
  change (upper "POST" =? "GET")%string with false.
  change (upper "POST" =? "POST")%string with true.
  cbv iota.
  assert (Hbody : exists body,
            Telemost.yandex_format_data
              (PDict [ ("type", PStr T); ("name", PStr N);
                       ("cohosts", PList (map PStr l)) ]) = Ok body).
  { unfold Telemost.yandex_format_data.
    cbn [truthy py_get dict_get String.eqb Ascii.eqb Bool.eqb bind eq_str].
    destruct (T =? "broadcast")%string; cbn [bind];
      (destruct l as [|s l]; [cbn; eauto|]);
      cbn [truthy map py_iter bind];
      change (PStr s :: map PStr l) with (map PStr (s :: l));
      rewrite cohost_emails_of_strings; cbn [bind]; eauto. }
  destruct Hbody as [body ->]. cbn [bind]. rewrite Hsend. cbn [bind].
  unfold Telemost.read_response.
  assert (Hs : (negb (Telemost.status_code r =? 200)
                && negb (Telemost.status_code r =? 201))%bool = false).
  { destruct Hstatus as [-> | ->]; reflexivity. }
  rewrite Hs. apply String.eqb_neq in Htext. rewrite Htext. cbn [negb].
  rewrite Hjson.
  change (upper "POST" =? "POST")%string with true.
  change (str_contains "conferences" Telemost.conferences_url) with true.
  cbn [andb].
  unfold Telemost.created_conf_data, Telemost.request_or_remote.
  cbn [truthy py_get dict_get String.eqb Ascii.eqb Bool.eqb bind].
  unfold first_present, default. cbn [Telemost.request_failed].
  now rewrite Htok.
Qed.

(** X27. With a token, a create answers with the id of the provider, not
    with the id of the row.  When the provider answers the POST with 200 or
    201 and a JSON object that carries [id] and a [link] no row has, the
    route stores one row for the caller under the next id of the table,
    with the link of the provider, and answers 200 with that link and with
    the [id] of the provider. *)
Theorem X27_create_with_token_answers_the_remote_id (now : string)
  (e : App.environment) (token : string) (u : App.user_info)
  (U UN N T L : string) (l : list string) (c y : dict) (I : pyval)
  (r : Telemost.response) (d : Database.db) :
  token <> "" ->
  (forall q, App.send e q = Ok r) ->
  Telemost.status_code r = 200 \/ Telemost.status_code r = 201 ->
  Telemost.text r <> "" ->
  Telemost.json r = Ok (PDict y) ->
  dict_get y "id" = Some I ->
  dict_get y "link" = Some (PStr L) ->
  default c "name" PNone = PStr N ->
  default c "type" (PStr "conference") = PStr T ->
  is_kind (PStr T) = true ->
  default c "cohosts" (PList []) = PList (map PStr l) ->
  App.user_id u = PStr U ->
  App.user_name u = PStr UN ->
  link_free d (PStr L) = true ->
  Database.next_id d <= int64_max ->
  exists d' b row,
    App.create_with_token now e token u (PDict c) d
    = (d', Ok (App.jsonify b)) /\
    field b "id" = Some I /\
    field b "link" = Some (PStr L) /\
    Database.rows d' = (Database.rows d ++ [row])%list /\
    Database.id row = Database.next_id d /\
    Database.link (Database.data row) = SText L /\
    Database.owner_id (Database.data row) = SText U.
Proof.
  intros Htok Hsend Hstatus Htext Hjson Hid Hlink Hn Ht Hk Hco HU HUN
    Hfree Hmax.
  unfold App.create_with_token.
  rewrite !py_get_default, Hn, Ht, Hco. cbn [bind].
  rewrite (api_call_created (App.send e) (App.now_iso e) _ _ token T N l r y
             Htok Hsend Hstatus Htext Hjson).
  unfold first_present, default. rewrite Hid, Hlink.
  cbn [bind py_contains dict_has dict_get String.eqb Ascii.eqb Bool.eqb].
  unfold App.user_count_plus_one.
  rewrite HU, HUN, get_user_conferences_str.
  cbn [bind py_len py_get dict_get String.eqb Ascii.eqb Bool.eqb].
  unfold Database.save_conference.
  cbn [bind py_get py_item dict_get String.eqb Ascii.eqb Bool.eqb
       bind_param].
  unfold Database.insert_row, Database.check_constraints, Database.stored.
  cbn [Database.name Database.type Database.description Database.start_date
       Database.start_time Database.cohosts Database.create_calendar_event
       Database.invite_users Database.live_stream_title
       Database.live_stream_description Database.owner_id
       Database.owner_name Database.link Database.status
       text_affinity Database.is_null].
  simpl in Hfree. apply negb_true_iff in Hfree.
  change (Database.type_allowed (SText T)) with (is_kind (PStr T)).
  rewrite Hk, Hfree. cbn [negb bind].
  assert (E : (int64_max <? Database.next_id d) = false)
    by (apply Z.ltb_ge; exact Hmax).
  rewrite E. cbn [fst snd].
  eexists _, _, _. split; [reflexivity|].
  cbn [field dict_get String.eqb Ascii.eqb Bool.eqb Database.rows
       Database.id Database.data Database.link Database.owner_id].
  repeat split.
Qed.

Lemma X27_create_with_token_answers_the_remote_id_witness :
  exists d' b row,
    App.create_with_token "2024-01-01 09:00:00"
      (with_token (answers created_remote)) "y0_token" alice standup
      Database.init_db
    = (d', Ok (App.jsonify b)) /\
    field b "id" = Some (PInt 901) /\
    field b "link" = Some (PStr "https://telemost.yandex.ru/j/901") /\
    Database.rows d' = (Database.rows Database.init_db ++ [row])%list /\
    Database.id row = Database.next_id Database.init_db /\
    Database.link (Database.data row)
    = SText "https://telemost.yandex.ru/j/901" /\
    Database.owner_id (Database.data row) = SText "alice".
Proof.
  apply (X27_create_with_token_answers_the_remote_id "2024-01-01 09:00:00"
           (with_token (answers created_remote)) "y0_token" alice
           "alice" "Alice" "Standup" "conference"
           "https://telemost.yandex.ru/j/901" []
           [("name", PStr "Standup"); ("type", PStr "conference")]
           [ ("id", PInt 901);
             ("link", PStr "https://telemost.yandex.ru/j/901") ]
           (PInt 901) created_remote Database.init_db);
    try reflexivity.
  - discriminate.
  - right. reflexivity.
  - discriminate.
  - vm_compute. discriminate.
Defined.

(* ================================================================== *)
(** ** More of database.py: update, then read                           *)
(* ================================================================== *)

(** X28. [update_conference], then [get_conference_by_id].  For a row that
    exists, a valid record whose link no other row has is written over the
    row, and reading the id back returns the record field for field, an
    absent field as its default, with these exceptions: [id], [ownerId]
    and [createdAt] are those of the row as it was; an [ownerId] in the
    record is ignored. *)
Theorem X28_update_then_read (now : string) (d : Database.db) (i : Z)
  (c : dict) (old : Database.row) :
  find (fun r => Database.id r =? i) (Database.rows d) = Some old ->
  row_checked old = true ->
  int64_min <= i <= int64_max ->
  valid_update c = true ->
  link_free_for i d (default c "link" (PStr "")) = true ->
  exists d',
    Database.update_conference now d i (PDict c) = Ok (d', true) /\
    Database.get_conference_by_id d' i
    = Ok (read_back
            (("ownerId", py_of_sql (Database.owner_id (Database.data old)))
               :: c)
            i (Database.created_at old)).
Proof.
  intros Hold Hchk Hi Hv Hfree.
  pose proof (checked_owner old Hchk) as Hown.
  unfold valid_update in Hv. open_valid.
  unfold Database.update_conference, read_back.
  rewrite !py_get_default.
  repeat match goal with
         | H : default c _ PNone = PStr _ |- _ =>
             rewrite (py_item_default _ _ _ H)
         end.
  unfold default in *.
  cbn [dict_get String.eqb Ascii.eqb Bool.eqb].
  repeat match goal with
         | H : match dict_get c _ with Some _ => _ | None => _ end = _
           |- _ => rewrite H in *
         end.
  assert (E1 : ((int64_min <=? i) && (i <=? int64_max))%bool = true).
  { apply andb_true_iff. rewrite !Z.leb_le. exact Hi. }
  cbn [bind bind_param]. rewrite E1. cbn [bind].
  unfold Database.update_row. rewrite Hold.
  unfold Database.check_constraints, Database.stored.
  cbn [Database.name Database.type Database.description Database.start_date
       Database.start_time Database.cohosts Database.create_calendar_event
       Database.invite_users Database.live_stream_title
       Database.live_stream_description Database.owner_id
       Database.owner_name Database.link Database.status
       text_affinity Database.is_null].
  simpl in Hfree. apply negb_true_iff in Hfree.
  repeat match goal with
         | H : Database.type_allowed _ = true |- _ => rewrite H
         end.
  rewrite Hfree, Hown.
  assert (Eo : Database.is_null (Database.owner_id (Database.data old))
               = false).
  { unfold row_checked in Hchk.
    apply andb_prop in Hchk. destruct Hchk as [Hchk _].
    apply andb_prop in Hchk. destruct Hchk as [_ Hchk].
    now destruct (Database.owner_id (Database.data old)). }
  rewrite Eo. cbn [negb bind].
  eexists. split; [reflexivity|].
  unfold Database.get_conference_by_id. cbn [bind_param]. rewrite E1.
  cbn [bind Database.rows].
  rewrite (find_updated i
             (fun r => {| Database.id := Database.id r;
                          Database.data := _;
                          Database.created_at := Database.created_at r;
                          Database.updated_at := now |})
             (Database.rows d) old (fun r => eq_refl) Hold).
  unfold Database.conference_of_row.
  cbn [Database.id Database.data Database.created_at Database.name
       Database.type Database.description Database.start_date
       Database.start_time Database.cohosts Database.create_calendar_event
       Database.invite_users Database.live_stream_title
       Database.live_stream_description Database.owner_id
       Database.owner_name Database.link Database.status
       text_affinity py_of_sql dict_get String.eqb Ascii.eqb Bool.eqb].
  repeat match goal with
         | H : numeric_affinity _ = _ |- _ => rewrite H
         end.
  apply find_some in Hold. destruct Hold as [_ Hid].
  apply Z.eqb_eq in Hid. rewrite Hid.
  match goal with
  | |- context [numeric_affinity (SInt (if ?a then 1 else 0))] =>
      destruct a
  end;
  match goal with
  | |- context [numeric_affinity (SInt (if ?a then 1 else 0))] =>
      destruct a
  end; reflexivity.
Qed.

Lemma X28_update_then_read_witness :
  exists d',
    Database.update_conference "2024-03-05 08:00:00" db_review 1
      (PDict renamed) = Ok (d', true) /\
    Database.get_conference_by_id d' 1
    = Ok (read_back (("ownerId", PStr "bob") :: renamed) 1
            "2024-03-01 10:00:00").
Proof.
  assert (Hrow : exists old,
            find (fun r => Database.id r =? 1) (Database.rows db_review)
            = Some old /\
            row_checked old = true /\
            py_of_sql (Database.owner_id (Database.data old)) = PStr "bob" /\
            Database.created_at old = "2024-03-01 10:00:00").
  { vm_compute. eexists. repeat split. }
  destruct Hrow as (old & Hfind & Hchk & Ho & Hcr).
  rewrite <- Ho, <- Hcr.
  apply (X28_update_then_read "2024-03-05 08:00:00" db_review 1 renamed old
           Hfind Hchk).
  - vm_compute. split; discriminate.
  - reflexivity.
  - vm_compute. reflexivity.
Defined.
